(** * Gemini exchange client (rotkehlchen/exchanges/gemini.py)

    A shallow embedding of the Gemini client of rotki and the properties its
    specification states about it.

    Conventions of the embedding.
    - Python exceptions are values of [exn]; a computation that may raise
      returns an [outcome].  Methods of the [Gemini] object are functions
      of the monad [M], which threads the object (and the history of its
      exchanges with the outside world) and an outcome.
    - [while True] is bounded by a fuel argument; a run that exhausts it has
      no outcome ([None]), and no [except] clause catches that.
    - Raw JSON values are the type [json]; a venue record is a [JDict].  The
      dictionaries the client builds itself ([options], the payload of a
      private query, the balance map) are finite maps.
    - Decimal amounts ([FVal]) are rationals [Q].  The two float divisions
      of the source ([ts / 1000]) are taken exactly, in [Q]; on millisecond
      timestamps below 2^53 the float quotient compares with, and truncates
      to, the same integers.
    - Imports of the module that live outside this file (the asset
      resolver, the deserializers, the price oracle, the JSON decoder, the
      HTTP session and the clock) are the fields of the class [Externals].
      The price oracle is a function of the asset; the session and the
      clock are functions of what the client has done so far.
    - Logging ([log.debug], [log.error]) is left out, and so are the
      decorators of [query_balances] (the lock and the cache): the
      definition of that name is the body of the method. *)

From Stdlib Require Import ZArith QArith Qabs Qround Ascii String List Sorted Lia Bool.
From stdpp Require Import base option list sorting strings pretty gmap.

Set Warnings "-register-all".
Local Open Scope Z_scope.
Local Open Scope string_scope.

(** ** Python values *)

Inductive json : Type :=
| JNull
| JBool (b : bool)
| JInt (z : Z)
| JStr (s : string)
| JList (l : list json)
| JDict (d : list (string * json)).

Inductive exn : Type :=
| RemoteError (msg : string)
| GeminiPermissionError (msg : string)
| UnknownAsset (asset_name : string)
| UnsupportedAsset (asset_name : string)
| UnprocessableTradePair (pair : string)
| DeserializationError (msg : string)
| KeyError (key : string)
| TypeError (msg : string)
| JSONDecodeError (msg : string)
| RequestException (msg : string)
| UnboundLocalError (name : string)
| IndexError (msg : string)
| AssertionError (msg : string).

(** [str(e)] for the exceptions whose text the module prints. *)
Definition str_exn (e : exn) : string :=
  match e with
  | RemoteError m | GeminiPermissionError m | UnknownAsset m
  | UnsupportedAsset m | UnprocessableTradePair m | DeserializationError m
  | TypeError m | JSONDecodeError m | RequestException m
  | UnboundLocalError m | IndexError m | AssertionError m => m
  | KeyError k => "'" ++ k ++ "'"
  end.

Inductive outcome (A : Type) : Type :=
| Return (a : A)
| Raise (e : exn).
Arguments Return {A} a.
Arguments Raise {A} e.

Definition obind {A B} (k : A -> outcome B) (c : outcome A) : outcome B :=
  match c with
  | Return a => k a
  | Raise e => Raise e
  end.

#[global] Instance outcome_bind : MBind outcome := @obind.
#[global] Instance outcome_ret : MRet outcome := @Return.
#[global] Instance outcome_fmap : FMap outcome :=
  fun A B f c => obind (fun a => Return (f a)) c.

(** ** Strings *)

Definition upper_ascii (c : ascii) : ascii :=
  let n := nat_of_ascii c in
  if ((97 <=? n) && (n <=? 122))%nat then ascii_of_nat (n - 32) else c.

(** the double quote, as a string *)
Definition dquote : string := String (ascii_of_nat 34) EmptyString.

(** [s.upper()] *)
Fixpoint upper (s : string) : string :=
  match s with
  | EmptyString => EmptyString
  | String c s' => String (upper_ascii c) (upper s')
  end.

Definition lower_ascii (c : ascii) : ascii :=
  let n := nat_of_ascii c in
  if ((65 <=? n) && (n <=? 90))%nat then ascii_of_nat (n + 32) else c.

(** [s.lower()] *)
Fixpoint lower (s : string) : string :=
  match s with
  | EmptyString => EmptyString
  | String c s' => String (lower_ascii c) (lower s')
  end.

(** [s[:n]] *)
Fixpoint slice_to (n : nat) (s : string) : string :=
  match n, s with
  | S n', String c s' => String c (slice_to n' s')
  | _, _ => EmptyString
  end.

(** [s[n:]] *)
Fixpoint slice_from (n : nat) (s : string) : string :=
  match n, s with
  | S n', String _ s' => slice_from n' s'
  | _, _ => s
  end.

(** [needle in s] *)
Fixpoint str_in (needle s : string) : bool :=
  String.prefix needle s ||
  match s with
  | EmptyString => false
  | String _ s' => str_in needle s'
  end.

(** ** Assets and the collaborators of the module *)

Record Asset : Type := mkAsset { identifier : string }.

Definition FVal : Type := Q.
Definition ZERO : FVal := 0%Q.
Definition Timestamp : Type := Z.
Definition TradePair : Type := string.

Inductive Location : Type := GEMINI.
Inductive TradeType : Type := BUY | SELL.
Inductive AssetMovementCategory : Type := DEPOSIT | WITHDRAWAL.

#[global] Instance Asset_eq_dec : EqDecision Asset.
Proof. solve_decision. Defined.

#[global] Instance Asset_countable : Countable Asset :=
  inj_countable' identifier mkAsset (fun a => match a with mkAsset _ => eq_refl end).

Module Trade.
Record t : Type := mk {
  timestamp : Timestamp;
  location : Location;
  pair : TradePair;
  trade_type : TradeType;
  amount : FVal;
  rate : FVal;
  fee : FVal;
  fee_currency : Asset;
  link : string;
  notes : string
  }.
End Trade.

Module AssetMovement.
Record t : Type := mk {
  location : Location;
  category : AssetMovementCategory;
  address : option string;
  transaction_id : option string;
  timestamp : Timestamp;
  asset : Asset;
  amount : FVal;
  fee_asset : Asset;
  fee : FVal;
  link : string
  }.
End AssetMovement.

(** an entry of the balance map: [{'amount': ..., 'usd_value': ...}] *)
Module Balance.
Record t : Type := mk {
  amount : FVal;
  usd_value : FVal
  }.
End Balance.

Record Response : Type := mkResponse {
  status_code : Z;
  url : string;
  text : string
}.

(** What the session sends: the method, the url, the timeout, and the
    payload whose encoding the session headers carry at that moment
    ([X-GEMINI-PAYLOAD] is the base64 of its JSON text and
    [X-GEMINI-SIGNATURE] the HMAC-SHA384 of that under the secret). *)
Record Request : Type := mkRequest {
  req_method : string;
  req_url : string;
  req_timeout : Z;
  req_payload : option (gmap string json)
}.

Inductive Event : Type :=
| EvRequest (r : Request)
| EvSleep (seconds : Q).

Class Externals : Type := {
  (** [Asset(x)]: the asset resolver *)
  Asset_ : json -> outcome Asset;
  deserialize_asset_amount : json -> outcome FVal;
  deserialize_asset_movement_category : json -> outcome AssetMovementCategory;
  deserialize_fee : json -> outcome FVal;
  deserialize_price : json -> outcome FVal;
  deserialize_timestamp : json -> outcome Timestamp;
  deserialize_trade_type : json -> outcome TradeType;
  deserialize_asset_movement_address :
    json -> string -> Asset -> outcome (option string);
  get_key_if_has_val : json -> string -> outcome (option string);
  (** [Inquirer().find_usd_price(asset)] *)
  find_usd_price : Asset -> outcome FVal;
  rlk_jsonloads_list : string -> outcome (list json);
  rlk_jsonloads_dict : string -> outcome (list (string * json));
  (** [str(x)] on a raw value *)
  py_str : json -> string;
  (** [self.session.request(...)]: the venue's answer, given what was
      exchanged before *)
  session_request : list Event -> Request -> outcome Response;
  (** [ts_now_in_ms()] *)
  ts_now_in_ms : list Event -> Z
}.

(** ** gemini_symbol_to_pair *)

Section SymbolToPair.
Context `{Externals}.

Definition gemini_symbol_to_pair (symbol : string) : outcome TradePair :=
  '(base_asset, quote_asset) ←
    (if (String.length symbol =? 6)%nat then
      base_asset ← Asset_ (JStr (upper (slice_to 3 symbol)));
      quote_asset ← Asset_ (JStr (upper (slice_from 3 symbol)));
      Return (base_asset, quote_asset)
    else if (String.length symbol =? 7)%nat then
      match (base_asset ← Asset_ (JStr (upper (slice_to 4 symbol)));
             quote_asset ← Asset_ (JStr (upper (slice_from 4 symbol)));
             Return (base_asset, quote_asset)) with
      | Raise (UnknownAsset _) =>
          base_asset ← Asset_ (JStr (upper (slice_to 3 symbol)));
          quote_asset ← Asset_ (JStr (upper (slice_from 3 symbol)));
          Return (base_asset, quote_asset)
      | r => r
      end
    else if (String.length symbol =? 8)%nat then
      if str_in "storj" symbol then
        base_asset ← Asset_ (JStr (upper (slice_to 5 symbol)));
        quote_asset ← Asset_ (JStr (upper (slice_from 5 symbol)));
        Return (base_asset, quote_asset)
      else
        base_asset ← Asset_ (JStr (upper (slice_to 4 symbol)));
        quote_asset ← Asset_ (JStr (upper (slice_from 4 symbol)));
        Return (base_asset, quote_asset)
    else Raise (UnprocessableTradePair symbol));
  Return (identifier base_asset ++ "_" ++ identifier quote_asset).

End SymbolToPair.

(** ** The client object and its monad *)

Inductive Message : Type :=
| Warning (msg : string)
| Error (msg : string).

Record Gemini : Type := mkGemini {
  api_key : string;
  secret : string;
  base_uri : string;
  first_connection_made : bool;
  _symbols : list json;
  (** the payload behind the [X-GEMINI-PAYLOAD] / [X-GEMINI-SIGNATURE]
      headers of [self.session], once a private query has set them *)
  session_payload : option (gmap string json);
  (** [self.msg_aggregator], oldest message first *)
  msg_aggregator : list Message;
  (** what the client has done to the outside world, oldest first *)
  world : list Event
}.

(** A method call either runs to completion, with an outcome and the
    object as it leaves it, or runs out of fuel ([None]). *)
Definition M (A : Type) : Type := Gemini -> option (outcome A * Gemini).

Definition Mbind {A B} (k : A -> M B) (c : M A) : M B :=
  fun g =>
    match c g with
    | Some (Return a, g') => k a g'
    | Some (Raise e, g') => Some (Raise e, g')
    | None => None
    end.

#[global] Instance M_bind : MBind M := @Mbind.
#[global] Instance M_ret : MRet M := fun A a g => Some (Return a, g).

Definition lift {A} (c : outcome A) : M A := fun g => Some (c, g).
Definition raise {A} (e : exn) : M A := fun g => Some (Raise e, g).
Definition timeout {A} : M A := fun _ => None.
Definition self : M Gemini := fun g => Some (Return g, g).

(** [for x in l: s = body(s, x)] *)
Fixpoint for_each {S X} (body : S -> X -> M S) (s : S) (l : list X) : M S :=
  match l with
  | [] => mret s
  | x :: l' => s' ← body s x; for_each body s' l'
  end.

(** [try: body except <the exceptions the handler answers>: ...] *)
Definition try_except {A} (body : M A) (handler : exn -> option (M A)) : M A :=
  fun g =>
    match body g with
    | Some (Raise e, g') =>
        match handler e with
        | Some h => h g'
        | None => Some (Raise e, g')
        end
    | r => r
    end.

Definition add_warning (msg : string) : M unit :=
  fun g =>
    Some (Return tt,
     mkGemini (api_key g) (secret g) (base_uri g) (first_connection_made g)
       (_symbols g) (session_payload g) (msg_aggregator g ++ [Warning msg])
       (world g)).

Definition add_error (msg : string) : M unit :=
  fun g =>
    Some (Return tt,
     mkGemini (api_key g) (secret g) (base_uri g) (first_connection_made g)
       (_symbols g) (session_payload g) (msg_aggregator g ++ [Error msg])
       (world g)).

Definition emit (ev : Event) : M unit :=
  fun g =>
    Some (Return tt,
     mkGemini (api_key g) (secret g) (base_uri g) (first_connection_made g)
       (_symbols g) (session_payload g) (msg_aggregator g) (world g ++ [ev])).

Definition set_session_payload (p : gmap string json) : M unit :=
  fun g =>
    Some (Return tt,
     mkGemini (api_key g) (secret g) (base_uri g) (first_connection_made g)
       (_symbols g) (Some p) (msg_aggregator g) (world g)).

Definition set_symbols (l : list json) : M unit :=
  fun g =>
    Some (Return tt,
     mkGemini (api_key g) (secret g) (base_uri g) (first_connection_made g)
       l (session_payload g) (msg_aggregator g) (world g)).

Definition set_first_connection_made (b : bool) : M unit :=
  fun g =>
    Some (Return tt,
     mkGemini (api_key g) (secret g) (base_uri g) b
       (_symbols g) (session_payload g) (msg_aggregator g) (world g)).

(** ** Dictionaries and raw values *)

(** [d[key]] on a raw record *)
Fixpoint dict_get (key : string) (d : list (string * json)) : option json :=
  match d with
  | [] => None
  | (k, v) :: d' => if String.eqb k key then Some v else dict_get key d'
  end.

(** [d.update(other)] on the dictionaries the client builds itself *)
Definition dict_update (d other : gmap string json) : gmap string json :=
  other ∪ d.

Definition py_getitem (entry : json) (key : string) : outcome json :=
  match entry with
  | JDict d =>
      match dict_get key d with
      | Some v => Return v
      | None => Raise (KeyError key)
      end
  | _ => Raise (TypeError "indices must be integers")
  end.

(** a raw value used as a number ([True] and [False] are 1 and 0) *)
Definition py_num (v : json) : outcome Z :=
  match v with
  | JInt z => Return z
  | JBool b => Return (if b then 1 else 0)
  | _ => Raise (TypeError "unsupported operand type(s)")
  end.

Definition py_list (v : json) : outcome (list json) :=
  match v with
  | JList l => Return l
  | _ => Raise (TypeError "not a list")
  end.

(** [a / b] on integers, [b] positive *)
Definition truediv (a : Z) (b : positive) : Q := a # b.

(** [int(q)]: truncation towards zero *)
Definition py_int (q : Q) : Z := Z.quot (Qnum q) (Zpos (Qden q)).

(** [q > n] *)
Definition Qgtb (q : Q) (n : Z) : bool := negb (Qle_bool q (inject_Z n)).

(** ** constants/timing.py and HTTPStatus *)

Definition GLOBAL_REQUESTS_TIMEOUT : Z := 5.
Definition QUERY_RETRY_TIMES : Z := 5.

Definition HTTP_OK : Z := 200.
Definition HTTP_BAD_REQUEST : Z := 400.
Definition HTTP_FORBIDDEN : Z := 403.
Definition HTTP_TOO_MANY_REQUESTS : Z := 429.

(** ** The class Gemini *)

Section Client.
Context `{Externals}.

(** [self.session.request(method=method, url=url, timeout=...)] *)
Definition request (method url : string) : M Response :=
  fun g =>
    let req :=
      mkRequest method url GLOBAL_REQUESTS_TIMEOUT (session_payload g) in
    Some (session_request (world g) req,
          mkGemini (api_key g) (secret g) (base_uri g)
            (first_connection_made g) (_symbols g) (session_payload g)
            (msg_aggregator g) (world g ++ [EvRequest req])).

(** the headers of a private query: nonce, payload and signature *)
Definition sign (v_endpoint : string) (options : option (gmap string json))
  : M unit :=
  fun g =>
    let timestamp := pretty (ts_now_in_ms (world g)) in
    let payload : gmap string json :=
      <["request" := JStr v_endpoint]> (<["nonce" := JStr timestamp]> ∅) in
    let payload :=
      match options with
      | Some o => dict_update payload o
      | None => payload
      end in
    set_session_payload payload g.

Definition is_private (endpoint : string) : bool :=
  existsb (String.eqb endpoint) ["mytrades"; "balances"; "transfers"; "roles"].

(** the [while retries_left > 0] loop; [response] is the variable of that
    name, unbound until the first request has answered *)
Fixpoint _query_continuously_loop (method endpoint v_endpoint url : string)
    (options : option (gmap string json))
    (retries_left : nat) (response : option Response) : M Response :=
  match retries_left with
  | O =>
      match response with
      | Some r => mret r
      | None => raise (UnboundLocalError "response")
      end
  | S retries_left' =>
      (if is_private endpoint then sign v_endpoint options else mret tt);;
      response ← try_except (request method url) (fun e =>
        match e with
        | RequestException m =>
            Some (raise (RemoteError
              ("Gemini " ++ method ++ " query at " ++ url
               ++ " connection error: " ++ m)))
        | _ => None
        end);
      if (status_code response =? HTTP_TOO_MANY_REQUESTS)%Z then
        emit (EvSleep (truediv QUERY_RETRY_TIMES (Pos.of_nat retries_left)));;
        _query_continuously_loop method endpoint v_endpoint url options
          retries_left' (Some response)
      else mret response
  end.

Definition _query_continuously (method endpoint : string)
    (options : option (gmap string json)) : M Response :=
  fun g =>
    let v_endpoint := "/v1/" ++ endpoint in
    let url := base_uri g ++ v_endpoint in
    _query_continuously_loop method endpoint v_endpoint url options
      (Z.to_nat QUERY_RETRY_TIMES) None g.

Definition status_error (response : Response) : exn :=
  RemoteError
    ("Gemini query at " ++ url response ++ " responded with error "
     ++ "status code: " ++ pretty (status_code response)
     ++ " and text: " ++ text response).

Definition json_error (response : Response) : exn :=
  RemoteError
    ("Gemini query at " ++ url response
     ++ " returned invalid JSON response: " ++ text response).

Definition on_JSONDecodeError {A} (response : Response) (c : outcome A)
  : outcome A :=
  match c with
  | Raise (JSONDecodeError _) => Raise (json_error response)
  | r => r
  end.

Definition _public_api_query (endpoint : string) : M (list json) :=
  response ← _query_continuously "get" endpoint None;
  if negb (status_code response =? HTTP_OK)%Z then
    raise (status_error response)
  else
    lift (on_JSONDecodeError response (rlk_jsonloads_list (text response))).

Definition _private_api_query (endpoint : string)
    (options : option (gmap string json)) : M json :=
  response ← _query_continuously "post" endpoint options;
  if (status_code response =? HTTP_FORBIDDEN)%Z then
    raise (GeminiPermissionError
             ("API key does not have permission for " ++ endpoint))
  else if (status_code response =? HTTP_BAD_REQUEST)%Z
          && str_in "InvalidSignature" (text response) then
    raise (GeminiPermissionError "Invalid API Key or API secret")
  else if negb (status_code response =? HTTP_OK)%Z then
    raise (status_error response)
  else if String.eqb endpoint "roles" then
    lift (on_JSONDecodeError response
            (JDict <$> rlk_jsonloads_dict (text response)))
  else
    lift (on_JSONDecodeError response
            (JList <$> rlk_jsonloads_list (text response))).

Definition first_connection : M unit :=
  fun g =>
    if first_connection_made g then Some (Return tt, g)
    else
      (symbols ← _public_api_query "symbols";
       set_symbols symbols;;
       set_first_connection_made true) g.

Definition validate_api_key : M (bool * string) :=
  let msg :=
    "Provided Gemini API key needs to have " ++ dquote ++ "Auditor" ++ dquote
    ++ " permission activated. "
    ++ "Please log into your gemini account and create a key with "
    ++ "the required permissions." in
  r ← try_except
    (roles ← _private_api_query "roles" None; mret (inl roles))
    (fun e =>
       match e with
       | GeminiPermissionError _ => Some (mret (inr msg))
       | RemoteError error => Some (mret (inr error))
       | _ => None
       end);
  match r with
  | inr error => mret (false, error)
  | inl roles =>
      match roles with
      | JDict d =>
          match dict_get "isAuditor" d with
          | None | Some (JBool false) => mret (false, msg)
          | Some _ => mret (true, "")
          end
      | _ => raise (TypeError "object has no attribute 'get'")
      end
  end.

(** the property [symbols] *)
Definition symbols : M (list json) :=
  first_connection;;
  g ← self;
  mret (_symbols g).


(** *** query_balances *)

(** the [except] clauses of the balance loop, each ending in [continue] *)
Definition balance_handlers (e : exn) : option (M unit) :=
  match e with
  | UnknownAsset asset_name =>
      Some (add_warning
              ("Found gemini balance result with unknown asset "
               ++ asset_name ++ ". Ignoring it."))
  | UnsupportedAsset asset_name =>
      Some (add_warning
              ("Found gemini balance result with unsupported asset "
               ++ asset_name ++ ". Ignoring it."))
  | DeserializationError _ | KeyError _ =>
      Some (add_error
              ("Error processing a gemini balance. Check logs "
               ++ "for details. Ignoring it."))
  | _ => None
  end.

(** the body of [for entry in balances] *)
Definition query_balances_entry (returned_balances : gmap Asset Balance.t)
    (entry : json) : M (gmap Asset Balance.t) :=
  try_except
    (amount ← lift (v ← py_getitem entry "amount"; deserialize_asset_amount v);
     if Qeq_bool amount ZERO then mret returned_balances
     else
       asset ← lift (v ← py_getitem entry "currency"; Asset_ v);
       usd_price ← try_except
         (p ← lift (find_usd_price asset); mret (Some p))
         (fun e =>
            match e with
            | RemoteError m =>
                Some (add_error
                        ("Error processing gemini balance result due to inability to "
                         ++ "query USD price: " ++ m ++ ". Skipping balance entry");;
                      mret None)
            | _ => None
            end);
       match usd_price with
       | None => mret returned_balances
       | Some usd_price =>
           mret (<[asset := Balance.mk amount (amount * usd_price)%Q]>
                   returned_balances)
       end)
    (fun e =>
       match balance_handlers e with
       | Some h => Some (h;; mret returned_balances)
       | None => None
       end).

Definition query_balances : M (option (gmap Asset Balance.t) * string) :=
  r ← try_except
    (balances ← _private_api_query "balances" None; mret (inl balances))
    (fun e =>
       match e with
       | GeminiPermissionError _ | RemoteError _ =>
           Some (mret (inr ("Gemini API request failed. " ++ str_exn e)))
       | _ => None
       end);
  match r with
  | inr msg => mret (None, msg)
  | inl balances =>
      entries ← lift (py_list balances);
      returned_balances ← for_each query_balances_entry ∅ entries;
      mret (Some returned_balances, "")
  end.

(** *** _get_paginated_query *)

(** one turn of the [while True] loop: the accumulated result, and the
    options of the next turn unless the turn ends in [break] *)
Definition _get_paginated_query_turn (endpoint : string) (end_ts : Timestamp)
    (limit : Z) (options : gmap string json) (result : list json)
  : M (list json * option (gmap string json)) :=
  single_result ← _private_api_query endpoint (Some options);
  single_result ← lift (py_list single_result);
  let result := (result ++ single_result)%list in
  if (Z.of_nat (length single_result) <? limit)%Z then mret (result, None)
  else
    last_ts_ms ← lift
      (match single_result with
       | first :: _ => v ← py_getitem first "timestampms"; py_num v
       | [] => Raise (IndexError "list index out of range")
       end);
    if (py_int (truediv last_ts_ms 1000) >? end_ts)%Z then mret (result, None)
    else mret (result, Some (<["timestamp" := JInt (last_ts_ms + 1)]> options)).

Fixpoint _get_paginated_query_loop (fuel : nat) (endpoint : string)
    (end_ts : Timestamp) (limit : Z) (options : gmap string json)
    (result : list json) : M (list json) :=
  match fuel with
  | O => timeout
  | S fuel' =>
      '(result, next) ← _get_paginated_query_turn endpoint end_ts limit options result;
      match next with
      | None => mret result
      | Some options =>
          _get_paginated_query_loop fuel' endpoint end_ts limit options result
      end
  end.

(** the [for entry in result] loop that fills [checked_result] *)
Fixpoint check_result (end_ts : Timestamp) (result checked_result : list json)
  : outcome (list json) :=
  match result with
  | [] => Return checked_result
  | entry :: rest =>
      ts ← (v ← py_getitem entry "timestampms"; py_num v);
      if Qgtb (truediv ts 1000) end_ts then Return checked_result
      else check_result end_ts rest (checked_result ++ [entry])
  end.

Definition _get_paginated_query (fuel : nat) (endpoint : string)
    (start_ts end_ts : Timestamp) (kwargs : gmap string json)
  : M (list json) :=
  let options := dict_update {["timestamp" := JInt start_ts]} kwargs in
  '(limit, options) ←
    (if String.eqb endpoint "mytrades" then
       mret (500, <["limit_trades" := JInt 500]> options)
     else if String.eqb endpoint "transfers" then
       mret (50, <["limit_trades" := JInt 50]> options)
     else
       raise (AssertionError "_get_paginated_query() used with invalid endpoint"));
  result ← _get_paginated_query_loop fuel endpoint end_ts limit options [];
  lift (check_result end_ts (rev result) []).

(** *** Trades *)

Definition _get_trades_for_symbol (fuel : nat) (symbol : json)
    (start_ts end_ts : Timestamp) : M (list json) :=
  try_except
    (_get_paginated_query fuel "mytrades" start_ts end_ts {["symbol" := symbol]})
    (fun e =>
       match e with
       | GeminiPermissionError m =>
           Some (add_error
                   ("Got permission error while querying Gemini for trades: " ++ m);;
                 mret [])
       | RemoteError m =>
           Some (add_error
                   ("Got remote error while querying Gemini for trades: " ++ m);;
                 mret [])
       | _ => None
       end).

(** [gemini_symbol_to_pair(symbol)] on a raw symbol; the venue lists its
    symbols as strings, and anything else has no [upper()] *)
Definition symbol_to_pair (symbol : json) : outcome TradePair :=
  match symbol with
  | JStr s => gemini_symbol_to_pair s
  | _ => Raise (TypeError "symbol is not a string")
  end.

(** the [try] block of the trade loop; [None] is its [break] *)
Definition trade_of_entry (end_ts : Timestamp) (symbol entry : json)
  : outcome (option Trade.t) :=
  timestamp ← (v ← py_getitem entry "timestamp"; deserialize_timestamp v);
  if (timestamp >? end_ts)%Z then Return None
  else
    trade_pair ← symbol_to_pair symbol;
    trade_type ← (v ← py_getitem entry "type"; deserialize_trade_type v);
    amount ← (v ← py_getitem entry "amount"; deserialize_asset_amount v);
    rate ← (v ← py_getitem entry "price"; deserialize_price v);
    fee ← (v ← py_getitem entry "fee_amount"; deserialize_fee v);
    fee_currency ← (v ← py_getitem entry "fee_currency"; Asset_ v);
    link ← (v ← py_getitem entry "tid"; Return (py_str v));
    Return (Some (Trade.mk timestamp GEMINI trade_pair trade_type amount rate fee
                    fee_currency link "")).

(** the [except] clauses of the trade loop, each ending in [continue] *)
Definition trade_handlers (e : exn) : option (M unit) :=
  match e with
  | UnprocessableTradePair p =>
      Some (add_warning
              ("Found unprocessable Gemini pair " ++ p ++ ". Ignoring the trade."))
  | UnknownAsset asset_name =>
      Some (add_warning
              ("Found unknown Gemini asset " ++ asset_name ++ ". "
               ++ "Ignoring the trade."))
  | DeserializationError _ | KeyError _ =>
      Some (add_error
              ("Failed to deserialize a gemini trade. "
               ++ "Check logs for details. Ignoring it."))
  | _ => None
  end.

(** [for entry in gemini_trades] *)
Fixpoint trades_of_entries (end_ts : Timestamp) (symbol : json)
    (gemini_trades : list json) (trades : list Trade.t) : M (list Trade.t) :=
  match gemini_trades with
  | [] => mret trades
  | entry :: rest =>
      match trade_of_entry end_ts symbol entry with
      | Return None => mret trades
      | Return (Some trade) =>
          trades_of_entries end_ts symbol rest (trades ++ [trade])
      | Raise e =>
          match trade_handlers e with
          | Some h => h;; trades_of_entries end_ts symbol rest trades
          | None => raise e
          end
      end
  end.

Definition query_online_trade_history (fuel : nat)
    (start_ts end_ts : Timestamp) : M (list Trade.t) :=
  syms ← symbols;
  for_each
    (fun trades symbol =>
       gemini_trades ← _get_trades_for_symbol fuel symbol start_ts end_ts;
       trades_of_entries end_ts symbol gemini_trades trades)
    [] syms.

(** *** Deposits and withdrawals *)

(** Modelled from the spec: [deserialize_asset_amount_force_positive] is
    imported from rotkehlchen/serialization/deserialize.py, which is not
    among the sources at hand; the spec says of the movement's amount that
    it "is coerced to non-negative". *)
Definition deserialize_asset_amount_force_positive (v : json) : outcome FVal :=
  amount ← deserialize_asset_amount v;
  Return (Qabs amount).

(** the [try] block of the movement loop *)
Definition movement_of_entry (entry : json) : outcome AssetMovement.t :=
  timestamp ← (v ← py_getitem entry "timestampms"; deserialize_timestamp v);
  let timestamp := py_int (truediv timestamp 1000) in
  asset ← (v ← py_getitem entry "currency"; Asset_ v);
  category ← (v ← py_getitem entry "type";
              deserialize_asset_movement_category v);
  address ← deserialize_asset_movement_address entry "destination" asset;
  transaction_id ← get_key_if_has_val entry "txHash";
  amount ← (v ← py_getitem entry "amount";
            deserialize_asset_amount_force_positive v);
  link ← (v ← py_getitem entry "eid"; Return (py_str v));
  Return (AssetMovement.mk GEMINI category address transaction_id timestamp
            asset amount asset ZERO link).

(** the [except] clauses of the movement loop, each ending in [continue] *)
Definition movement_handlers (e : exn) : option (M unit) :=
  match e with
  | UnknownAsset asset_name =>
      Some (add_warning
              ("Found gemini deposit/withdrawal with unknown asset "
               ++ asset_name ++ ". Ignoring it."))
  | UnsupportedAsset asset_name =>
      Some (add_warning
              ("Found gemini deposit/withdrawal with unsupported asset "
               ++ asset_name ++ ". Ignoring it."))
  | DeserializationError _ | KeyError _ =>
      Some (add_error
              ("Error processing a gemini deposit/withdrawal. Check logs "
               ++ "for details. Ignoring it."))
  | _ => None
  end.

(** the body of [for entry in result] *)
Definition movements_entry (movements : list AssetMovement.t) (entry : json)
  : M (list AssetMovement.t) :=
  match movement_of_entry entry with
  | Return movement => mret (movements ++ [movement])%list
  | Raise e =>
      match movement_handlers e with
      | Some h => h;; mret movements
      | None => raise e
      end
  end.

Definition query_online_deposits_withdrawals (fuel : nat)
    (start_ts end_ts : Timestamp) : M (list AssetMovement.t) :=
  result ← _get_paginated_query fuel "transfers" start_ts end_ts ∅;
  for_each movements_entry [] result.

End Client.

(** * Statements: the spec's readings and concrete venues *)

(** ** Symbol decomposition *)

Section SymbolSpec.
Context `{Externals}.

(** "split n/m": both halves, upper-cased, go through the asset
    resolver, base first; the pair joins their identifiers. *)
Definition split_at (n : nat) (symbol : string) : outcome TradePair :=
  base_asset ← Asset_ (JStr (upper (slice_to n symbol)));
  quote_asset ← Asset_ (JStr (upper (slice_from n symbol)));
  Return (identifier base_asset ++ "_" ++ identifier quote_asset).

(** both halves of a split, as a pair *)
Definition halves (n : nat) (symbol : string) : outcome (Asset * Asset) :=
  base_asset ← Asset_ (JStr (upper (slice_to n symbol)));
  quote_asset ← Asset_ (JStr (upper (slice_from n symbol)));
  Return (base_asset, quote_asset).

End SymbolSpec.

(** "contains the substring, compared case-insensitively" *)
Definition str_in_nocase (needle s : string) : bool :=
  str_in (lower needle) (lower s).

(** ** Concrete collaborators *)

Definition bad_value {A} : outcome A := Raise (DeserializationError "bad value").

Definition amount_of (v : json) : outcome FVal :=
  match v with
  | JInt z => Return (inject_Z z)
  | _ => bad_value
  end.

Definition timestamp_of (v : json) : outcome Timestamp :=
  match v with
  | JInt z => if (z <? 0)%Z then bad_value else Return z
  | _ => bad_value
  end.

Definition trade_type_of (v : json) : outcome TradeType :=
  match v with
  | JStr "Buy" => Return BUY
  | JStr "Sell" => Return SELL
  | _ => bad_value
  end.

Definition category_of (v : json) : outcome AssetMovementCategory :=
  match v with
  | JStr "Deposit" => Return DEPOSIT
  | JStr "Withdrawal" => Return WITHDRAWAL
  | _ => bad_value
  end.

Definition optional_str (entry : json) (key : string) : outcome (option string) :=
  match py_getitem entry key with
  | Return (JStr s) => Return (Some s)
  | _ => Return None
  end.

Definition show (v : json) : string :=
  match v with
  | JInt z => pretty z
  | JStr s => s
  | _ => ""
  end.

(** A resolver given by the list of the assets it knows and of those it
    knows but does not support. *)
Definition resolver (known unsupported : list string) (v : json) : outcome Asset :=
  match v with
  | JStr s =>
      if existsb (String.eqb s) unsupported then Raise (UnsupportedAsset s)
      else if existsb (String.eqb s) known then Return (mkAsset s)
      else Raise (UnknownAsset s)
  | _ => Raise (DeserializationError
                  "Tried to initialize an asset out of a non-string identifier")
  end.

(** Collaborators around a resolver, a price oracle, a decoder of response
    bodies and a venue. *)
Definition collaborators
    (resolve : json -> outcome Asset)
    (price : Asset -> outcome FVal)
    (decode : string -> outcome (list json))
    (venue : list Event -> Request -> outcome Response) : Externals :=
  {| Asset_ := resolve;
     deserialize_asset_amount := amount_of;
     deserialize_asset_movement_category := category_of;
     deserialize_fee := amount_of;
     deserialize_price := amount_of;
     deserialize_timestamp := timestamp_of;
     deserialize_trade_type := trade_type_of;
     deserialize_asset_movement_address := fun entry key _ => optional_str entry key;
     get_key_if_has_val := optional_str;
     find_usd_price := price;
     rlk_jsonloads_list := decode;
     rlk_jsonloads_dict := fun _ => Raise (JSONDecodeError "not an object");
     py_str := show;
     session_request := venue;
     ts_now_in_ms := fun w => Z.of_nat (length w) |}.

Definition no_body (text : string) : outcome (list json) :=
  Raise (JSONDecodeError text).

Definition silent_venue (w : list Event) (r : Request) : outcome Response :=
  Raise (RequestException "unreachable").

Definition unit_price (a : Asset) : outcome FVal := Return 1%Q.

(** every name is a known asset *)
Definition any_asset (v : json) : outcome Asset :=
  match v with
  | JStr s => Return (mkAsset s)
  | _ => bad_value
  end.

Definition permissive : Externals :=
  collaborators any_asset unit_price no_body silent_venue.

(** a resolver that knows ABCD, ABC and DEFG, but not EFG *)
Definition picky : Externals :=
  collaborators (resolver ["ABCD"; "ABC"; "DEFG"] []) unit_price no_body silent_venue.

(** a fresh client *)
Definition fresh : Gemini :=
  mkGemini "key" "secret" "https://api.gemini.com" false [] None [] [].

(** ** Reading the history of a client *)

Fixpoint requests_of (w : list Event) : list Request :=
  match w with
  | [] => []
  | EvRequest r :: w' => r :: requests_of w'
  | EvSleep _ :: w' => requests_of w'
  end.

Fixpoint sleeps_of (w : list Event) : list Q :=
  match w with
  | [] => []
  | EvRequest _ :: w' => sleeps_of w'
  | EvSleep q :: w' => q :: sleeps_of w'
  end.

(** a venue that answers every request with 429 *)
Definition busy_venue (w : list Event) (r : Request) : outcome Response :=
  Return (mkResponse HTTP_TOO_MANY_REQUESTS (req_url r) "slow down").

Definition busy : Externals :=
  collaborators any_asset unit_price no_body busy_venue.

(** a venue that lists two symbols, whatever it is asked *)
Definition listing_venue (w : list Event) (r : Request) : outcome Response :=
  Return (mkResponse HTTP_OK (req_url r) "symbols").

Definition two_symbols (text : string) : outcome (list json) :=
  if String.eqb text "symbols" then Return [JStr "btcusd"; JStr "ethusd"]
  else Raise (JSONDecodeError text).

Definition listing : Externals :=
  collaborators any_asset unit_price two_symbols listing_venue.

(** the request that lists the symbols *)
Definition symbols_request (g : Gemini) : Request :=
  mkRequest "get" (base_uri g ++ "/v1/symbols") GLOBAL_REQUESTS_TIMEOUT
    (session_payload g).

(** ** Pagination *)

(** [entry['timestampms']] as a number *)
Definition timestampms (entry : json) : outcome Z :=
  v ← py_getitem entry "timestampms"; py_num v.

(** the page size of an endpoint *)
Definition page_limit (endpoint : string) : Z :=
  if String.eqb endpoint "mytrades" then 500 else 50.

(** the pagination cursor: [options['timestamp']] *)
Definition cursor (options : gmap string json) : option json :=
  options !! "timestamp".

(** the state of the [while True] loop between two turns *)
Definition loop_state : Type := gmap string json * list json * Gemini.

Section PaginationSpec.
Context `{Externals}.

(** one turn that does not end in [break] *)
Inductive next_turn (endpoint : string) (end_ts : Timestamp) (limit : Z)
  : loop_state -> loop_state -> Prop :=
| next_turn_intro options result g options' result' g' :
    _get_paginated_query_turn endpoint end_ts limit options result g
    = Some (Return (result', Some options'), g') ->
    next_turn endpoint end_ts limit (options, result, g) (options', result', g').

(** The venue honours the cursor: the newest record of a full page is not
    older than the [timestamp] the page was asked from. *)
Definition honours_cursor (endpoint : string) (limit : Z) : Prop :=
  forall options g first rest g' c ts,
    _private_api_query endpoint (Some options) g
    = Some (Return (JList (first :: rest)), g') ->
    (limit <= Z.of_nat (length (first :: rest)))%Z ->
    cursor options = Some (JInt c) ->
    timestampms first = Return ts ->
    (c <= ts)%Z.

End PaginationSpec.

(** ** Venues for the transfer history *)

Definition transfer (kind currency : string) (amount timestamp_ms eid : Z) : json :=
  JDict [("type", JStr kind); ("currency", JStr currency);
         ("amount", JInt amount); ("timestampms", JInt timestamp_ms);
         ("eid", JInt eid)].

(** a full page of 50 deposits, all at millisecond 0 *)
Definition stuck_page : list json :=
  map (fun k => transfer "Deposit" "BTC" 1 0 (Z.of_nat k)) (seq 0 50).

(** a venue that ignores the cursor and answers every query with the same
    full page *)
Definition stuck_venue (w : list Event) (r : Request) : outcome Response :=
  Return (mkResponse HTTP_OK (req_url r) "stuck").

Definition stuck_body (text : string) : outcome (list json) :=
  if String.eqb text "stuck" then Return stuck_page
  else Raise (JSONDecodeError text).

Definition stuck : Externals :=
  collaborators any_asset unit_price stuck_body stuck_venue.

(** a full page, newest first: milliseconds 1049 down to 1000 *)
Definition full_page : list json :=
  map (fun k => transfer "Deposit" "BTC" 1 (1049 - Z.of_nat k) (49 - Z.of_nat k))
    (seq 0 50).

(** the page that follows: one withdrawal at millisecond 2000 *)
Definition tail_page : list json := [transfer "Withdrawal" "BTC" (-2) 2000 50].

(** a venue that answers with the full page up to cursor 1000, and with the
    tail page from there on *)
Definition honest_venue (w : list Event) (r : Request) : outcome Response :=
  match req_payload r with
  | Some payload =>
      match payload !! "timestamp" with
      | Some (JInt c) =>
          if (c <=? 1000)%Z then Return (mkResponse HTTP_OK (req_url r) "full")
          else Return (mkResponse HTTP_OK (req_url r) "tail")
      | _ => Return (mkResponse HTTP_OK (req_url r) "tail")
      end
  | None => Return (mkResponse HTTP_OK (req_url r) "tail")
  end.

Definition honest_body (text : string) : outcome (list json) :=
  if String.eqb text "full" then Return full_page
  else if String.eqb text "tail" then Return tail_page
  else Raise (JSONDecodeError text).

Definition honest : Externals :=
  collaborators any_asset unit_price honest_body honest_venue.

(** the record is not newer than the end of the window: its [timestampms]
    is a number and [timestampms / 1000 <= end_ts] *)
Definition within (end_ts : Timestamp) (entry : json) : Prop :=
  exists ts, timestampms entry = Return ts /\ (ts <= end_ts * 1000)%Z.

(** ** Venues for the normalizers *)

Definition trade (timestamp : Z) (fee_currency : string) (tid : Z) : json :=
  JDict [("timestamp", JInt timestamp); ("timestampms", JInt (timestamp * 1000));
         ("type", JStr "Buy"); ("amount", JInt 1); ("price", JInt 100);
         ("fee_amount", JInt 0); ("fee_currency", JStr fee_currency);
         ("tid", JInt tid)].

Definition balance (currency : string) (amount : Z) : json :=
  JDict [("currency", JStr currency); ("amount", JInt amount)].

(** a venue with one symbol, three trades, three transfers and three
    balances; the second of each is in the asset XYZ *)
Definition market_venue (w : list Event) (r : Request) : outcome Response :=
  Return (mkResponse HTTP_OK (req_url r) (req_url r)).

Definition market_body (text : string) : outcome (list json) :=
  if String.eqb text "https://api.gemini.com/v1/symbols" then
    Return [JStr "btcusd"]
  else if String.eqb text "https://api.gemini.com/v1/mytrades" then
    Return [trade 30 "USD" 3; trade 20 "XYZ" 2; trade 10 "USD" 1]
  else if String.eqb text "https://api.gemini.com/v1/transfers" then
    Return [transfer "Deposit" "BTC" 3 30000 3;
            transfer "Withdrawal" "XYZ" (-2) 20000 2;
            transfer "Withdrawal" "BTC" (-1) 10500 1]
  else if String.eqb text "https://api.gemini.com/v1/balances" then
    Return [balance "BTC" 1; balance "XYZ" 2; balance "USD" 3]
  else Raise (JSONDecodeError text).

(** a price oracle that cannot price XYZ *)
Definition market_price (a : Asset) : outcome FVal :=
  if String.eqb (identifier a) "XYZ" then Raise (RemoteError "no price for XYZ")
  else Return 2%Q.

(** XYZ is an asset that the resolver knows and does not support *)
Definition unsupporting : Externals :=
  collaborators (resolver ["BTC"; "USD"] ["XYZ"]) market_price market_body
    market_venue.

(** XYZ is an asset that the resolver does not know *)
Definition unknowing : Externals :=
  collaborators (resolver ["BTC"; "USD"] []) market_price market_body
    market_venue.

(** XYZ is an asset that the resolver knows and the oracle cannot price *)
Definition unpricing : Externals :=
  collaborators (resolver ["BTC"; "USD"; "XYZ"] []) market_price market_body
    market_venue.

(** the notification of a balance whose price cannot be queried *)
Definition price_error (m : string) : string :=
  "Error processing gemini balance result due to inability to "
  ++ "query USD price: " ++ m ++ ". Skipping balance entry".

(** a venue whose second transfer has no [timestampms] *)
Definition ragged_body (text : string) : outcome (list json) :=
  if String.eqb text "https://api.gemini.com/v1/transfers" then
    Return [transfer "Deposit" "BTC" 3 30000 3;
            JDict [("type", JStr "Deposit"); ("currency", JStr "BTC");
                   ("amount", JInt 2); ("eid", JInt 2)];
            transfer "Withdrawal" "BTC" (-1) 10500 1]
  else Raise (JSONDecodeError text).

Definition ragged : Externals :=
  collaborators (resolver ["BTC"; "USD"] []) market_price ragged_body
    market_venue.

(** ** Ordering *)

(** [a] is not newer than [b], by their millisecond timestamps *)
Definition not_newer (a b : json) : Prop :=
  exists ta tb,
    timestampms a = Return ta /\ timestampms b = Return tb /\ (ta <= tb)%Z.

Definition oldest_first (l : list json) : Prop := StronglySorted not_newer l.
Definition newest_first (l : list json) : Prop :=
  StronglySorted (flip not_newer) l.

(** ** The transport, request by request *)

(** the sleeps of a query that is answered 429 to the end, in order *)
Definition backoff : list Q :=
  map (truediv QUERY_RETRY_TIMES) [5; 4; 3; 2; 1]%positive.

(** [sum(l)] *)
Definition total (l : list Q) : Q := fold_right Qplus 0%Q l.

(** the client is as it was, but for its history and its session headers *)
Definition same_client (g g' : Gemini) : Prop :=
  api_key g' = api_key g /\ secret g' = secret g /\ base_uri g' = base_uri g /\
  first_connection_made g' = first_connection_made g /\
  _symbols g' = _symbols g /\ msg_aggregator g' = msg_aggregator g.

(** the payload of a private query, given its nonce *)
Definition payload_of (v_endpoint nonce : string)
    (options : option (gmap string json)) : gmap string json :=
  let payload : gmap string json :=
    <["request" := JStr v_endpoint]> (<["nonce" := JStr nonce]> ∅) in
  match options with
  | Some o => dict_update payload o
  | None => payload
  end.

(** a request as _query_continuously sends it for [endpoint] from the
    client [g] *)
Definition sent_by (method endpoint : string)
    (options : option (gmap string json)) (g : Gemini) (req : Request) : Prop :=
  req_method req = method /\
  req_url req = base_uri g ++ "/v1/" ++ endpoint /\
  req_timeout req = GLOBAL_REQUESTS_TIMEOUT /\
  if is_private endpoint then
    exists nonce,
      req_payload req = Some (payload_of ("/v1/" ++ endpoint) nonce options)
  else req_payload req = session_payload g.

(** ** What an operation may change *)

(** The client after an operation: same credentials and base uri; the
    history and the messages have only grown; once initialized, the client
    stays initialized, with the same symbols. *)
Definition extends (g g' : Gemini) : Prop :=
  api_key g' = api_key g /\ secret g' = secret g /\ base_uri g' = base_uri g /\
  world g `prefix_of` world g' /\
  msg_aggregator g `prefix_of` msg_aggregator g' /\
  (first_connection_made g = true ->
   first_connection_made g' = true /\ _symbols g' = _symbols g).

Definition preserving {A} (c : M A) : Prop :=
  forall g r g', c g = Some (r, g') -> extends g g'.

Section FirstRequest.
Context `{Externals}.

(** the payload of the session at the first attempt of a query *)
Definition first_payload (endpoint : string)
    (options : option (gmap string json)) (g : Gemini)
  : option (gmap string json) :=
  if is_private endpoint then
    Some (payload_of ("/v1/" ++ endpoint) (pretty (ts_now_in_ms (world g)))
            options)
  else session_payload g.

(** the first request of a query *)
Definition first_request (method endpoint : string)
    (options : option (gmap string json)) (g : Gemini) : Request :=
  mkRequest method (base_uri g ++ "/v1/" ++ endpoint) GLOBAL_REQUESTS_TIMEOUT
    (first_payload endpoint options g).

(** the client once that request is sent *)
Definition after_first_request (method endpoint : string)
    (options : option (gmap string json)) (g : Gemini) : Gemini :=
  mkGemini (api_key g) (secret g) (base_uri g) (first_connection_made g)
    (_symbols g) (first_payload endpoint options g) (msg_aggregator g)
    (world g ++ [EvRequest (first_request method endpoint options g)]).

End FirstRequest.

(** ** validate_api_key *)

(** the message of a key without the Auditor role *)
Definition auditor_msg : string :=
  "Provided Gemini API key needs to have " ++ dquote ++ "Auditor" ++ dquote
  ++ " permission activated. "
  ++ "Please log into your gemini account and create a key with "
  ++ "the required permissions.".

(** a venue that answers every query with 200, and a decoder that reads
    the given roles in every body *)
Definition with_roles (roles : list (string * json)) : Externals :=
  {| Asset_ := any_asset;
     deserialize_asset_amount := amount_of;
     deserialize_asset_movement_category := category_of;
     deserialize_fee := amount_of;
     deserialize_price := amount_of;
     deserialize_timestamp := timestamp_of;
     deserialize_trade_type := trade_type_of;
     deserialize_asset_movement_address := fun entry key _ => optional_str entry key;
     get_key_if_has_val := optional_str;
     find_usd_price := unit_price;
     rlk_jsonloads_list := no_body;
     rlk_jsonloads_dict := fun _ => Return roles;
     py_str := show;
     session_request := listing_venue;
     ts_now_in_ms := fun w => Z.of_nat (length w) |}.

(** ** The pages of a paginated query *)

Section Pages.
Context `{Externals}.

(** the page ends the [while True] loop: it is shorter than the limit, or
    its first record is past the end of the window, in whole seconds *)
Definition last_page (end_ts : Timestamp) (limit : Z) (page : list json) : Prop :=
  (Z.of_nat (length page) < limit)%Z \/
  exists first rest ts,
    page = first :: rest /\ timestampms first = Return ts /\
    (end_ts < Z.quot ts 1000)%Z.

(** The queries of the [while True] loop, from the options and the client
    of its first turn to the client it leaves, with the page each query
    was answered with: every page but the last is full and moves the
    cursor to one millisecond past its first record. *)
Inductive paginates (endpoint : string) (end_ts : Timestamp) (limit : Z)
  : gmap string json -> Gemini -> list (list json) -> Gemini -> Prop :=
| paginates_last options g page g' :
    _private_api_query endpoint (Some options) g
    = Some (Return (JList page), g') ->
    last_page end_ts limit page ->
    paginates endpoint end_ts limit options g [page] g'
| paginates_more options g first rest ts g1 pages g' :
    _private_api_query endpoint (Some options) g
    = Some (Return (JList (first :: rest)), g1) ->
    (limit <= Z.of_nat (length (first :: rest)))%Z ->
    timestampms first = Return ts ->
    (Z.quot ts 1000 <= end_ts)%Z ->
    paginates endpoint end_ts limit
      (<["timestamp" := JInt (ts + 1)]> options) g1 pages g' ->
    paginates endpoint end_ts limit options g ((first :: rest) :: pages) g'.

(** the options of the first query of _get_paginated_query *)
Definition first_options (endpoint : string) (start_ts : Timestamp)
    (kwargs : gmap string json) : gmap string json :=
  <["limit_trades" := JInt (page_limit endpoint)]>
    (dict_update {["timestamp" := JInt start_ts]} kwargs).

(** the first record that the trim leaves out, if any, is past the end of
    the window, in milliseconds *)
Definition cut_at (end_ts : Timestamp) (dropped : list json) : Prop :=
  match dropped with
  | [] => True
  | entry :: _ =>
      exists ts, timestampms entry = Return ts /\ (end_ts * 1000 < ts)%Z
  end.

End Pages.

(** ** Trades *)

(** the warning of a trade whose symbol has no pair *)
Definition unprocessable_warning (s : string) : Message :=
  Warning ("Found unprocessable Gemini pair " ++ s ++ ". Ignoring the trade.").

(** the client with more messages *)
Definition with_messages (g : Gemini) (messages : list Message) : Gemini :=
  mkGemini (api_key g) (secret g) (base_uri g) (first_connection_made g)
    (_symbols g) (session_payload g) (msg_aggregator g ++ messages) (world g).

(** the record has a timestamp within the window *)
Definition in_window `{Externals} (end_ts : Timestamp) (entry : json) : Prop :=
  exists v ts,
    py_getitem entry "timestamp" = Return v /\
    deserialize_timestamp v = Return ts /\ (ts <= end_ts)%Z.

(** the trade is what a record of one of the symbols normalizes to: it is
    of this venue, has no notes, and its pair is the pair of the symbol *)
Definition normal_trade `{Externals} (end_ts : Timestamp) (syms : list json)
    (t : Trade.t) : Prop :=
  Trade.location t = GEMINI /\ Trade.notes t = "" /\
  exists symbol entry,
    symbol ∈ syms /\ symbol_to_pair symbol = Return (Trade.pair t) /\
    trade_of_entry end_ts symbol entry = Return (Some t).

(** * Properties *)

(** ** gemini_symbol_to_pair *)

Section SymbolFacts.
Context `{Externals}.

Lemma split_at_halves n symbol :
  split_at n symbol =
  ('(base_asset, quote_asset) ← halves n symbol;
   Return (identifier base_asset ++ "_" ++ identifier quote_asset)).
Proof.
  unfold split_at, halves, mbind, outcome_bind, obind.
  destruct (Asset_ (JStr (upper (slice_to n symbol)))); [|reflexivity].
  destruct (Asset_ (JStr (upper (slice_from n symbol)))); reflexivity.
Qed.

Lemma split_at_unknown n symbol name :
  split_at n symbol = Raise (UnknownAsset name) <->
  Asset_ (JStr (upper (slice_to n symbol))) = Raise (UnknownAsset name) \/
  (exists b, Asset_ (JStr (upper (slice_to n symbol))) = Return b /\
             Asset_ (JStr (upper (slice_from n symbol))) = Raise (UnknownAsset name)).
Proof.
  unfold split_at, mbind, outcome_bind, obind.
  destruct (Asset_ (JStr (upper (slice_to n symbol)))) as [b|e].
  - destruct (Asset_ (JStr (upper (slice_from n symbol)))) as [q|e].
    + split; [discriminate|]. intros [?|(b' & _ & ?)]; discriminate.
    + split.
      * intros Heq. right. exists b. split; [reflexivity|].
        injection Heq as ->. reflexivity.
      * intros [?|(b' & _ & Heq)]; [discriminate|].
        injection Heq as ->. reflexivity.
  - split.
    + intros Heq. left. injection Heq as ->. reflexivity.
    + intros [Heq|(b' & ? & _)]; [|discriminate].
      injection Heq as ->. reflexivity.
Qed.

(** C2 (amended).  On a 7-character symbol the 4/3 split is attempted
    first; the 3/4 split replaces it exactly when the attempt raises
    UnknownAsset, which happens when the 4-character prefix is unknown or
    when the prefix resolves and the 3-character suffix is unknown.  Any
    other outcome of the 4/3 attempt is the result. *)
Theorem gemini_symbol_to_pair_length_7 symbol :
  String.length symbol = 7%nat ->
  gemini_symbol_to_pair symbol =
    match split_at 4 symbol with
    | Raise (UnknownAsset _) => split_at 3 symbol
    | r => r
    end
  /\ (forall name,
        split_at 4 symbol = Raise (UnknownAsset name) <->
        Asset_ (JStr (upper (slice_to 4 symbol))) = Raise (UnknownAsset name) \/
        (exists b,
           Asset_ (JStr (upper (slice_to 4 symbol))) = Return b /\
           Asset_ (JStr (upper (slice_from 4 symbol))) = Raise (UnknownAsset name))).
Proof.
  intros Hlen. split; [|intros name; apply split_at_unknown].
  rewrite !split_at_halves. unfold gemini_symbol_to_pair. rewrite Hlen.
  change (7 =? 6)%nat with false. change (7 =? 7)%nat with true. cbv iota.
  fold (halves 4 symbol). fold (halves 3 symbol).
  destruct (halves 4 symbol) as [[b q]|e]; [reflexivity|].
  destruct e; reflexivity.
Qed.

(** C3 (amended).  A 6-character symbol is split 3/3; an 8-character
    symbol is split 5/3 when it contains "storj" as written, in lower
    case, and 4/4 otherwise; a symbol of any length other than 6, 7 and 8
    raises UnprocessableTradePair with the symbol itself. *)
Theorem gemini_symbol_to_pair_by_length symbol :
  (String.length symbol = 6%nat ->
   gemini_symbol_to_pair symbol = split_at 3 symbol) /\
  (String.length symbol = 8%nat ->
   gemini_symbol_to_pair symbol =
     if str_in "storj" symbol then split_at 5 symbol else split_at 4 symbol) /\
  (String.length symbol <> 6%nat -> String.length symbol <> 7%nat ->
   String.length symbol <> 8%nat ->
   gemini_symbol_to_pair symbol = Raise (UnprocessableTradePair symbol)).
Proof.
  repeat split.
  - intros Hlen. rewrite split_at_halves.
    unfold gemini_symbol_to_pair. rewrite Hlen. reflexivity.
  - intros Hlen. unfold gemini_symbol_to_pair. rewrite Hlen.
    change (8 =? 6)%nat with false. change (8 =? 7)%nat with false.
    change (8 =? 8)%nat with true. cbv iota.
    destruct (str_in "storj" symbol); rewrite split_at_halves; reflexivity.
  - intros H6 H7 H8. unfold gemini_symbol_to_pair.
    apply Nat.eqb_neq in H6, H7, H8. rewrite H6, H7, H8. reflexivity.
Qed.

End SymbolFacts.

Lemma gemini_symbol_to_pair_length_7_witness :
  String.length "abcdefg" = 7%nat /\
  @gemini_symbol_to_pair picky "abcdefg" = Return "ABC_DEFG".
Proof.
  split; [reflexivity|].
  destruct (@gemini_symbol_to_pair_length_7 picky "abcdefg" eq_refl) as [Heq _].
  rewrite Heq. reflexivity.
Defined.

(** The resolver knows the 4-character prefix ABCD, and the symbol is
    decomposed 3/4 all the same, because the suffix EFG is unknown. *)
Lemma gemini_symbol_to_pair_known_prefix_falls_back :
  String.length "abcdefg" = 7%nat /\
  @Asset_ picky (JStr (upper (slice_to 4 "abcdefg"))) = Return (mkAsset "ABCD") /\
  @gemini_symbol_to_pair picky "abcdefg" = @split_at picky 3 "abcdefg" /\
  @gemini_symbol_to_pair picky "abcdefg" <> @split_at picky 4 "abcdefg".
Proof. repeat split; try reflexivity. vm_compute. discriminate. Qed.

Lemma gemini_symbol_to_pair_by_length_witness :
  (String.length "btcusd" = 6%nat /\
   @gemini_symbol_to_pair permissive "btcusd" = Return "BTC_USD") /\
  (String.length "storjusd" = 8%nat /\
   @gemini_symbol_to_pair permissive "storjusd" = Return "STORJ_USD") /\
  (String.length "btc" <> 6%nat /\
   @gemini_symbol_to_pair permissive "btc" = Raise (UnprocessableTradePair "btc")).
Proof.
  destruct (@gemini_symbol_to_pair_by_length permissive "btcusd") as [H6 _].
  destruct (@gemini_symbol_to_pair_by_length permissive "storjusd") as [_ [H8 _]].
  destruct (@gemini_symbol_to_pair_by_length permissive "btc") as [_ [_ Hother]].
  split; [split; [reflexivity|]|split; [split; [reflexivity|]|split]].
  - rewrite (H6 eq_refl). reflexivity.
  - rewrite (H8 eq_refl). reflexivity.
  - discriminate.
  - rewrite Hother; [reflexivity|discriminate..].
Defined.

(** An 8-character symbol that contains "storj" only up to case is split
    4/4, not 5/3. *)
Lemma gemini_symbol_to_pair_storj_upper_case :
  String.length "STORJUSD" = 8%nat /\
  str_in_nocase "storj" "STORJUSD" = true /\
  @gemini_symbol_to_pair permissive "STORJUSD" = Return "STOR_JUSD" /\
  @gemini_symbol_to_pair permissive "STORJUSD" <> @split_at permissive 5 "STORJUSD".
Proof. repeat split; try reflexivity. vm_compute. discriminate. Qed.

(** ** The monad *)

Lemma requests_of_app w1 w2 :
  requests_of (w1 ++ w2) = (requests_of w1 ++ requests_of w2)%list.
Proof.
  induction w1 as [|[r|q] w1 IH]; simpl; [reflexivity| |assumption].
  now rewrite IH.
Qed.

Lemma sleeps_of_app w1 w2 :
  sleeps_of (w1 ++ w2) = (sleeps_of w1 ++ sleeps_of w2)%list.
Proof.
  induction w1 as [|[r|q] w1 IH]; simpl; [reflexivity|assumption|].
  now rewrite IH.
Qed.

Lemma Mbind_eq {A B} (c : M A) (k : A -> M B) g :
  (c ≫= k) g =
  match c g with
  | Some (Return a, g') => k a g'
  | Some (Raise e, g') => Some (Raise e, g')
  | None => None
  end.
Proof. reflexivity. Qed.

(** ** _query_continuously *)

Section Transport.
Context `{Externals}.

(** the headers step of a turn leaves the history alone *)
Lemma presign_world endpoint v_endpoint options g :
  exists g1,
    (if is_private endpoint then sign v_endpoint options else mret tt) g
    = Some (Return tt, g1) /\
    world g1 = world g /\ base_uri g1 = base_uri g /\
    first_connection_made g1 = first_connection_made g /\
    _symbols g1 = _symbols g /\ msg_aggregator g1 = msg_aggregator g.
Proof.
  destruct (is_private endpoint); eexists; (split; [reflexivity|]);
    repeat split.
Qed.

Lemma _query_continuously_loop_S method endpoint v_endpoint url options n r0 :
  _query_continuously_loop method endpoint v_endpoint url options (S n) r0 =
  ((if is_private endpoint then sign v_endpoint options else mret tt);;
   response ← try_except (request method url) (fun e =>
     match e with
     | RequestException m =>
         Some (raise (RemoteError
           ("Gemini " ++ method ++ " query at " ++ url
            ++ " connection error: " ++ m)))
     | _ => None
     end);
   if (status_code response =? HTTP_TOO_MANY_REQUESTS)%Z then
     emit (EvSleep (truediv QUERY_RETRY_TIMES (Pos.of_nat (S n))));;
     _query_continuously_loop method endpoint v_endpoint url options
       n (Some response)
   else mret response).
Proof. reflexivity. Qed.

Section Always429.
Hypothesis always_429 :
  forall w r, exists resp,
    session_request w r = Return resp /\
    status_code resp = HTTP_TOO_MANY_REQUESTS.

Lemma loop_always_429 method endpoint v_endpoint url options n :
  forall response0 g,
  exists response g' w r,
    _query_continuously_loop method endpoint v_endpoint url options
      (S n) response0 g = Some (Return response, g') /\
    status_code response = HTTP_TOO_MANY_REQUESTS /\
    length (requests_of (world g')) =
      (length (requests_of (world g)) + S n)%nat /\
    sleeps_of (world g') =
      (sleeps_of (world g)
       ++ map (fun k => truediv QUERY_RETRY_TIMES (Pos.of_nat k))
            (rev (seq 1 (S n))))%list /\
    world g' = (w ++ [EvRequest r; EvSleep (truediv QUERY_RETRY_TIMES 1)])%list /\
    session_request w r = Return response.
Proof.
  induction n as [|n IH]; intros response0 g.
  - cbn [_query_continuously_loop]. rewrite Mbind_eq.
    destruct (presign_world endpoint v_endpoint options g)
      as (g1 & -> & Hw & _).
    rewrite Mbind_eq. unfold try_except, request.
    destruct (always_429 (world g1)
                (mkRequest method url GLOBAL_REQUESTS_TIMEOUT
                   (session_payload g1))) as (resp & Hresp & Hstatus).
    rewrite Hresp, Hstatus. cbn.
    eexists resp, _, (world g1), _. split; [reflexivity|]. cbn.
    rewrite <- !app_assoc, requests_of_app, sleeps_of_app, Hw. cbn.
    rewrite length_app. cbn. rewrite Hw in Hresp.
    split; [assumption|]. split; [reflexivity|]. split; [reflexivity|].
    split; [reflexivity|exact Hresp].
  - rewrite _query_continuously_loop_S, Mbind_eq.
    destruct (presign_world endpoint v_endpoint options g)
      as (g1 & -> & Hw & _).
    rewrite Mbind_eq. unfold try_except, request.
    destruct (always_429 (world g1)
                (mkRequest method url GLOBAL_REQUESTS_TIMEOUT
                   (session_payload g1))) as (resp & Hresp & Hstatus).
    rewrite Hresp, Hstatus.
    change (HTTP_TOO_MANY_REQUESTS =? HTTP_TOO_MANY_REQUESTS)%Z with true.
    cbv iota. rewrite Mbind_eq. cbn [emit world].
    match goal with
    | |- context [_query_continuously_loop _ _ _ _ _ (S n) ?r0 ?g0] =>
        destruct (IH r0 g0)
          as (response & g' & w & r & Hrun & H429 & Hreq & Hsl & Hlast & Hans)
    end.
    exists response, g', w, r. cbn [world] in Hreq, Hsl.
    split; [exact Hrun|]. split; [exact H429|].
    rewrite <- app_assoc in Hreq, Hsl.
    rewrite requests_of_app in Hreq. rewrite sleeps_of_app in Hsl.
    cbn in Hreq, Hsl. rewrite Hw in Hreq, Hsl.
    split; [rewrite Hreq, length_app; cbn; lia|].
    split; [|split; assumption].
    rewrite Hsl. rewrite (seq_S (S n) 1), rev_app_distr. cbn [rev map app].
    rewrite <- app_assoc. reflexivity.
Qed.

End Always429.

(** C6.  When every attempt is answered with 429, _query_continuously
    makes exactly QUERY_RETRY_TIMES = 5 requests, sleeps
    QUERY_RETRY_TIMES / retries_left seconds after each of them (5/5, 5/4,
    5/3, 5/2 and 5/1 seconds, a strictly growing sequence), and returns
    the answer to the last request, whose status is 429. *)
Theorem _query_continuously_rate_limited method endpoint options g :
  (forall w r, exists resp,
      session_request w r = Return resp /\
      status_code resp = HTTP_TOO_MANY_REQUESTS) ->
  exists response g' w r,
    _query_continuously method endpoint options g = Some (Return response, g') /\
    status_code response = HTTP_TOO_MANY_REQUESTS /\
    length (requests_of (world g')) =
      (length (requests_of (world g)) + Z.to_nat QUERY_RETRY_TIMES)%nat /\
    sleeps_of (world g') =
      (sleeps_of (world g)
       ++ map (truediv QUERY_RETRY_TIMES) [5; 4; 3; 2; 1]%positive)%list /\
    StronglySorted Qlt (map (truediv QUERY_RETRY_TIMES) [5; 4; 3; 2; 1]%positive) /\
    world g' = (w ++ [EvRequest r; EvSleep (truediv QUERY_RETRY_TIMES 1)])%list /\
    session_request w r = Return response.
Proof.
  intros always_429. unfold _query_continuously.
  destruct (loop_always_429 always_429 method endpoint ("/v1/" ++ endpoint)
              (base_uri g ++ "/v1/" ++ endpoint) options 4 None g)
    as (response & g' & w & r & Hrun & H429 & Hreq & Hsl & Hlast & Hans).
  exists response, g', w, r.
  split; [exact Hrun|]. split; [exact H429|]. split; [exact Hreq|].
  split; [exact Hsl|]. split; [|split; assumption].
  repeat constructor; unfold Qlt; cbn; lia.
Qed.

End Transport.

Lemma _query_continuously_rate_limited_witness :
  (forall w r, exists resp,
      @session_request busy w r = Return resp /\
      status_code resp = HTTP_TOO_MANY_REQUESTS) /\
  exists response g',
    @_query_continuously busy "get" "symbols" None fresh
    = Some (Return response, g') /\
    status_code response = 429 /\
    length (requests_of (world g')) = 5%nat /\
    sleeps_of (world g') = [5 # 5; 5 # 4; 5 # 3; 5 # 2; 5 # 1]%Q.
Proof.
  assert (Hbusy : forall w r, exists resp,
             @session_request busy w r = Return resp /\
             status_code resp = HTTP_TOO_MANY_REQUESTS).
  { intros w r. eexists. split; reflexivity. }
  split; [exact Hbusy|].
  destruct (@_query_continuously_rate_limited busy "get" "symbols" None fresh Hbusy)
    as (response & g' & w & r & Hrun & H429 & Hreq & Hsl & _).
  exists response, g'. repeat split; assumption.
Defined.

(** ** first_connection *)

Section Bootstrap.
Context `{Externals}.

Lemma first_connection_initialized g :
  first_connection_made g = true -> first_connection g = Some (Return tt, g).
Proof. intros Hmade. unfold first_connection. rewrite Hmade. reflexivity. Qed.

Lemma first_connection_uninitialized g :
  first_connection_made g = false ->
  first_connection g =
  match _public_api_query "symbols" g with
  | Some (Return symbols, g1) =>
      Some (Return tt,
            mkGemini (api_key g1) (secret g1) (base_uri g1) true symbols
              (session_payload g1) (msg_aggregator g1) (world g1))
  | Some (Raise e, g1) => Some (Raise e, g1)
  | None => None
  end.
Proof.
  intros Hmade. unfold first_connection. rewrite Hmade, Mbind_eq.
  destruct (_public_api_query "symbols" g) as [[[symbols|e] g1]|]; reflexivity.
Qed.

Lemma first_connection_twice g :
  (first_connection;; first_connection) g = first_connection g.
Proof.
  rewrite Mbind_eq.
  destruct (first_connection_made g) eqn:Hmade.
  - rewrite (first_connection_initialized g Hmade).
    apply first_connection_initialized, Hmade.
  - rewrite (first_connection_uninitialized g Hmade).
    destruct (_public_api_query "symbols" g) as [[[symbols|e] g1]|];
      reflexivity.
Qed.

(** the symbol listing is one request when the venue does not answer 429 *)
Lemma _public_api_query_symbols_world g resp :
  session_request (world g) (symbols_request g) = Return resp ->
  status_code resp <> HTTP_TOO_MANY_REQUESTS ->
  forall r g1,
    _public_api_query "symbols" g = Some (r, g1) ->
    world g1 = (world g ++ [EvRequest (symbols_request g)])%list.
Proof.
  intros Hresp Hstatus r g1. unfold _public_api_query.
  rewrite Mbind_eq. unfold _query_continuously.
  change ("/v1/" ++ "symbols") with "/v1/symbols".
  change (Z.to_nat QUERY_RETRY_TIMES) with 5%nat.
  rewrite _query_continuously_loop_S, Mbind_eq.
  change (is_private "symbols") with false. cbv iota.
  change ((mret tt : M unit) g) with (Some (Return tt, g)).
  cbv iota beta. rewrite Mbind_eq. unfold try_except, request.
  fold (symbols_request g). rewrite Hresp.
  apply Z.eqb_neq in Hstatus. rewrite Hstatus.
  cbn. destruct (negb _); cbn; [intros [= <- <-]; reflexivity|].
  intros [= <- <-]. reflexivity.
Qed.

(** C7.  first_connection does nothing on an initialized client; on an
    uninitialized one it makes one unauthenticated symbol query, and
    stores the list and sets the flag when the query succeeds.  Two calls
    in a row do what one call does: the second adds no request, so the
    requests of both are those of one symbol query, a single GET of
    /v1/symbols when the venue does not answer 429. *)
Theorem first_connection_idempotent g :
  (first_connection_made g = true ->
   first_connection g = Some (Return tt, g)) /\
  (first_connection_made g = false ->
   first_connection g =
   match _public_api_query "symbols" g with
   | Some (Return symbols, g1) =>
       Some (Return tt,
             mkGemini (api_key g1) (secret g1) (base_uri g1) true symbols
               (session_payload g1) (msg_aggregator g1) (world g1))
   | Some (Raise e, g1) => Some (Raise e, g1)
   | None => None
   end) /\
  (first_connection;; first_connection) g = first_connection g /\
  (first_connection_made g = false ->
   forall r1 g1 r2 g2,
     _public_api_query "symbols" g = Some (r1, g1) ->
     (first_connection;; first_connection) g = Some (r2, g2) ->
     world g2 = world g1) /\
  (first_connection_made g = false ->
   forall resp r2 g2,
     session_request (world g) (symbols_request g) = Return resp ->
     status_code resp <> HTTP_TOO_MANY_REQUESTS ->
     (first_connection;; first_connection) g = Some (r2, g2) ->
     requests_of (world g2) = (requests_of (world g) ++ [symbols_request g])%list).
Proof.
  split; [apply first_connection_initialized|].
  split; [apply first_connection_uninitialized|].
  split; [apply first_connection_twice|].
  assert (Hone : first_connection_made g = false ->
     forall r1 g1 r2 g2,
       _public_api_query "symbols" g = Some (r1, g1) ->
       (first_connection;; first_connection) g = Some (r2, g2) ->
       world g2 = world g1).
  { intros Hmade r1 g1 r2 g2 Hquery.
    rewrite first_connection_twice, (first_connection_uninitialized g Hmade), Hquery.
    destruct r1; intros [= <- <-]; reflexivity. }
  split; [exact Hone|].
  intros Hmade resp r2 g2 Hresp Hstatus Htwice.
  destruct (_public_api_query "symbols" g) as [[r1 g1]|] eqn:Hquery.
  - rewrite (Hone Hmade r1 g1 r2 g2 eq_refl Htwice).
    rewrite (_public_api_query_symbols_world g resp Hresp Hstatus r1 g1 Hquery).
    rewrite requests_of_app. reflexivity.
  - rewrite first_connection_twice, (first_connection_uninitialized g Hmade), Hquery
      in Htwice. discriminate.
Qed.

End Bootstrap.

Lemma first_connection_idempotent_witness :
  first_connection_made fresh = false /\
  (exists g2,
     (@first_connection listing;; @first_connection listing) fresh
     = Some (Return tt, g2) /\
     first_connection_made g2 = true /\
     _symbols g2 = [JStr "btcusd"; JStr "ethusd"] /\
     requests_of (world g2) = [symbols_request fresh]).
Proof.
  split; [reflexivity|].
  destruct (@first_connection_idempotent listing fresh)
    as (_ & Hfirst & Htwice & _ & Hreq).
  eexists. split; [rewrite Htwice, (Hfirst eq_refl); reflexivity|].
  split; [reflexivity|]. split; [reflexivity|].
  apply (Hreq eq_refl (mkResponse HTTP_OK "https://api.gemini.com/v1/symbols" "symbols")
           (Return tt)).
  - reflexivity.
  - discriminate.
  - rewrite Htwice, (Hfirst eq_refl). reflexivity.
Defined.

(** ** Dictionaries and the two divisions *)

Lemma py_int_truediv ts : py_int (truediv ts 1000) = Z.quot ts 1000.
Proof. reflexivity. Qed.

Lemma Qgtb_truediv ts end_ts :
  Qgtb (truediv ts 1000) end_ts = (ts >? end_ts * 1000)%Z.
Proof.
  unfold Qgtb, truediv, Qle_bool. cbn [Qnum Qden inject_Z].
  rewrite Z.mul_1_r, Z.gtb_ltb, Z.ltb_antisym. reflexivity.
Qed.

Lemma quot_1000_le ts end_ts :
  (Z.quot ts 1000 <= end_ts -> ts < (end_ts + 1) * 1000)%Z.
Proof.
  intros Hq. destruct (Z.le_gt_cases 0 ts) as [Hpos|Hneg].
  - rewrite Z.quot_div_nonneg in Hq by lia.
    pose proof (Z.mul_succ_div_gt ts 1000 ltac:(lia)). lia.
  - pose proof (Z.quot_opp_l ts 1000 ltac:(lia)) as Hopp.
    assert (Hq' : (Z.quot (- ts) 1000 = (- ts) / 1000)%Z)
      by (apply Z.quot_div_nonneg; lia).
    pose proof (Z.mul_div_le (- ts) 1000 ltac:(lia)). lia.
Qed.

(** ** _private_api_query always answers *)

Section Totality.
Context `{Externals}.

Lemma _query_continuously_loop_total method endpoint v_endpoint url options n :
  forall response0 g,
    is_Some (_query_continuously_loop method endpoint v_endpoint url options
               n response0 g).
Proof.
  induction n as [|n IH]; intros response0 g.
  - destruct response0; eexists; reflexivity.
  - rewrite _query_continuously_loop_S, Mbind_eq.
    destruct (presign_world endpoint v_endpoint options g) as (g1 & -> & _).
    rewrite Mbind_eq. unfold try_except, request.
    destruct (session_request _ _) as [resp|e].
    + destruct (status_code resp =? HTTP_TOO_MANY_REQUESTS)%Z.
      * rewrite Mbind_eq. cbn [emit]. apply IH.
      * eexists; reflexivity.
    + destruct e; eexists; reflexivity.
Qed.

Lemma _private_api_query_total endpoint options g :
  is_Some (_private_api_query endpoint options g).
Proof.
  unfold _private_api_query. rewrite Mbind_eq. unfold _query_continuously.
  destruct (_query_continuously_loop_total "post" endpoint ("/v1/" ++ endpoint)
              (base_uri g ++ "/v1/" ++ endpoint) options
              (Z.to_nat QUERY_RETRY_TIMES) None g) as [[[resp|e] g1] ->];
    [|eexists; reflexivity].
  repeat match goal with
         | |- context [if ?b then _ else _] => destruct b
         end; eexists; reflexivity.
Qed.

End Totality.

(** ** _get_paginated_query *)

Section Pagination.
Context `{Externals}.

(** what a turn of the loop can do *)
Lemma turn_cases endpoint end_ts limit options result g :
  (exists e g',
      _get_paginated_query_turn endpoint end_ts limit options result g
      = Some (Raise e, g')) \/
  (exists page g',
      _get_paginated_query_turn endpoint end_ts limit options result g
      = Some (Return ((result ++ page)%list, None), g')) \/
  (exists first rest ts g',
      _private_api_query endpoint (Some options) g
      = Some (Return (JList (first :: rest)), g') /\
      (limit <= Z.of_nat (length (first :: rest)))%Z /\
      timestampms first = Return ts /\
      (Z.quot ts 1000 <= end_ts)%Z /\
      _get_paginated_query_turn endpoint end_ts limit options result g
      = Some (Return ((result ++ first :: rest)%list,
                      Some (<["timestamp" := JInt (ts + 1)]> options)), g')).
Proof.
  unfold _get_paginated_query_turn. rewrite Mbind_eq.
  destruct (_private_api_query_total endpoint (Some options) g)
    as [[[single|e] g1] Hquery]; rewrite Hquery;
    [|left; eauto].
  rewrite Mbind_eq.
  destruct single as [| | | |page|]; cbn [py_list lift];
    try (left; eexists _, _; reflexivity).
  destruct (Z.of_nat (length page) <? limit)%Z eqn:Hshort.
  { right; left. eexists _, _; reflexivity. }
  apply Z.ltb_ge in Hshort. rewrite Mbind_eq.
  destruct page as [|first rest]; cbn [lift];
    [left; eexists _, _; reflexivity|].
  fold (timestampms first).
  destruct (timestampms first) as [ts|e] eqn:Hts;
    [|left; eexists _, _; reflexivity].
  rewrite py_int_truediv.
  destruct (Z.quot ts 1000 >? end_ts)%Z eqn:Hover.
  { right; left. eexists _, _; reflexivity. }
  right; right. exists first, rest, ts, g1.
  rewrite Z.gtb_ltb in Hover. apply Z.ltb_ge in Hover.
  repeat split; try assumption; reflexivity.
Qed.

(** a turn that goes on was a full page, within the window at its newest
    record, and moves the cursor just past that record *)
Lemma turn_continues endpoint end_ts limit options result g options' result' g' :
  _get_paginated_query_turn endpoint end_ts limit options result g
  = Some (Return (result', Some options'), g') ->
  exists first rest ts,
    _private_api_query endpoint (Some options) g
    = Some (Return (JList (first :: rest)), g') /\
    (limit <= Z.of_nat (length (first :: rest)))%Z /\
    timestampms first = Return ts /\
    (Z.quot ts 1000 <= end_ts)%Z /\
    result' = (result ++ first :: rest)%list /\
    options' = <["timestamp" := JInt (ts + 1)]> options.
Proof.
  intros Hturn.
  destruct (turn_cases endpoint end_ts limit options result g)
    as [(e & g1 & Heq)|[(page & g1 & Heq)|(first & rest & ts & g1 & Hq & Hfull & Hts & Hin & Heq)]];
    rewrite Heq in Hturn; try discriminate.
  injection Hturn as <- <- <-.
  exists first, rest, ts. repeat split; assumption.
Qed.

Lemma _get_paginated_query_loop_S fuel endpoint end_ts limit options result :
  _get_paginated_query_loop (S fuel) endpoint end_ts limit options result =
  ('(result, next) ← _get_paginated_query_turn endpoint end_ts limit options result;
   match next with
   | None => mret result
   | Some options =>
       _get_paginated_query_loop fuel endpoint end_ts limit options result
   end).
Proof. reflexivity. Qed.

Section HonestVenue.
Variables (endpoint : string) (end_ts : Timestamp) (limit : Z).
Hypothesis honest : honours_cursor endpoint limit.

Lemma next_turn_cursor s1 s2 c1 :
  next_turn endpoint end_ts limit s1 s2 ->
  cursor (fst (fst s1)) = Some (JInt c1) ->
  exists c2,
    cursor (fst (fst s2)) = Some (JInt c2) /\
    (c1 < c2 <= (end_ts + 1) * 1000)%Z.
Proof.
  intros [options result g options' result' g' Hturn] Hc. cbn [fst] in *.
  destruct (turn_continues _ _ _ _ _ _ _ _ _ Hturn)
    as (first & rest & ts & Hq & Hfull & Hts & Hin & _ & ->).
  exists (ts + 1)%Z. split.
  - unfold cursor. apply lookup_insert_eq.
  - pose proof (honest _ _ _ _ _ _ _ Hq Hfull Hc Hts).
    pose proof (quot_1000_le _ _ Hin). lia.
Qed.

Lemma turns_cursor s1 s2 :
  tc (next_turn endpoint end_ts limit) s1 s2 ->
  forall c1,
    cursor (fst (fst s1)) = Some (JInt c1) ->
    exists c2,
      cursor (fst (fst s2)) = Some (JInt c2) /\
      (c1 < c2 <= (end_ts + 1) * 1000)%Z.
Proof.
  induction 1 as [s1 s2 Hstep|s1 s2 s3 Hstep _ IH]; intros c1 Hc.
  - exact (next_turn_cursor _ _ _ Hstep Hc).
  - destruct (next_turn_cursor _ _ _ Hstep Hc) as (c2 & Hc2 & Hlt).
    destruct (IH _ Hc2) as (c3 & Hc3 & Hlt'). exists c3.
    split; [assumption|lia].
Qed.

Lemma _get_paginated_query_loop_terminates fuel :
  forall options result g c,
    cursor options = Some (JInt c) ->
    (Z.to_nat ((end_ts + 1) * 1000 - c) < fuel)%nat ->
    is_Some (_get_paginated_query_loop fuel endpoint end_ts limit options result g).
Proof.
  induction fuel as [|fuel IH]; intros options result g c Hc Hfuel; [lia|].
  rewrite _get_paginated_query_loop_S, Mbind_eq.
  destruct (turn_cases endpoint end_ts limit options result g)
    as [(e & g1 & ->)
       |[(page & g1 & ->)
        |(first & rest & ts & g1 & Hq & Hfull & Hts & Hin & ->)]];
    [eexists; reflexivity..|].
  pose proof (honest _ _ _ _ _ _ _ Hq Hfull Hc Hts).
  pose proof (quot_1000_le _ _ Hin).
  apply (IH _ _ _ (ts + 1)%Z).
  - unfold cursor. apply lookup_insert_eq.
  - lia.
Qed.

End HonestVenue.

End Pagination.

Section PaginationTermination.
Context `{Externals}.

(** C4 (amended).  When the venue honours the cursor (the newest record
    of every full page is not older than the timestamp the page was asked
    from), _get_paginated_query returns or raises within
    max(0, (end_ts + 1) * 1000 - start_ts) + 1 turns of its loop, and the
    cursor strictly increases from any turn to any later one, so that no
    cursor value is used twice. *)
Theorem _get_paginated_query_terminates endpoint start_ts end_ts kwargs :
  honours_cursor endpoint (page_limit endpoint) ->
  kwargs !! "timestamp" = None ->
  (forall fuel g,
      (Z.to_nat ((end_ts + 1) * 1000 - start_ts) < fuel)%nat ->
      is_Some (_get_paginated_query fuel endpoint start_ts end_ts kwargs g)) /\
  (forall s1 s2 c1,
      tc (next_turn endpoint end_ts (page_limit endpoint)) s1 s2 ->
      cursor (fst (fst s1)) = Some (JInt c1) ->
      exists c2, cursor (fst (fst s2)) = Some (JInt c2) /\ (c1 < c2)%Z).
Proof.
  intros honest Hkw. split.
  - intros fuel g Hfuel. unfold _get_paginated_query, page_limit in *.
    assert (Hstart : forall limit : Z,
               cursor (<["limit_trades" := JInt limit]>
                         (dict_update {["timestamp" := JInt start_ts]} kwargs))
               = Some (JInt start_ts)).
    { intros limit. unfold cursor, dict_update.
      rewrite lookup_insert_ne by discriminate.
      rewrite lookup_union_r by exact Hkw. apply lookup_singleton_eq. }
    destruct (String.eqb endpoint "mytrades").
    + rewrite Mbind_eq. cbn [mret M_ret]. rewrite Mbind_eq.
      destruct (_get_paginated_query_loop_terminates endpoint end_ts 500 honest
                  fuel _ [] g start_ts (Hstart 500) Hfuel) as [[[result|e] g'] ->];
        eexists; reflexivity.
    + destruct (String.eqb endpoint "transfers"); [|eexists; reflexivity].
      rewrite Mbind_eq. cbn [mret M_ret]. rewrite Mbind_eq.
      destruct (_get_paginated_query_loop_terminates endpoint end_ts 50 honest
                  fuel _ [] g start_ts (Hstart 50) Hfuel) as [[[result|e] g'] ->];
        eexists; reflexivity.
  - intros s1 s2 c1 Hturns Hc.
    destruct (turns_cursor endpoint end_ts _ honest s1 s2 Hturns c1 Hc)
      as (c2 & Hc2 & Hlt).
    exists c2. split; [assumption|lia].
Qed.

End PaginationTermination.

(** *** A venue that never lets the loop finish *)

Lemma stuck_private_api_query options g :
  exists g',
    @_private_api_query stuck "transfers" (Some options) g
    = Some (Return (JList stuck_page), g').
Proof. eexists. reflexivity. Qed.

Lemma stuck_turn end_ts options result g :
  (0 <= end_ts)%Z ->
  exists g',
    @_get_paginated_query_turn stuck "transfers" end_ts 50 options result g
    = Some (Return ((result ++ stuck_page)%list,
                    Some (<["timestamp" := JInt 1]> options)), g').
Proof.
  intros Hend. unfold _get_paginated_query_turn. rewrite Mbind_eq.
  destruct (stuck_private_api_query options g) as (g' & ->).
  exists g'. rewrite Mbind_eq. cbn [lift py_list].
  change (Z.of_nat (length stuck_page) <? 50)%Z with false. cbv iota.
  rewrite Mbind_eq.
  change (lift _ g') with (Some (Return 0%Z, g')).
  cbv iota beta. rewrite py_int_truediv.
  change (Z.quot 0 1000) with 0%Z.
  destruct (0 >? end_ts)%Z eqn:Hgt; [lia|reflexivity].
Qed.

Lemma stuck_loop end_ts fuel :
  (0 <= end_ts)%Z ->
  forall options result g,
    @_get_paginated_query_loop stuck fuel "transfers" end_ts 50 options result g
    = None.
Proof.
  intros Hend. induction fuel as [|fuel IH]; intros options result g.
  - reflexivity.
  - rewrite _get_paginated_query_loop_S, Mbind_eq.
    destruct (stuck_turn end_ts options result g Hend) as (g' & ->).
    apply IH.
Qed.

(** With a venue that answers every query with the same full page, the loop
    of _get_paginated_query never ends, whatever the fuel, and asks from
    cursor 1 again and again. *)
Lemma _get_paginated_query_never_returns :
  (forall fuel,
      @_get_paginated_query stuck fuel "transfers" 0 0 ∅ fresh = None) /\
  (exists options g result' g',
      cursor options = Some (JInt 1) /\
      @next_turn stuck "transfers" 0 50 (options, [], g) (options, result', g')).
Proof.
  split.
  - intros fuel. unfold _get_paginated_query.
    change (String.eqb "transfers" "mytrades") with false.
    change (String.eqb "transfers" "transfers") with true. cbv iota.
    rewrite Mbind_eq. cbn [mret M_ret]. rewrite Mbind_eq.
    rewrite stuck_loop by lia. reflexivity.
  - destruct (stuck_turn 0 {["timestamp" := JInt 1]} [] fresh ltac:(lia))
      as (g' & Hturn).
    rewrite insert_singleton_eq in Hturn.
    exists {["timestamp" := JInt 1]}, fresh, ([] ++ stuck_page)%list, g'.
    split; [reflexivity|]. constructor. exact Hturn.
Qed.

(** *** A venue that honours the cursor *)

Lemma honest_honours : @honours_cursor honest "transfers" 50.
Proof.
  intros options g first rest g' c ts Hquery Hfull Hc Hts.
  unfold cursor in Hc.
  unfold _private_api_query in Hquery. rewrite Mbind_eq in Hquery.
  unfold _query_continuously in Hquery.
  change (Z.to_nat QUERY_RETRY_TIMES) with 5%nat in Hquery.
  rewrite _query_continuously_loop_S, Mbind_eq in Hquery.
  change (is_private "transfers") with true in Hquery. cbv iota in Hquery.
  unfold sign, set_session_payload in Hquery. cbv beta zeta iota in Hquery.
  rewrite Mbind_eq in Hquery. unfold try_except, request in Hquery.
  cbn [session_payload world session_request honest collaborators honest_venue
       req_payload] in Hquery.
  unfold dict_update in Hquery.
  rewrite (lookup_union_l' options _ "timestamp") in Hquery
    by (rewrite Hc; eexists; reflexivity).
  rewrite Hc in Hquery.
  destruct (c <=? 1000)%Z eqn:Hle.
  - apply Z.leb_le in Hle. cbn in Hquery. injection Hquery as <- _ _.
    cbn in Hts. injection Hts as <-. lia.
  - cbn in Hquery. injection Hquery as <- <- _. cbn in Hfull. lia.
Qed.

Lemma _get_paginated_query_terminates_witness :
  @honours_cursor honest "transfers" (page_limit "transfers") /\
  (∅ : gmap string json) !! "timestamp" = None /\
  is_Some (@_get_paginated_query honest 3001 "transfers" 0 2 ∅ fresh).
Proof.
  split; [exact honest_honours|]. split; [apply lookup_empty|].
  destruct (@_get_paginated_query_terminates honest "transfers" 0 2 ∅
              honest_honours (lookup_empty _)) as [Hreturns _].
  apply Hreturns. vm_compute. lia.
Defined.

(** ** The final trim *)

Section Trim.
Context `{Externals}.

Lemma check_result_S end_ts entry rest checked_result :
  check_result end_ts (entry :: rest) checked_result =
  (ts ← timestampms entry;
   if (ts >? end_ts * 1000)%Z then Return checked_result
   else check_result end_ts rest (checked_result ++ [entry])).
Proof.
  cbn [check_result]. fold (timestampms entry).
  destruct (timestampms entry) as [ts|e]; [|reflexivity].
  cbn. rewrite Qgtb_truediv. reflexivity.
Qed.

(** every record that passes the trim is within the end of the window,
    and the output is an initial segment of the input *)
Lemma check_result_within end_ts result :
  forall checked_result out,
    check_result end_ts result checked_result = Return out ->
    Forall (within end_ts) checked_result ->
    Forall (within end_ts) out /\
    exists kept, out = (checked_result ++ kept)%list /\ kept `prefix_of` result.
Proof.
  induction result as [|entry rest IH]; intros checked out Hrun Hchecked.
  - injection Hrun as <-. split; [assumption|].
    exists []. rewrite app_nil_r. split; [reflexivity|apply prefix_nil].
  - rewrite check_result_S in Hrun.
    destruct (timestampms entry) as [ts|e] eqn:Hts; [|discriminate].
    cbn in Hrun. destruct (ts >? end_ts * 1000)%Z eqn:Hover.
    + injection Hrun as <-. split; [assumption|].
      exists []. rewrite app_nil_r. split; [reflexivity|apply prefix_nil].
    + rewrite Z.gtb_ltb in Hover. apply Z.ltb_ge in Hover.
      destruct (IH _ _ Hrun) as (Hout & kept & -> & Hkept).
      { apply Forall_app. split; [assumption|].
        constructor; [exists ts; split; assumption|constructor]. }
      split; [assumption|]. exists (entry :: kept).
      rewrite <- app_assoc. split; [reflexivity|].
      apply prefix_cons, Hkept.
Qed.

(** the trim keeps a run of records within the window and goes on *)
Lemma check_result_keeps end_ts older :
  forall newer checked_result,
    Forall (within end_ts) older ->
    check_result end_ts (older ++ newer) checked_result =
    check_result end_ts newer (checked_result ++ older).
Proof.
  induction older as [|entry older IH]; intros newer checked Holder.
  - rewrite app_nil_r. reflexivity.
  - apply Forall_cons in Holder as [(ts & Hts & Hle) Holder].
    cbn [app]. rewrite check_result_S, Hts. cbn.
    destruct (ts >? end_ts * 1000)%Z eqn:Hover; [lia|].
    rewrite (IH _ _ Holder), <- app_assoc. reflexivity.
Qed.

(** the trim stops at the first record beyond the end of the window *)
Lemma check_result_stops end_ts entry newer checked_result ts :
  timestampms entry = Return ts ->
  (end_ts * 1000 < ts)%Z ->
  check_result end_ts (entry :: newer) checked_result = Return checked_result.
Proof.
  intros Hts Hover. rewrite check_result_S, Hts. cbn.
  destruct (ts >? end_ts * 1000)%Z eqn:Hgt; [reflexivity|lia].
Qed.

End Trim.

Section EndOfWindow.
Context `{Externals}.

(** C10.  Let the newest record of a full page have millisecond
    timestamp [ts], for a window that ends at [end_ts >= 0].  When [ts]
    exceeds [end_ts * 1000] by 1 to 999 milliseconds, the check after the
    fetch, which truncates, does not stop the loop (the cursor moves to
    [ts + 1]), and yet the final trim, which does not truncate, never lets
    the record through, and stops at it.  When [ts] is exactly
    [end_ts * 1000] the loop goes on as well, and the trim keeps the
    record when the records before it are within the window. *)
Theorem end_of_window_checks_disagree
    endpoint end_ts limit options result g first rest g' ts :
  (0 <= end_ts)%Z ->
  _private_api_query endpoint (Some options) g
  = Some (Return (JList (first :: rest)), g') ->
  (limit <= Z.of_nat (length (first :: rest)))%Z ->
  timestampms first = Return ts ->
  ((end_ts * 1000 + 1 <= ts <= end_ts * 1000 + 999)%Z ->
   _get_paginated_query_turn endpoint end_ts limit options result g
   = Some (Return ((result ++ first :: rest)%list,
                   Some (<["timestamp" := JInt (ts + 1)]> options)), g') /\
   (forall entries out,
       check_result end_ts entries [] = Return out -> first ∉ out) /\
   (forall older newer,
       Forall (within end_ts) older ->
       check_result end_ts (older ++ first :: newer)%list [] = Return older)) /\
  (ts = (end_ts * 1000)%Z ->
   _get_paginated_query_turn endpoint end_ts limit options result g
   = Some (Return ((result ++ first :: rest)%list,
                   Some (<["timestamp" := JInt (ts + 1)]> options)), g') /\
   (forall older,
       Forall (within end_ts) older ->
       check_result end_ts (older ++ [first])%list [] = Return (older ++ [first])%list)).
Proof.
  intros Hend Hquery Hfull Hts.
  assert (Hturn : (Z.quot ts 1000 <= end_ts)%Z ->
    _get_paginated_query_turn endpoint end_ts limit options result g
    = Some (Return ((result ++ first :: rest)%list,
                    Some (<["timestamp" := JInt (ts + 1)]> options)), g')).
  { intros Hquot. unfold _get_paginated_query_turn.
    rewrite Mbind_eq, Hquery, Mbind_eq. cbn [py_list lift].
    destruct (Z.of_nat (length (first :: rest)) <? limit)%Z eqn:Hshort; [lia|].
    rewrite Mbind_eq. cbn [lift]. fold (timestampms first). rewrite Hts.
    rewrite py_int_truediv.
    destruct (Z.quot ts 1000 >? end_ts)%Z eqn:Hover; [lia|reflexivity]. }
  split.
  - intros Hrange. split; [|split].
    + apply Hturn.
      assert (Z.quot ts 1000 = end_ts) as ->; [|lia].
      rewrite Z.quot_div_nonneg by lia.
      symmetry. apply (Z.div_unique ts 1000 end_ts (ts - end_ts * 1000)); lia.
    + intros entries out Hout Hin.
      destruct (check_result_within end_ts entries [] out Hout (Forall_nil_2 _))
        as [Hwithin _].
      rewrite Forall_forall in Hwithin.
      destruct (Hwithin first Hin) as (ts' & Hts' & Hle).
      rewrite Hts in Hts'. injection Hts' as <-. lia.
    + intros older newer Holder.
      rewrite (check_result_keeps end_ts older _ [] Holder).
      apply (check_result_stops end_ts first newer _ ts Hts). lia.
  - intros ->. split.
    + apply Hturn. rewrite Z.quot_mul by lia. lia.
    + intros older Holder.
      rewrite (check_result_keeps end_ts older _ [] Holder).
      rewrite check_result_S, Hts. cbn [mbind outcome_bind obind].
      destruct (end_ts * 1000 >? end_ts * 1000)%Z eqn:Hgt; [lia|].
      reflexivity.
Qed.

End EndOfWindow.

Lemma end_of_window_checks_disagree_witness :
  (exists g',
     @_get_paginated_query_turn honest "transfers" 1 50 {["timestamp" := JInt 0]}
       [] fresh
     = Some (Return (full_page, Some {["timestamp" := JInt 1050]}), g') /\
     check_result 1 [transfer "Deposit" "BTC" 1 1000 0;
                     transfer "Deposit" "BTC" 1 1049 49] []
     = Return [transfer "Deposit" "BTC" 1 1000 0]) /\
  (exists g',
     @_get_paginated_query_turn stuck "transfers" 0 50 {["timestamp" := JInt 0]}
       [] fresh
     = Some (Return (stuck_page, Some {["timestamp" := JInt 1]}), g') /\
     check_result 0 [transfer "Deposit" "BTC" 1 0 0] []
     = Return [transfer "Deposit" "BTC" 1 0 0]).
Proof.
  split.
  - destruct (@_private_api_query honest "transfers"
                (Some {["timestamp" := JInt 0]}) fresh) as [[r g']|] eqn:Hquery;
      [|discriminate].
    assert (Hr : r = Return (JList full_page))
      by (vm_compute in Hquery; injection Hquery as <- _; reflexivity).
    subst r.
    destruct (@end_of_window_checks_disagree honest "transfers" 1 50
                {["timestamp" := JInt 0]} [] fresh
                (transfer "Deposit" "BTC" 1 1049 49) (tl full_page) g' 1049
                ltac:(lia) Hquery ltac:(vm_compute; discriminate) eq_refl)
      as [Hover _].
    destruct (Hover ltac:(lia)) as (Hturn & _ & Htrim).
    exists g'. split.
    + rewrite Hturn, insert_singleton_eq. reflexivity.
    + apply (Htrim [transfer "Deposit" "BTC" 1 1000 0] []).
      constructor; [|constructor]. exists 1000%Z. split; [reflexivity|lia].
  - destruct (@_private_api_query stuck "transfers"
                (Some {["timestamp" := JInt 0]}) fresh) as [[r g']|] eqn:Hquery;
      [|discriminate].
    assert (Hr : r = Return (JList stuck_page))
      by (vm_compute in Hquery; injection Hquery as <- _; reflexivity).
    subst r.
    destruct (@end_of_window_checks_disagree stuck "transfers" 0 50
                {["timestamp" := JInt 0]} [] fresh
                (transfer "Deposit" "BTC" 1 0 0) (tl stuck_page) g' 0
                ltac:(lia) Hquery ltac:(vm_compute; discriminate) eq_refl)
      as [_ Hexact].
    destruct (Hexact eq_refl) as (Hturn & Htrim).
    exists g'. split.
    + rewrite Hturn, insert_singleton_eq. reflexivity.
    + apply (Htrim []). constructor.
Defined.

(** ** Sequencing and loops *)

Lemma obind_Return {A B} (c : outcome A) (k : A -> outcome B) b :
  (c ≫= k) = Return b -> exists a, c = Return a /\ k a = Return b.
Proof.
  destruct c as [a|e]; [|discriminate]. intros Hk. exists a. split; [reflexivity|exact Hk].
Qed.

Lemma Mbind_Return {A B} (c : M A) (k : A -> M B) g b g' :
  (c ≫= k) g = Some (Return b, g') ->
  exists a g1, c g = Some (Return a, g1) /\ k a g1 = Some (Return b, g').
Proof.
  rewrite Mbind_eq. destruct (c g) as [[[a|e] g1]|]; try discriminate.
  intros Hk. exists a, g1. split; [reflexivity|exact Hk].
Qed.

Lemma for_each_app {S X} (body : S -> X -> M S) l1 l2 :
  forall s g,
    for_each body s (l1 ++ l2) g =
    (s' ← for_each body s l1; for_each body s' l2) g.
Proof.
  induction l1 as [|x l1 IH]; intros s g.
  - reflexivity.
  - cbn [for_each app]. rewrite !Mbind_eq.
    destruct (body s x g) as [[[s1|e] g1]|]; try reflexivity.
    rewrite IH, Mbind_eq. reflexivity.
Qed.

(** a property of the accumulator that every turn preserves holds at the
    end of the loop *)
Lemma for_each_invariant {S X} (P : S -> Prop) (Q : X -> Prop)
    (body : S -> X -> M S) :
  (forall s x g s' g',
      P s -> Q x -> body s x g = Some (Return s', g') -> P s') ->
  forall l s g s' g',
    P s -> Forall Q l ->
    for_each body s l g = Some (Return s', g') -> P s'.
Proof.
  intros Hbody. induction l as [|x l IH]; intros s g s' g' Hs Hl Hrun.
  - injection Hrun as <- _. exact Hs.
  - apply Forall_cons in Hl as [Hx Hl]. cbn [for_each] in Hrun.
    apply Mbind_Return in Hrun as (s1 & g1 & Hstep & Hrest).
    exact (IH _ _ _ _ (Hbody _ _ _ _ _ Hs Hx Hstep) Hl Hrest).
Qed.

(** ** The end of the window *)

Section Window.
Context `{Externals}.

Lemma _get_paginated_query_within fuel endpoint start_ts end_ts kwargs g out g' :
  _get_paginated_query fuel endpoint start_ts end_ts kwargs g
  = Some (Return out, g') ->
  Forall (within end_ts) out.
Proof.
  unfold _get_paginated_query. intros Hrun.
  apply Mbind_Return in Hrun as ([limit options] & g1 & _ & Hrun).
  apply Mbind_Return in Hrun as (result & g2 & _ & Htrim).
  injection Htrim as Htrim _.
  exact (proj1 (check_result_within end_ts _ [] out Htrim (Forall_nil_2 _))).
Qed.

Lemma trade_of_entry_timestamp end_ts symbol entry trade :
  trade_of_entry end_ts symbol entry = Return (Some trade) ->
  (Trade.timestamp trade <= end_ts)%Z.
Proof.
  unfold trade_of_entry. intros Hrun.
  apply obind_Return in Hrun as (timestamp & _ & Hrun).
  destruct (timestamp >? end_ts)%Z eqn:Hover; [discriminate|].
  repeat (apply obind_Return in Hrun as (? & _ & Hrun)).
  injection Hrun as <-. cbn. lia.
Qed.

Lemma trades_of_entries_timestamp end_ts symbol gemini_trades :
  forall trades g out g',
    Forall (fun t => (Trade.timestamp t <= end_ts)%Z) trades ->
    trades_of_entries end_ts symbol gemini_trades trades g
    = Some (Return out, g') ->
    Forall (fun t => (Trade.timestamp t <= end_ts)%Z) out.
Proof.
  induction gemini_trades as [|entry rest IH]; intros trades g out g' Htrades Hrun.
  - injection Hrun as <- _. exact Htrades.
  - cbn [trades_of_entries] in Hrun.
    destruct (trade_of_entry end_ts symbol entry) as [[trade|]|e] eqn:Hentry.
    + apply (IH (trades ++ [trade])%list g out g'); [|exact Hrun].
      apply Forall_app. split; [exact Htrades|].
      constructor; [|constructor].
      exact (trade_of_entry_timestamp _ _ _ _ Hentry).
    + injection Hrun as <- _. exact Htrades.
    + destruct (trade_handlers e) as [h|]; [|discriminate].
      apply Mbind_Return in Hrun as ([] & g1 & _ & Hrun).
      exact (IH _ _ _ _ Htrades Hrun).
Qed.

Lemma query_online_trade_history_timestamp fuel start_ts end_ts g trades g' :
  query_online_trade_history fuel start_ts end_ts g = Some (Return trades, g') ->
  Forall (fun t => (Trade.timestamp t <= end_ts)%Z) trades.
Proof.
  unfold query_online_trade_history. intros Hrun.
  apply Mbind_Return in Hrun as (syms & g1 & _ & Hrun).
  refine (for_each_invariant
            (Forall (fun t => (Trade.timestamp t <= end_ts)%Z)) (fun _ => True)
            _ _ syms [] g1 trades g' (Forall_nil_2 _) _ Hrun).
  - intros acc symbol g2 acc' g3 Hacc _ Hbody.
    apply Mbind_Return in Hbody as (gemini_trades & g4 & _ & Hbody).
    exact (trades_of_entries_timestamp _ _ _ _ _ _ _ Hacc Hbody).
  - apply Forall_forall. intros; exact I.
Qed.

End Window.

(** ** Movements *)

Section Movements.
Context `{Externals}.

Lemma quot_1000_within ts end_ts :
  (ts <= end_ts * 1000 -> Z.quot ts 1000 <= end_ts)%Z.
Proof.
  intros Hle. rewrite <- (Z.quot_mul end_ts 1000) by lia.
  apply Z.quot_le_mono; lia.
Qed.

Lemma movement_of_entry_Return entry movement :
  movement_of_entry entry = Return movement ->
  exists v ts_ms va amount,
    py_getitem entry "timestampms" = Return v /\
    deserialize_timestamp v = Return ts_ms /\
    AssetMovement.timestamp movement = Z.quot ts_ms 1000 /\
    py_getitem entry "amount" = Return va /\
    deserialize_asset_amount va = Return amount /\
    AssetMovement.amount movement = Qabs amount /\
    AssetMovement.fee movement = ZERO /\
    AssetMovement.fee_asset movement = AssetMovement.asset movement.
Proof.
  unfold movement_of_entry. intros Hrun.
  apply obind_Return in Hrun as (ts_ms & Hts & Hrun).
  apply obind_Return in Hts as (v & Hv & Hts).
  apply obind_Return in Hrun as (asset & _ & Hrun).
  apply obind_Return in Hrun as (category & _ & Hrun).
  apply obind_Return in Hrun as (address & _ & Hrun).
  apply obind_Return in Hrun as (transaction_id & _ & Hrun).
  apply obind_Return in Hrun as (amount & Hamount & Hrun).
  apply obind_Return in Hamount as (va & Hva & Hamount).
  unfold deserialize_asset_amount_force_positive in Hamount.
  apply obind_Return in Hamount as (amount0 & Hamount0 & Habs).
  injection Habs as <-.
  apply obind_Return in Hrun as (link & _ & Hrun).
  injection Hrun as <-.
  exists v, ts_ms, va, amount0. repeat split; assumption.
Qed.

Lemma movements_entry_Return movements entry g movements' g' :
  movements_entry movements entry g = Some (Return movements', g') ->
  movements' = movements \/
  exists movement,
    movement_of_entry entry = Return movement /\
    movements' = (movements ++ [movement])%list.
Proof.
  unfold movements_entry.
  destruct (movement_of_entry entry) as [movement|e].
  - intros [= <- _]. right. exists movement. split; reflexivity.
  - destruct (movement_handlers e) as [h|]; [|discriminate].
    intros Hrun. apply Mbind_Return in Hrun as ([] & g1 & _ & Hrun).
    injection Hrun as <- _. left. reflexivity.
Qed.

(** every movement of the result is the normal form of a raw record *)
Lemma movements_from_entries result :
  forall g movements g',
    for_each movements_entry [] result g = Some (Return movements, g') ->
    Forall (fun movement =>
              exists entry,
                entry ∈ result /\ movement_of_entry entry = Return movement)
      movements.
Proof.
  intros g movements g' Hrun.
  refine (for_each_invariant
            (Forall (fun movement =>
               exists entry,
                 entry ∈ result /\ movement_of_entry entry = Return movement))
            (fun entry => entry ∈ result)
            movements_entry _ result [] g movements g' (Forall_nil_2 _) _ Hrun).
  - intros acc entry g1 acc' g2 Hacc Hentry Hbody.
    apply movements_entry_Return in Hbody as [->|(movement & Hm & ->)];
      [exact Hacc|].
    apply Forall_app. split; [exact Hacc|].
    constructor; [|constructor]. exists entry. split; assumption.
  - apply Forall_forall. intros entry Hin. exact Hin.
Qed.

Lemma query_online_deposits_withdrawals_Return fuel start_ts end_ts g movements g' :
  query_online_deposits_withdrawals fuel start_ts end_ts g
  = Some (Return movements, g') ->
  exists result g1,
    _get_paginated_query fuel "transfers" start_ts end_ts ∅ g
    = Some (Return result, g1) /\
    Forall (fun movement =>
              exists entry,
                entry ∈ result /\ movement_of_entry entry = Return movement)
      movements.
Proof.
  unfold query_online_deposits_withdrawals. intros Hrun.
  apply Mbind_Return in Hrun as (result & g1 & Hpages & Hrun).
  exists result, g1. split; [exact Hpages|].
  exact (movements_from_entries _ _ _ _ Hrun).
Qed.

Lemma query_online_deposits_withdrawals_timestamp fuel start_ts end_ts g movements g' :
  (forall v t z,
      deserialize_timestamp v = Return t -> py_num v = Return z -> t = z) ->
  query_online_deposits_withdrawals fuel start_ts end_ts g
  = Some (Return movements, g') ->
  Forall (fun m => (AssetMovement.timestamp m <= end_ts)%Z) movements.
Proof.
  intros Hnumber Hrun.
  apply query_online_deposits_withdrawals_Return in Hrun
    as (result & g1 & Hpages & Hfrom).
  apply _get_paginated_query_within in Hpages.
  rewrite Forall_forall in Hpages.
  eapply Forall_impl; [exact Hfrom|].
  intros movement (entry & Hin & Hm). cbn beta.
  destruct (Hpages entry Hin) as (ts & Hts & Hle).
  apply movement_of_entry_Return in Hm
    as (v & ts_ms & _ & _ & Hv & Hdes & -> & _).
  unfold timestampms in Hts. rewrite Hv in Hts. cbn in Hts.
  rewrite (Hnumber v ts_ms ts Hdes Hts).
  apply quot_1000_within, Hle.
Qed.

End Movements.

(** ** Ordering *)

Lemma StronglySorted_rev {A} (R : relation A) l :
  StronglySorted (flip R) l -> StronglySorted R (rev l).
Proof.
  induction 1 as [|x l _ IH Hx]; [constructor|].
  cbn [rev]. apply StronglySorted_app_2; [|exact IH|repeat constructor].
  intros y x' Hy Hx'. apply list_elem_of_singleton in Hx' as ->.
  rewrite Forall_forall in Hx. apply Hx.
  apply list_elem_of_In, in_rev, list_elem_of_In, Hy.
Qed.

Lemma StronglySorted_sublist {A} (R : relation A) k l :
  k `sublist_of` l -> StronglySorted R l -> StronglySorted R k.
Proof.
  induction 1 as [|x k l Hkl IH|x k l Hkl IH]; intros Hl.
  - constructor.
  - apply StronglySorted_cons in Hl as [Hx Hl].
    constructor; [exact (IH Hl)|].
    rewrite Forall_forall in *. intros y Hy.
    exact (Hx y (elem_of_sublist _ _ _ Hy Hkl)).
  - apply StronglySorted_cons in Hl as [_ Hl]. exact (IH Hl).
Qed.

Lemma StronglySorted_Forall2 {A B} (P : A -> B -> Prop) (R : relation A)
    (S : relation B) l k :
  (forall a b x y, P a x -> P b y -> R a b -> S x y) ->
  Forall2 P l k -> StronglySorted R l -> StronglySorted S k.
Proof.
  intros Hmono. induction 1 as [|a x l k Hax Hlk IH]; intros Hl; [constructor|].
  apply StronglySorted_cons in Hl as [Ha Hl].
  constructor; [exact (IH Hl)|].
  clear IH Hl. induction Hlk as [|b y l k Hby _ IH]; [constructor|].
  apply Forall_cons in Ha as [Hab Ha].
  constructor; [exact (Hmono _ _ _ _ Hax Hby Hab)|exact (IH Ha)].
Qed.

Section Ordering.
Context `{Externals}.

Lemma _get_paginated_query_order fuel endpoint start_ts end_ts kwargs g out g' :
  _get_paginated_query fuel endpoint start_ts end_ts kwargs g
  = Some (Return out, g') ->
  exists limit options result,
    _get_paginated_query_loop fuel endpoint end_ts limit options [] g
    = Some (Return result, g') /\
    out `prefix_of` rev result /\
    (newest_first result -> oldest_first out).
Proof.
  unfold _get_paginated_query. intros Hrun.
  apply Mbind_Return in Hrun as ([limit options] & g1 & Hdispatch & Hrun).
  assert (g1 = g) as ->.
  { destruct (String.eqb endpoint "mytrades");
      [|destruct (String.eqb endpoint "transfers")];
      try discriminate; injection Hdispatch as _ _ <-; reflexivity. }
  apply Mbind_Return in Hrun as (result & g2 & Hloop & Htrim).
  injection Htrim as Htrim <-.
  destruct (check_result_within end_ts _ [] out Htrim (Forall_nil_2 _))
    as (_ & kept & -> & Hprefix).
  exists limit, options, result. split; [exact Hloop|].
  split; [exact Hprefix|].
  intros Hnewest. destruct Hprefix as [dropped Hrev].
  apply StronglySorted_rev in Hnewest. rewrite Hrev in Hnewest.
  exact (StronglySorted_app_1_l _ _ _ Hnewest).
Qed.

(** the movements are the normal forms of a sublist of the records, in
    the order of the records *)
Lemma movements_in_order result :
  forall acc g movements g',
    for_each movements_entry acc result g = Some (Return movements, g') ->
    exists kept new,
      movements = (acc ++ new)%list /\
      kept `sublist_of` result /\
      Forall2 (fun entry m => movement_of_entry entry = Return m) kept new.
Proof.
  induction result as [|entry result IH]; intros acc g movements g' Hrun.
  - injection Hrun as <- _. exists [], []. rewrite app_nil_r.
    repeat split; constructor.
  - cbn [for_each] in Hrun.
    apply Mbind_Return in Hrun as (acc' & g1 & Hbody & Hrun).
    destruct (IH _ _ _ _ Hrun) as (kept & new & -> & Hkept & Hnew).
    apply movements_entry_Return in Hbody as [->|(m & Hm & ->)].
    + exists kept, new. split; [reflexivity|].
      split; [apply sublist_cons, Hkept|exact Hnew].
    + exists (entry :: kept), (m :: new). rewrite <- app_assoc.
      split; [reflexivity|].
      split; [apply sublist_skip, Hkept|constructor; assumption].
Qed.

Lemma query_online_deposits_withdrawals_order fuel start_ts end_ts g movements g' :
  (forall v t z,
      deserialize_timestamp v = Return t -> py_num v = Return z -> t = z) ->
  query_online_deposits_withdrawals fuel start_ts end_ts g
  = Some (Return movements, g') ->
  exists result g1,
    _get_paginated_query fuel "transfers" start_ts end_ts ∅ g
    = Some (Return result, g1) /\
    (oldest_first result ->
     StronglySorted
       (fun a b => (AssetMovement.timestamp a <= AssetMovement.timestamp b)%Z)
       movements).
Proof.
  intros Hnumber. unfold query_online_deposits_withdrawals. intros Hrun.
  apply Mbind_Return in Hrun as (result & g1 & Hpages & Hrun).
  exists result, g1. split; [exact Hpages|]. intros Holdest.
  destruct (movements_in_order _ _ _ _ _ Hrun) as (kept & new & -> & Hkept & Hnew).
  cbn [app].
  refine (StronglySorted_Forall2 _ not_newer _ kept new _ Hnew
            (StronglySorted_sublist _ _ _ Hkept Holdest)).
  intros a b x y Hx Hy (ta & tb & Hta & Htb & Hle).
  apply movement_of_entry_Return in Hx as (va & ta' & _ & _ & Hva & Hda & -> & _).
  apply movement_of_entry_Return in Hy as (vb & tb' & _ & _ & Hvb & Hdb & -> & _).
  unfold timestampms in Hta, Htb. rewrite Hva in Hta. rewrite Hvb in Htb.
  cbn in Hta, Htb.
  rewrite (Hnumber va ta' ta Hda Hta), (Hnumber vb tb' tb Hdb Htb).
  apply Z.quot_le_mono; lia.
Qed.

End Ordering.

Section WindowClaim.
Context `{Externals}.

(** C5 (amended).  No record in the output of _get_paginated_query is
    later than the end of the window ([timestampms / 1000 <= end_ts]), and
    every trade and every movement returned has a timestamp [<= end_ts]
    (for movements, as long as deserialize_timestamp returns the number it
    is given).  The client compares no record with [start_ts], which it only
    sends to the venue as the first cursor.  The output of
    _get_paginated_query is an initial segment of the reversed accumulation
    of the pages: when the pages accumulated are newest-first as a whole,
    as a single newest-first page is, the output is oldest-first, and so
    are the movements. *)
Theorem results_not_after_end_ts fuel start_ts end_ts :
  (forall endpoint kwargs g out g',
      _get_paginated_query fuel endpoint start_ts end_ts kwargs g
      = Some (Return out, g') ->
      Forall (within end_ts) out /\
      exists limit options result,
        _get_paginated_query_loop fuel endpoint end_ts limit options [] g
        = Some (Return result, g') /\
        out `prefix_of` rev result /\
        (newest_first result -> oldest_first out)) /\
  (forall g trades g',
      query_online_trade_history fuel start_ts end_ts g
      = Some (Return trades, g') ->
      Forall (fun t => (Trade.timestamp t <= end_ts)%Z) trades) /\
  ((forall v t z,
       deserialize_timestamp v = Return t -> py_num v = Return z -> t = z) ->
   forall g movements g',
     query_online_deposits_withdrawals fuel start_ts end_ts g
     = Some (Return movements, g') ->
     Forall (fun m => (AssetMovement.timestamp m <= end_ts)%Z) movements /\
     exists result g1,
       _get_paginated_query fuel "transfers" start_ts end_ts ∅ g
       = Some (Return result, g1) /\
       (oldest_first result ->
        StronglySorted
          (fun a b => (AssetMovement.timestamp a <= AssetMovement.timestamp b)%Z)
          movements)).
Proof.
  split; [|split].
  - intros endpoint kwargs g out g' Hrun. split.
    + exact (_get_paginated_query_within _ _ _ _ _ _ _ _ Hrun).
    + exact (_get_paginated_query_order _ _ _ _ _ _ _ _ Hrun).
  - intros g trades g'. apply query_online_trade_history_timestamp.
  - intros Hnumber g movements g' Hrun. split.
    + exact (query_online_deposits_withdrawals_timestamp _ _ _ _ _ _ Hnumber Hrun).
    + exact (query_online_deposits_withdrawals_order _ _ _ _ _ _ Hnumber Hrun).
Qed.

(** C8.  A record that normalizes becomes a movement whose timestamp is the
    record's millisecond timestamp divided by 1000 and truncated, whose
    amount is not negative and whose fee is zero; and every movement that
    query_online_deposits_withdrawals returns is the normal form of a record
    of the paginated result. *)
Theorem movements_normal_form fuel start_ts end_ts g movements g' :
  query_online_deposits_withdrawals fuel start_ts end_ts g
  = Some (Return movements, g') ->
  exists result g1,
    _get_paginated_query fuel "transfers" start_ts end_ts ∅ g
    = Some (Return result, g1) /\
    Forall (fun movement =>
              exists entry v ts_ms,
                entry ∈ result /\
                movement_of_entry entry = Return movement /\
                py_getitem entry "timestampms" = Return v /\
                deserialize_timestamp v = Return ts_ms /\
                AssetMovement.timestamp movement = Z.quot ts_ms 1000 /\
                ((0 <= ts_ms)%Z ->
                 (AssetMovement.timestamp movement * 1000 <= ts_ms
                  < (AssetMovement.timestamp movement + 1) * 1000)%Z) /\
                (0 <= AssetMovement.amount movement)%Q /\
                AssetMovement.fee movement = ZERO)
      movements.
Proof.
  intros Hrun.
  apply query_online_deposits_withdrawals_Return in Hrun
    as (result & g1 & Hpages & Hfrom).
  exists result, g1. split; [exact Hpages|].
  eapply Forall_impl; [exact Hfrom|].
  intros movement (entry & Hin & Hm). cbn beta.
  destruct (movement_of_entry_Return _ _ Hm)
    as (v & ts_ms & va & amount & Hv & Hdes & Hts & _ & _ & Hamount & Hfee & _).
  exists entry, v, ts_ms. repeat split; try assumption.
  - rewrite Hts, Z.quot_div_nonneg by lia.
    pose proof (Z.mul_div_le ts_ms 1000 ltac:(lia)). lia.
  - rewrite Hts, Z.quot_div_nonneg by lia.
    pose proof (Z.mul_succ_div_gt ts_ms 1000 ltac:(lia)). lia.
  - rewrite Hamount. apply Qabs_nonneg.
Qed.

End WindowClaim.

Lemma timestamp_of_number v t z :
  timestamp_of v = Return t -> py_num v = Return z -> t = z.
Proof.
  destruct v as [| |n| | |]; try discriminate. cbn.
  destruct (n <? 0)%Z; [discriminate|]. congruence.
Qed.

Lemma results_not_after_end_ts_witness :
  (exists out g',
      @_get_paginated_query honest 5 "transfers" 0 2 ∅ fresh
      = Some (Return out, g') /\ Forall (within 2) out) /\
  (exists trades g',
      @query_online_trade_history unknowing 5 0 25 fresh
      = Some (Return trades, g') /\
      Forall (fun t => (Trade.timestamp t <= 25)%Z) trades) /\
  (forall v t z,
      @deserialize_timestamp unknowing v = Return t -> py_num v = Return z ->
      t = z) /\
  (exists movements g',
      @query_online_deposits_withdrawals unknowing 5 0 40 fresh
      = Some (Return movements, g') /\
      Forall (fun m => (AssetMovement.timestamp m <= 40)%Z) movements /\
      StronglySorted
        (fun a b => (AssetMovement.timestamp a <= AssetMovement.timestamp b)%Z)
        movements).
Proof.
  destruct (@results_not_after_end_ts honest 5 0 2) as (Hpages & _ & _).
  destruct (@results_not_after_end_ts unknowing 5 0 25) as (_ & Htrades & _).
  destruct (@results_not_after_end_ts unknowing 5 0 40) as (_ & _ & Hmovements).
  split; [|split; [|split; [exact timestamp_of_number|]]].
  - destruct (@_get_paginated_query honest 5 "transfers" 0 2 ∅ fresh)
      as [[[out|e] g']|] eqn:Hrun; [|vm_compute in Hrun; discriminate..].
    exists out, g'. split; [reflexivity|].
    exact (proj1 (Hpages _ _ _ _ _ Hrun)).
  - destruct (@query_online_trade_history unknowing 5 0 25 fresh)
      as [[[trades|e] g']|] eqn:Hrun; [|vm_compute in Hrun; discriminate..].
    exists trades, g'. split; [reflexivity|]. exact (Htrades _ _ _ Hrun).
  - destruct (@query_online_deposits_withdrawals unknowing 5 0 40 fresh)
      as [[[movements|e] g']|] eqn:Hrun; [|vm_compute in Hrun; discriminate..].
    exists movements, g'. split; [reflexivity|].
    destruct (Hmovements timestamp_of_number _ _ _ Hrun)
      as (Hwithin & result & g1 & Hpages' & Horder).
    split; [exact Hwithin|]. apply Horder.
    vm_compute in Hpages'. injection Hpages' as <- _.
    unfold oldest_first.
    repeat first
      [ apply SSorted_nil
      | apply SSorted_cons
      | apply Forall_nil_2
      | apply Forall_cons_2
      | (eexists _, _; split; [reflexivity|split; [reflexivity|lia]]) ].
Defined.

(** The venue honours the cursor, and the movements it is asked for from
    second 5 to second 10 are of seconds 2 and 1, in that order: none is
    within the window, and the newest comes first. *)
Lemma results_before_start_ts :
  exists movements g',
    @query_online_deposits_withdrawals honest 5 5 10 fresh
    = Some (Return movements, g') /\
    map AssetMovement.timestamp movements = (2 :: repeat 1 50)%Z /\
    ~ Forall (fun m => (5 <= AssetMovement.timestamp m <= 10)%Z) movements.
Proof.
  destruct (@query_online_deposits_withdrawals honest 5 5 10 fresh)
    as [[[movements|e] g']|] eqn:Hrun; [|vm_compute in Hrun; discriminate..].
  exists movements, g'. split; [reflexivity|].
  vm_compute in Hrun. injection Hrun as <- _.
  split; [reflexivity|].
  intros Hall. apply Forall_cons in Hall as [Hfirst _]. cbn in Hfirst. lia.
Qed.

Lemma movements_normal_form_witness :
  exists movements g',
    @query_online_deposits_withdrawals unknowing 5 0 40 fresh
    = Some (Return movements, g') /\
    map AssetMovement.timestamp movements = [10; 30]%Z /\
    Forall (fun m => (0 <= AssetMovement.amount m)%Q
                     /\ AssetMovement.fee m = ZERO) movements.
Proof.
  destruct (@query_online_deposits_withdrawals unknowing 5 0 40 fresh)
    as [[[movements|e] g']|] eqn:Hrun; [|vm_compute in Hrun; discriminate..].
  exists movements, g'. split; [reflexivity|].
  destruct (@movements_normal_form unknowing 5 0 40 fresh movements g' Hrun)
    as (result & g1 & _ & Hall).
  split.
  - vm_compute in Hrun. injection Hrun as <- _. reflexivity.
  - eapply Forall_impl; [exact Hall|].
    intros m (entry & v & ts_ms & _ & _ & _ & _ & _ & _ & Hamount & Hfee).
    split; assumption.
Defined.

(** ** Balances *)

Section Balances.
Context `{Externals}.

(** what the body of the balance loop can leave in the map *)
Lemma query_balances_entry_Return returned_balances entry g balances' g' :
  query_balances_entry returned_balances entry g = Some (Return balances', g') ->
  balances' = returned_balances \/
  exists asset amount usd_price,
    find_usd_price asset = Return usd_price /\
    balances' = <[asset := Balance.mk amount (amount * usd_price)%Q]>
                  returned_balances.
Proof.
  unfold query_balances_entry, try_except. rewrite Mbind_eq. unfold lift at 1.
  destruct (py_getitem entry "amount" ≫= _) as [amount|e].
  - destruct (Qeq_bool amount ZERO).
    { intros [= <- _]. left. reflexivity. }
    rewrite Mbind_eq. unfold lift at 1.
    destruct (py_getitem entry "currency" ≫= _) as [asset|e].
    + rewrite Mbind_eq, Mbind_eq. unfold lift at 1.
      destruct (find_usd_price asset) as [usd_price|e] eqn:Hprice.
      * intros [= <- _]. right. exists asset, amount, usd_price.
        split; [exact Hprice|reflexivity].
      * destruct e; try discriminate; intros [= <- _]; left; reflexivity.
    + destruct e; try discriminate; intros [= <- _]; left; reflexivity.
  - destruct e; try discriminate; intros [= <- _]; left; reflexivity.
Qed.

Lemma query_balances_entry_no_price returned_balances entry g va amount vc asset m :
  py_getitem entry "amount" = Return va ->
  deserialize_asset_amount va = Return amount ->
  Qeq_bool amount ZERO = false ->
  py_getitem entry "currency" = Return vc ->
  Asset_ vc = Return asset ->
  find_usd_price asset = Raise (RemoteError m) ->
  query_balances_entry returned_balances entry g
  = (add_error (price_error m);; mret returned_balances) g.
Proof.
  intros Hva Hamount Hnonzero Hvc Hasset Hprice.
  unfold query_balances_entry, try_except. rewrite Mbind_eq. unfold lift at 1.
  rewrite Hva. cbn [mbind outcome_bind obind]. rewrite Hamount, Hnonzero.
  rewrite Mbind_eq. unfold lift at 1.
  rewrite Hvc. cbn [mbind outcome_bind obind]. rewrite Hasset.
  rewrite Mbind_eq, Mbind_eq. unfold lift at 1. rewrite Hprice.
  reflexivity.
Qed.

Lemma query_balances_unpriced asset m g balances msg g' :
  find_usd_price asset = Raise (RemoteError m) ->
  query_balances g = Some (Return (Some balances, msg), g') ->
  balances !! asset = None.
Proof.
  intros Hprice. unfold query_balances. intros Hrun.
  apply Mbind_Return in Hrun as ([raw|failure] & g1 & _ & Hrun);
    [|discriminate].
  apply Mbind_Return in Hrun as (entries & g2 & _ & Hrun).
  apply Mbind_Return in Hrun as (returned_balances & g3 & Hloop & Hrun).
  injection Hrun as <- _ _.
  refine (for_each_invariant
            (fun rb : gmap Asset Balance.t => rb !! asset = None) (fun _ => True)
            query_balances_entry _ entries ∅ g2 returned_balances g3
            (lookup_empty _) _ Hloop).
  - intros rb entry g4 rb' g5 Hrb _ Hbody.
    apply query_balances_entry_Return in Hbody
      as [->|(asset' & amount & usd_price & Hprice' & ->)]; [exact Hrb|].
    rewrite lookup_insert_ne; [exact Hrb|].
    intros ->. rewrite Hprice in Hprice'. discriminate.
  - apply Forall_forall. intros; exact I.
Qed.

(** C9.  A balance entry with a non-zero amount and a known asset whose USD
    price lookup fails with RemoteError is skipped: the map is left as it
    was, one error is notified, and the loop goes on with the entries that
    remain.  The asset is in no balance map that query_balances returns. *)
Theorem query_balances_price_failure
    returned_balances entry rest g va amount vc asset m :
  py_getitem entry "amount" = Return va ->
  deserialize_asset_amount va = Return amount ->
  Qeq_bool amount ZERO = false ->
  py_getitem entry "currency" = Return vc ->
  Asset_ vc = Return asset ->
  find_usd_price asset = Raise (RemoteError m) ->
  query_balances_entry returned_balances entry g
  = Some (Return returned_balances,
          mkGemini (api_key g) (secret g) (base_uri g) (first_connection_made g)
            (_symbols g) (session_payload g)
            (msg_aggregator g ++ [Error (price_error m)]) (world g)) /\
  for_each query_balances_entry returned_balances (entry :: rest) g
  = (add_error (price_error m);;
     for_each query_balances_entry returned_balances rest) g /\
  (forall g0 balances msg g',
      query_balances g0 = Some (Return (Some balances, msg), g') ->
      balances !! asset = None).
Proof.
  intros Hva Hamount Hnonzero Hvc Hasset Hprice.
  pose proof (query_balances_entry_no_price returned_balances entry g
                va amount vc asset m Hva Hamount Hnonzero Hvc Hasset Hprice)
    as Hentry.
  split; [rewrite Hentry; reflexivity|]. split.
  - cbn [for_each]. rewrite Mbind_eq, Hentry. reflexivity.
  - intros g0 balances msg g'. apply (query_balances_unpriced asset m), Hprice.
Qed.

End Balances.

Lemma query_balances_price_failure_witness :
  exists balances g',
    @query_balances unpricing fresh = Some (Return (Some balances, ""), g') /\
    balances !! mkAsset "XYZ" = None /\
    balances !! mkAsset "BTC" = Some (Balance.mk 1 2)%Q /\
    balances !! mkAsset "USD" = Some (Balance.mk 3 6)%Q /\
    msg_aggregator g' = [Error (price_error "no price for XYZ")].
Proof.
  destruct (@query_balances unpricing fresh) as [[[[[balances|] msg]|e] g']|]
    eqn:Hrun; try (vm_compute in Hrun; discriminate).
  assert (Hmsg : msg = "") by (vm_compute in Hrun; congruence).
  subst msg. exists balances, g'. split; [reflexivity|].
  destruct (@query_balances_price_failure unpricing ∅ (balance "XYZ" 2) [] fresh
              (JInt 2) 2%Q (JStr "XYZ") (mkAsset "XYZ") "no price for XYZ"
              eq_refl eq_refl eq_refl eq_refl eq_refl eq_refl)
    as (_ & _ & Hnever).
  split; [exact (Hnever _ _ _ _ Hrun)|].
  vm_compute in Hrun. injection Hrun as <- <-.
  repeat split; reflexivity.
Defined.

(** ** Skipping a record *)

Section SkipNotAbort.
Context `{Externals}.

(** the exceptions each loop answers with a notification and [continue] *)
Lemma handlers_domain e :
  (is_Some (movement_handlers e) <->
   (exists n, e = UnknownAsset n) \/ (exists n, e = UnsupportedAsset n) \/
   (exists m, e = DeserializationError m) \/ (exists k, e = KeyError k)) /\
  (is_Some (balance_handlers e) <->
   (exists n, e = UnknownAsset n) \/ (exists n, e = UnsupportedAsset n) \/
   (exists m, e = DeserializationError m) \/ (exists k, e = KeyError k)) /\
  (is_Some (trade_handlers e) <->
   (exists p, e = UnprocessableTradePair p) \/ (exists n, e = UnknownAsset n) \/
   (exists m, e = DeserializationError m) \/ (exists k, e = KeyError k)).
Proof.
  repeat split;
    try (intros [h Hh]; destruct e; try discriminate; eauto 6);
    try (intros [(? & ->)|[(? & ->)|[(? & ->)|(? & ->)]]]; eexists; reflexivity).
Qed.

(** a handler only notifies: it adds one message and touches nothing else *)
Lemma handler_notifies e h g :
  movement_handlers e = Some h \/ balance_handlers e = Some h \/
  trade_handlers e = Some h ->
  exists message,
    h g = Some (Return tt,
                mkGemini (api_key g) (secret g) (base_uri g)
                  (first_connection_made g) (_symbols g) (session_payload g)
                  (msg_aggregator g ++ [message]) (world g)).
Proof.
  intros [Hh|[Hh|Hh]]; destruct e; try discriminate;
    injection Hh as <-; eexists; reflexivity.
Qed.

Lemma movements_all_valid entries movements :
  Forall2 (fun entry m => movement_of_entry entry = Return m) entries movements ->
  forall acc g,
    for_each movements_entry acc entries g
    = Some (Return (acc ++ movements)%list, g).
Proof.
  induction 1 as [|entry m entries movements Hentry _ IH]; intros acc g.
  - rewrite app_nil_r. reflexivity.
  - cbn [for_each]. rewrite Mbind_eq. unfold movements_entry at 1.
    rewrite Hentry. cbn [mret M_ret]. rewrite IH, <- app_assoc. reflexivity.
Qed.

(** One record that raises an exception of the movement loop's handlers,
    among records that normalize: the result is the movements of the
    others, in order, and the handler has run once. *)
Lemma movements_skip_not_abort before bad after movements1 movements2 e h g :
  Forall2 (fun entry m => movement_of_entry entry = Return m) before movements1 ->
  Forall2 (fun entry m => movement_of_entry entry = Return m) after movements2 ->
  movement_of_entry bad = Raise e ->
  movement_handlers e = Some h ->
  for_each movements_entry [] (before ++ bad :: after) g
  = (h;; mret (movements1 ++ movements2)%list) g.
Proof.
  intros Hbefore Hafter Hbad Hh.
  rewrite for_each_app, Mbind_eq, (movements_all_valid _ _ Hbefore).
  cbn [for_each app]. rewrite !Mbind_eq. unfold movements_entry at 1.
  rewrite Hbad, Hh, Mbind_eq.
  destruct (handler_notifies e h g (or_introl Hh)) as (message & ->).
  cbn [mret M_ret]. rewrite (movements_all_valid _ _ Hafter). reflexivity.
Qed.

Lemma trades_all_valid end_ts symbol entries new_trades :
  Forall2 (fun entry t => trade_of_entry end_ts symbol entry = Return (Some t))
    entries new_trades ->
  forall trades g,
    trades_of_entries end_ts symbol entries trades g
    = Some (Return (trades ++ new_trades)%list, g).
Proof.
  induction 1 as [|entry t entries new_trades Hentry _ IH]; intros trades g.
  - rewrite app_nil_r. reflexivity.
  - cbn [trades_of_entries]. rewrite Hentry, IH, <- app_assoc. reflexivity.
Qed.

Lemma trades_of_entries_app end_ts symbol before new_trades :
  Forall2 (fun entry t => trade_of_entry end_ts symbol entry = Return (Some t))
    before new_trades ->
  forall rest trades g,
    trades_of_entries end_ts symbol (before ++ rest) trades g
    = trades_of_entries end_ts symbol rest (trades ++ new_trades)%list g.
Proof.
  induction 1 as [|entry t entries new_trades Hentry _ IH]; intros rest trades g.
  - rewrite app_nil_r. reflexivity.
  - cbn [trades_of_entries app]. rewrite Hentry, IH, <- app_assoc. reflexivity.
Qed.

(** The same for the trades of a symbol. *)
Lemma trades_skip_not_abort end_ts symbol before bad after trades1 trades2 e h g :
  Forall2 (fun entry t => trade_of_entry end_ts symbol entry = Return (Some t))
    before trades1 ->
  Forall2 (fun entry t => trade_of_entry end_ts symbol entry = Return (Some t))
    after trades2 ->
  trade_of_entry end_ts symbol bad = Raise e ->
  trade_handlers e = Some h ->
  trades_of_entries end_ts symbol (before ++ bad :: after) [] g
  = (h;; mret (trades1 ++ trades2)%list) g.
Proof.
  intros Hbefore Hafter Hbad Hh.
  rewrite (trades_of_entries_app _ _ _ _ Hbefore).
  cbn [trades_of_entries app]. rewrite Hbad, Hh, !Mbind_eq.
  destruct (handler_notifies e h g (or_intror (or_intror Hh))) as (message & ->).
  rewrite (trades_all_valid _ _ _ _ Hafter). reflexivity.
Qed.

(** A trade whose normalization raises UnsupportedAsset is not skipped:
    the exception leaves the loop, and the trades that follow are lost. *)
Lemma trades_unsupported_asset_escapes
    end_ts symbol before bad after trades1 asset_name g :
  Forall2 (fun entry t => trade_of_entry end_ts symbol entry = Return (Some t))
    before trades1 ->
  trade_of_entry end_ts symbol bad = Raise (UnsupportedAsset asset_name) ->
  trades_of_entries end_ts symbol (before ++ bad :: after) [] g
  = Some (Raise (UnsupportedAsset asset_name), g).
Proof.
  intros Hbefore Hbad.
  rewrite (trades_of_entries_app _ _ _ _ Hbefore).
  cbn [trades_of_entries app]. rewrite Hbad. reflexivity.
Qed.

(** A balance whose amount or asset raises an exception of the balance
    loop's handlers leaves the map as it was. *)
Lemma balances_skip returned_balances entry e h g :
  (v ← py_getitem entry "amount"; deserialize_asset_amount v) = Raise e \/
  (exists amount,
      (v ← py_getitem entry "amount"; deserialize_asset_amount v)
      = Return amount /\
      Qeq_bool amount ZERO = false /\
      (v ← py_getitem entry "currency"; Asset_ v) = Raise e) ->
  balance_handlers e = Some h ->
  query_balances_entry returned_balances entry g
  = (h;; mret returned_balances) g.
Proof.
  intros Hraise Hh. unfold query_balances_entry, try_except.
  rewrite Mbind_eq. unfold lift at 1.
  destruct Hraise as [Hamount|(amount & Hamount & Hnonzero & Hasset)].
  - rewrite Hamount, Hh. reflexivity.
  - rewrite Hamount, Hnonzero, Mbind_eq. unfold lift at 1.
    rewrite Hasset, Hh. reflexivity.
Qed.

End SkipNotAbort.

(** C1, at an input where the code departs from it.  The venue lists one
    symbol and returns three trades, three transfers and three balances;
    the second of each is in the asset XYZ, which the resolver refuses with
    UnsupportedAsset.  The movement and balance loops skip that record, with
    one warning, and return the other two.  The trade loop has no clause
    for UnsupportedAsset: the exception leaves query_online_trade_history
    and no trade is returned.  With XYZ unknown instead of unsupported the
    trade loop skips the record like the other two. *)
Theorem trade_history_unsupported_asset_escapes :
  (exists g',
      @query_online_trade_history unsupporting 5 0 40 fresh
      = Some (Raise (UnsupportedAsset "XYZ"), g')) /\
  (exists movements g',
      @query_online_deposits_withdrawals unsupporting 5 0 40 fresh
      = Some (Return movements, g') /\
      map AssetMovement.timestamp movements = [10; 30]%Z /\
      msg_aggregator g' =
        [Warning "Found gemini deposit/withdrawal with unsupported asset XYZ. Ignoring it."]) /\
  (exists balances g',
      @query_balances unsupporting fresh = Some (Return (Some balances, ""), g') /\
      dom balances = {[mkAsset "BTC"; mkAsset "USD"]} /\
      msg_aggregator g' =
        [Warning "Found gemini balance result with unsupported asset XYZ. Ignoring it."]) /\
  (exists trades g',
      @query_online_trade_history unknowing 5 0 40 fresh
      = Some (Return trades, g') /\
      map Trade.timestamp trades = [10; 30]%Z /\
      msg_aggregator g' =
        [Warning "Found unknown Gemini asset XYZ. Ignoring the trade."]).
Proof.
  split; [|split; [|split]].
  - eexists. vm_compute. reflexivity.
  - eexists _, _. split; [vm_compute; reflexivity|]. split; reflexivity.
  - eexists _, _. split; [vm_compute; reflexivity|]. split; [|reflexivity].
    apply set_eq. intros a. vm_compute. tauto.
  - eexists _, _. split; [vm_compute; reflexivity|]. split; reflexivity.
Qed.

(** A transfer without [timestampms] does not reach the movement loop, whose
    KeyError clause would skip it: the trim of _get_paginated_query reads
    the key first, outside any [try], and the KeyError leaves
    query_online_deposits_withdrawals. *)
Lemma deposits_withdrawals_missing_timestampms :
  exists g',
    @query_online_deposits_withdrawals ragged 5 0 40 fresh
    = Some (Raise (KeyError "timestampms"), g').
Proof. eexists. vm_compute. reflexivity. Qed.

(** * More of the client *)

(** ** The transport, request by request *)

Section TransportTrace.
Context `{Externals}.

Lemma same_client_refl g : same_client g g.
Proof. repeat split. Qed.

Lemma presign_same endpoint v_endpoint options g :
  exists g1,
    (if is_private endpoint then sign v_endpoint options else mret tt) g
    = Some (Return tt, g1) /\
    world g1 = world g /\ same_client g g1 /\
    session_payload g1 =
      (if is_private endpoint then
         Some (payload_of v_endpoint (pretty (ts_now_in_ms (world g))) options)
       else session_payload g).
Proof.
  destruct (is_private endpoint); eexists; (split; [reflexivity|]);
    repeat split.
Qed.

(** the loop of _query_continuously, from any number of retries left *)
Lemma loop_trace method endpoint v_endpoint url options n :
  forall response0 g r g',
    (forall r0, response0 = Some r0 ->
                status_code r0 = HTTP_TOO_MANY_REQUESTS) ->
    _query_continuously_loop method endpoint v_endpoint url options
      n response0 g = Some (r, g') ->
    exists evs,
      world g' = (world g ++ evs)%list /\
      same_client g g' /\
      (is_private endpoint = false -> session_payload g' = session_payload g) /\
      Forall (fun req =>
                req_method req = method /\ req_url req = url /\
                req_timeout req = GLOBAL_REQUESTS_TIMEOUT /\
                if is_private endpoint then
                  exists nonce,
                    req_payload req = Some (payload_of v_endpoint nonce options)
                else req_payload req = session_payload g)
        (requests_of evs) /\
      sleeps_of evs `prefix_of`
        map (fun k => truediv QUERY_RETRY_TIMES (Pos.of_nat k)) (rev (seq 1 n)) /\
      match r with
      | Return response =>
          if (status_code response =? HTTP_TOO_MANY_REQUESTS)%Z then
            length (requests_of evs) = n /\ length (sleeps_of evs) = n
          else
            length (requests_of evs) = S (length (sleeps_of evs)) /\
            (length (requests_of evs) <= n)%nat
      | Raise e =>
          (n = 0%nat /\ response0 = None) \/
          (length (requests_of evs) = S (length (sleeps_of evs)) /\
           (length (requests_of evs) <= n)%nat /\
           ((exists m, e = RemoteError m) \/
            (exists w req, session_request w req = Raise e) /\
            forall m, e <> RequestException m))
      end.
Proof.
  induction n as [|n IH]; intros response0 g r g' H429 Hrun.
  - exists []. rewrite app_nil_r. cbn [_query_continuously_loop] in Hrun.
    destruct response0 as [r0|].
    + injection Hrun as <- <-. rewrite (H429 r0 eq_refl).
      split; [reflexivity|]. split; [apply same_client_refl|].
      split; [reflexivity|]. split; [constructor|].
      split; [apply prefix_nil|]. split; reflexivity.
    + injection Hrun as <- <-.
      split; [reflexivity|]. split; [apply same_client_refl|].
      split; [reflexivity|]. split; [constructor|].
      split; [apply prefix_nil|]. left. split; reflexivity.
  - rewrite _query_continuously_loop_S, Mbind_eq in Hrun.
    destruct (presign_same endpoint v_endpoint options g)
      as (g1 & Hsign & Hw1 & Hsame1 & Hpay1).
    rewrite Hsign, Mbind_eq in Hrun. unfold try_except, request in Hrun.
    set (req := mkRequest method url GLOBAL_REQUESTS_TIMEOUT (session_payload g1))
      in Hrun.
    assert (Hreq : req_method req = method /\ req_url req = url /\
                   req_timeout req = GLOBAL_REQUESTS_TIMEOUT /\
                   if is_private endpoint then
                     exists nonce,
                       req_payload req = Some (payload_of v_endpoint nonce options)
                   else req_payload req = session_payload g).
    { subst req. cbn [req_method req_url req_timeout req_payload]. rewrite Hpay1.
      split; [reflexivity|]. split; [reflexivity|]. split; [reflexivity|].
      destruct (is_private endpoint); [eexists; reflexivity|reflexivity]. }
    rewrite (seq_S n 1), rev_app_distr. cbn [rev app map].
    destruct (session_request (world g1) req) as [resp|e] eqn:Hresp.
    + destruct (status_code resp =? HTTP_TOO_MANY_REQUESTS)%Z eqn:Hstatus.
      * rewrite Mbind_eq in Hrun. cbn [emit] in Hrun.
        apply IH in Hrun; [|intros r0 [= <-]; apply Z.eqb_eq, Hstatus].
        destruct Hrun as (evs & Hw & Hsame & Hpay & Hreqs & Hsl & Hres).
        unfold same_client in Hsame, Hsame1.
        cbn [world api_key secret base_uri first_connection_made _symbols
             session_payload msg_aggregator] in Hw, Hsame, Hpay, Hreqs.
        rewrite <- !app_assoc in Hw. cbn [app] in Hw. rewrite Hw1 in Hw.
        exists (EvRequest req
                  :: EvSleep (truediv QUERY_RETRY_TIMES (Pos.of_nat (S n)))
                  :: evs).
        split; [exact Hw|].
        split; [destruct Hsame1 as (?&?&?&?&?&?), Hsame as (?&?&?&?&?&?);
                repeat split; congruence|].
        split; [intros Hpub; rewrite (Hpay Hpub), Hpay1, Hpub; reflexivity|].
        split.
        { cbn [requests_of]. constructor; [exact Hreq|].
          eapply Forall_impl; [exact Hreqs|].
          intros q (Hm & Hu & Ht & Hp). repeat split; try assumption.
          destruct (is_private endpoint) eqn:Hpriv; [exact Hp|].
          rewrite Hp, Hpay1. reflexivity. }
        split; [cbn [sleeps_of]; apply prefix_cons, Hsl|].
        cbn [requests_of sleeps_of length].
        destruct r as [response|e].
        -- destruct (status_code response =? HTTP_TOO_MANY_REQUESTS)%Z;
             destruct Hres; split; lia.
        -- destruct Hres as [[-> [=]]|(Hlen & Hle & Hkind)].
           right. split; [lia|]. split; [lia|exact Hkind].
      * injection Hrun as <- <-. exists [EvRequest req].
        cbn [world]. rewrite Hw1. split; [reflexivity|].
        split; [destruct Hsame1 as (?&?&?&?&?&?); repeat split; assumption|].
        split; [intros Hpub; cbn [session_payload]; rewrite Hpay1, Hpub;
                reflexivity|].
        split; [cbn [requests_of]; constructor; [exact Hreq|constructor]|].
        split; [apply prefix_nil|]. rewrite Hstatus.
        cbn [requests_of sleeps_of length]. split; lia.
    + assert (Hout : exists e', r = Raise e' /\ g' = mkGemini (api_key g1) (secret g1)
                (base_uri g1) (first_connection_made g1) (_symbols g1)
                (session_payload g1) (msg_aggregator g1)
                (world g1 ++ [EvRequest req]) /\
                ((exists m, e' = RemoteError m) \/
                 (exists w q, session_request w q = Raise e') /\
                 forall m, e' <> RequestException m)).
      { destruct e; injection Hrun as <- <-; eexists; (split; [reflexivity|]);
          (split; [reflexivity|]);
          solve [left; eexists; reflexivity
                | right; split; [eauto|intros m; discriminate]]. }
      destruct Hout as (e' & -> & -> & Hkind). exists [EvRequest req].
      cbn [world]. rewrite Hw1. split; [reflexivity|].
      split; [destruct Hsame1 as (?&?&?&?&?&?); repeat split; assumption|].
      split; [intros Hpub; cbn [session_payload]; rewrite Hpay1, Hpub;
              reflexivity|].
      split; [cbn [requests_of]; constructor; [exact Hreq|constructor]|].
      split; [apply prefix_nil|]. right. cbn [requests_of sleeps_of length].
      split; [lia|]. split; [lia|exact Hkind].
Qed.

End TransportTrace.

Lemma total_app l1 l2 : (total (l1 ++ l2) == total l1 + total l2)%Q.
Proof.
  induction l1 as [|q l1 IH]; cbn [total fold_right app].
  - rewrite Qplus_0_l. reflexivity.
  - fold (total (l1 ++ l2)). fold (total l1). rewrite IH. ring.
Qed.

Lemma total_nonneg l : Forall (fun q => (0 <= q)%Q) l -> (0 <= total l)%Q.
Proof.
  induction 1 as [|q l Hq _ IH]; cbn [total fold_right]; [apply Qle_refl|].
  fold (total l). rewrite <- (Qplus_0_l 0). apply Qplus_le_compat; assumption.
Qed.

Lemma total_prefix l1 l2 :
  Forall (fun q => (0 <= q)%Q) l2 -> l1 `prefix_of` l2 ->
  (total l1 <= total l2)%Q.
Proof.
  intros Hpos [k ->]. rewrite total_app.
  apply Forall_app in Hpos as [_ Hk].
  rewrite <- (Qplus_0_r (total l1)) at 1.
  apply Qplus_le_compat; [apply Qle_refl|apply total_nonneg, Hk].
Qed.

Lemma backoff_nonneg : Forall (fun q => (0 <= q)%Q) backoff.
Proof. repeat constructor; discriminate. Qed.

Section TransportFacts.
Context `{Externals}.

(** X1.  Every run of _query_continuously: it sends between one and five
    requests, all with the method, url and timeout of the query (and, for a
    private endpoint, with the caller's options merged over the request
    path and a nonce); between two requests it sleeps, and the sleeps are
    the first of 5/5, 5/4, 5/3, 5/2, 5/1 seconds, 137/12 seconds at most in
    all; nothing of the client changes but its history and session
    headers.  A 429 is returned only when all five requests are spent. *)
Theorem _query_continuously_trace method endpoint options g r g' :
  _query_continuously method endpoint options g = Some (r, g') ->
  exists evs,
    world g' = (world g ++ evs)%list /\
    same_client g g' /\
    (is_private endpoint = false -> session_payload g' = session_payload g) /\
    Forall (sent_by method endpoint options g) (requests_of evs) /\
    (1 <= length (requests_of evs) <= Z.to_nat QUERY_RETRY_TIMES)%nat /\
    sleeps_of evs `prefix_of` backoff /\
    (total (sleeps_of evs) <= 137 # 12)%Q /\
    match r with
    | Return response =>
        if (status_code response =? HTTP_TOO_MANY_REQUESTS)%Z then
          length (requests_of evs) = Z.to_nat QUERY_RETRY_TIMES /\
          sleeps_of evs = backoff
        else length (requests_of evs) = S (length (sleeps_of evs))
    | Raise e =>
        length (requests_of evs) = S (length (sleeps_of evs)) /\
        ((exists m, e = RemoteError m) \/
         (exists w req, session_request w req = Raise e) /\
         forall m, e <> RequestException m)
    end.
Proof.
  unfold _query_continuously. intros Hrun.
  apply loop_trace in Hrun; [|discriminate].
  destruct Hrun as (evs & Hw & Hsame & Hpay & Hreqs & Hsl & Hres).
  change (map (fun k => truediv QUERY_RETRY_TIMES (Pos.of_nat k))
            (rev (seq 1 (Z.to_nat QUERY_RETRY_TIMES)))) with backoff in Hsl.
  change (Z.to_nat QUERY_RETRY_TIMES) with 5%nat in *.
  exists evs. split; [exact Hw|]. split; [exact Hsame|]. split; [exact Hpay|].
  split; [exact Hreqs|].
  assert (Htotal : (total (sleeps_of evs) <= 137 # 12)%Q).
  { apply (Qle_trans _ (total backoff));
      [apply total_prefix; [apply backoff_nonneg|exact Hsl]|].
    vm_compute. discriminate. }
  destruct r as [response|e].
  - destruct (status_code response =? HTTP_TOO_MANY_REQUESTS)%Z.
    + destruct Hres as [Hn Hs].
      split; [lia|]. split; [exact Hsl|]. split; [exact Htotal|].
      split; [exact Hn|].
      destruct Hsl as [k Hk].
      assert (k = []) as ->.
      { apply (f_equal length) in Hk. rewrite length_app, Hs in Hk.
        cbn in Hk. destruct k; [reflexivity|cbn in Hk; lia]. }
      rewrite app_nil_r in Hk. symmetry. exact Hk.
    + destruct Hres as [Hn Hle].
      split; [lia|]. split; [exact Hsl|]. split; [exact Htotal|]. exact Hn.
  - destruct Hres as [[[=] _]|(Hn & Hle & Hkind)].
    split; [lia|]. split; [exact Hsl|]. split; [exact Htotal|].
    split; [exact Hn|exact Hkind].
Qed.

(** X2.  The first answer decides when it is not a 429: a connection error is
    not retried and becomes a RemoteError, and any other status is returned
    at once; in both cases one request was sent and no sleep was taken. *)
Theorem _query_continuously_first_answer method endpoint options g :
  (forall m,
      session_request (world g) (first_request method endpoint options g)
      = Raise (RequestException m) ->
      _query_continuously method endpoint options g
      = Some (Raise (RemoteError
                       ("Gemini " ++ method ++ " query at "
                        ++ (base_uri g ++ "/v1/" ++ endpoint)
                        ++ " connection error: " ++ m)),
              after_first_request method endpoint options g)) /\
  (forall response,
      session_request (world g) (first_request method endpoint options g)
      = Return response ->
      status_code response <> HTTP_TOO_MANY_REQUESTS ->
      _query_continuously method endpoint options g
      = Some (Return response, after_first_request method endpoint options g)).
Proof.
  unfold _query_continuously, after_first_request, first_request, first_payload.
  change (Z.to_nat QUERY_RETRY_TIMES) with 5%nat.
  split.
  - intros m Hraise. rewrite _query_continuously_loop_S, Mbind_eq.
    destruct (is_private endpoint).
    + unfold sign, set_session_payload. cbv beta zeta.
      rewrite Mbind_eq. unfold try_except, request.
      cbn [world session_payload api_key secret base_uri first_connection_made
           _symbols msg_aggregator].
      unfold payload_of in Hraise. rewrite Hraise. reflexivity.
    + cbn [mret M_ret]. rewrite Mbind_eq. unfold try_except, request.
      rewrite Hraise. reflexivity.
  - intros response Hanswer Hstatus. apply Z.eqb_neq in Hstatus.
    rewrite _query_continuously_loop_S, Mbind_eq.
    destruct (is_private endpoint).
    + unfold sign, set_session_payload. cbv beta zeta.
      rewrite Mbind_eq. unfold try_except, request.
      cbn [world session_payload api_key secret base_uri first_connection_made
           _symbols msg_aggregator].
      unfold payload_of in Hanswer. rewrite Hanswer, Hstatus. reflexivity.
    + cbn [mret M_ret]. rewrite Mbind_eq. unfold try_except, request.
      rewrite Hanswer, Hstatus. reflexivity.
Qed.

End TransportFacts.

Lemma _query_continuously_trace_witness :
  exists r g',
    @_query_continuously busy "post" "balances" None fresh = Some (r, g') /\
    length (requests_of (world g')) = 5%nat /\
    sleeps_of (world g') = backoff /\
    Forall (fun req => req_method req = "post"
                       /\ req_url req = "https://api.gemini.com/v1/balances")
      (requests_of (world g')).
Proof.
  destruct (@_query_continuously busy "post" "balances" None fresh)
    as [[r g']|] eqn:Hrun; [|vm_compute in Hrun; discriminate].
  exists r, g'. split; [reflexivity|].
  destruct (@_query_continuously_trace busy "post" "balances" None fresh r g' Hrun)
    as (evs & Hw & _ & _ & Hreqs & _ & _ & _ & Hres).
  cbn [world fresh app] in Hw. rewrite Hw.
  assert (Hr : exists response, r = Return response /\ status_code response = 429%Z).
  { vm_compute in Hrun. injection Hrun as <- _. eexists. split; reflexivity. }
  destruct Hr as (response & -> & Hstatus). rewrite Hstatus in Hres.
  destruct Hres as [Hn Hs]. split; [exact Hn|]. split; [exact Hs|].
  eapply Forall_impl; [exact Hreqs|].
  intros req (Hm & Hu & _). split; assumption.
Defined.

Lemma _query_continuously_first_answer_witness :
  (exists g',
      @_query_continuously permissive "get" "symbols" None fresh
      = Some (Raise (RemoteError
                       "Gemini get query at https://api.gemini.com/v1/symbols connection error: unreachable"),
              g') /\
      requests_of (world g') = [symbols_request fresh] /\
      sleeps_of (world g') = []) /\
  (exists response g',
      @_query_continuously listing "get" "symbols" None fresh
      = Some (Return response, g') /\
      status_code response = 200%Z /\
      requests_of (world g') = [symbols_request fresh]).
Proof.
  split.
  - destruct (@_query_continuously_first_answer permissive "get" "symbols" None fresh)
      as [Herror _].
    eexists. split; [exact (Herror "unreachable" eq_refl)|].
    split; reflexivity.
  - destruct (@_query_continuously_first_answer listing "get" "symbols" None fresh)
      as [_ Hanswer].
    eexists _, _. split; [apply Hanswer; [reflexivity|discriminate]|].
    split; reflexivity.
Defined.

(** ** What an operation may change *)

Lemma extends_refl g : extends g g.
Proof. repeat split; try reflexivity; tauto. Qed.

Lemma extends_trans g1 g2 g3 : extends g1 g2 -> extends g2 g3 -> extends g1 g3.
Proof.
  intros (Hk & Hs & Hb & Hw & Hm & Hf) (Hk' & Hs' & Hb' & Hw' & Hm' & Hf').
  repeat split; try congruence.
  - etrans; eassumption.
  - etrans; eassumption.
  - apply Hf', Hf. assumption.
  - destruct (Hf H) as [Hmade Hsym]. destruct (Hf' Hmade) as [_ Hsym']. congruence.
Qed.

Lemma same_client_extends g g' evs :
  same_client g g' -> world g' = (world g ++ evs)%list -> extends g g'.
Proof.
  intros (Hk & Hs & Hb & Hf & Hy & Hm) Hw.
  repeat split; try assumption.
  - rewrite Hw. apply prefix_app_r. reflexivity.
  - rewrite Hm. reflexivity.
  - congruence.
Qed.

Lemma preserving_ret {A} (a : A) : preserving (mret a : M A).
Proof. intros g r g' [= <- <-]. apply extends_refl. Qed.

Lemma preserving_lift {A} (c : outcome A) : preserving (lift c).
Proof. intros g r g' [= <- <-]. apply extends_refl. Qed.

Lemma preserving_raise {A} e : preserving (raise e : M A).
Proof. intros g r g' [= <- <-]. apply extends_refl. Qed.

Lemma preserving_bind {A B} (c : M A) (k : A -> M B) :
  preserving c -> (forall a, preserving (k a)) -> preserving (c ≫= k).
Proof.
  intros Hc Hk g r g'. rewrite Mbind_eq.
  destruct (c g) as [[[a|e] g1]|] eqn:Hrun; [| |discriminate].
  - intros Hrest. exact (extends_trans _ _ _ (Hc _ _ _ Hrun) (Hk a _ _ _ Hrest)).
  - intros [= <- <-]. exact (Hc _ _ _ Hrun).
Qed.

Lemma preserving_try_except {A} (body : M A) handler :
  preserving body ->
  (forall e h, handler e = Some h -> preserving h) ->
  preserving (try_except body handler).
Proof.
  intros Hbody Hhandler g r g'. unfold try_except.
  destruct (body g) as [[[a|e] g1]|] eqn:Hrun; [| |discriminate].
  - intros [= <- <-]. exact (Hbody _ _ _ Hrun).
  - destruct (handler e) as [h|] eqn:Hh.
    + intros Hrest.
      exact (extends_trans _ _ _ (Hbody _ _ _ Hrun) (Hhandler e h Hh _ _ _ Hrest)).
    + intros [= <- <-]. exact (Hbody _ _ _ Hrun).
Qed.

Lemma preserving_add_warning msg : preserving (add_warning msg).
Proof.
  intros g r g' [= <- <-]. repeat split; try reflexivity; try tauto.
  cbn. apply prefix_app_r. reflexivity.
Qed.

Lemma preserving_add_error msg : preserving (add_error msg).
Proof.
  intros g r g' [= <- <-]. repeat split; try reflexivity; try tauto.
  cbn. apply prefix_app_r. reflexivity.
Qed.

Lemma preserving_for_each {S X} (body : S -> X -> M S) l :
  (forall s x, preserving (body s x)) -> forall s, preserving (for_each body s l).
Proof.
  intros Hbody. induction l as [|x l IH]; intros s.
  - apply preserving_ret.
  - cbn [for_each]. apply preserving_bind; [apply Hbody|exact IH].
Qed.

Lemma preserving_handlers e h :
  movement_handlers e = Some h \/ balance_handlers e = Some h \/
  trade_handlers e = Some h ->
  preserving h.
Proof.
  intros [Hh|[Hh|Hh]]; destruct e; try discriminate; injection Hh as <-;
    first [apply preserving_add_warning|apply preserving_add_error].
Qed.

Section Frame.
Context `{Externals}.

Lemma preserving_query_continuously method endpoint options :
  preserving (_query_continuously method endpoint options).
Proof.
  intros g r g' Hrun. unfold _query_continuously in Hrun.
  apply loop_trace in Hrun; [|discriminate].
  destruct Hrun as (evs & Hw & Hsame & _).
  exact (same_client_extends _ _ _ Hsame Hw).
Qed.

Lemma preserving_public_api_query endpoint :
  preserving (_public_api_query endpoint).
Proof.
  unfold _public_api_query.
  apply preserving_bind; [apply preserving_query_continuously|].
  intros response. destruct (negb _);
    [apply preserving_raise|apply preserving_lift].
Qed.

Lemma preserving_private_api_query endpoint options :
  preserving (_private_api_query endpoint options).
Proof.
  unfold _private_api_query.
  apply preserving_bind; [apply preserving_query_continuously|].
  intros response.
  repeat match goal with
         | |- preserving (if ?b then _ else _) => destruct b
         end;
    first [apply preserving_raise|apply preserving_lift].
Qed.

Lemma preserving_first_connection : preserving first_connection.
Proof.
  intros g r g'. unfold first_connection.
  destruct (first_connection_made g) eqn:Hmade.
  - intros [= <- <-]. apply extends_refl.
  - rewrite Mbind_eq.
    destruct (_public_api_query "symbols" g) as [[[syms|e] g1]|] eqn:Hquery;
      [| |discriminate].
    + intros [= <- <-].
      destruct (preserving_public_api_query _ _ _ _ Hquery)
        as (Hk & Hs & Hb & Hw & Hm & _).
      repeat split; try assumption; congruence.
    + intros [= <- <-]. exact (preserving_public_api_query _ _ _ _ Hquery).
Qed.

Lemma preserving_symbols : preserving symbols.
Proof.
  unfold symbols. apply preserving_bind; [apply preserving_first_connection|].
  intros []. apply preserving_bind.
  - intros g r g' [= <- <-]. apply extends_refl.
  - intros g. apply preserving_ret.
Qed.

Lemma preserving_validate_api_key : preserving validate_api_key.
Proof.
  unfold validate_api_key. cbv zeta. apply preserving_bind.
  - apply preserving_try_except.
    + apply preserving_bind; [apply preserving_private_api_query|].
      intros roles. apply preserving_ret.
    + intros e h Hh. destruct e; try discriminate; injection Hh as <-;
        apply preserving_ret.
  - intros [roles|error]; [|apply preserving_ret].
    destruct roles as [| | | | |d]; try apply preserving_raise.
    destruct (dict_get "isAuditor" d) as [[| [] | | | |]|]; apply preserving_ret.
Qed.

Lemma preserving_query_balances_entry returned_balances entry :
  preserving (query_balances_entry returned_balances entry).
Proof.
  unfold query_balances_entry. apply preserving_try_except.
  - apply preserving_bind; [apply preserving_lift|]. intros amount.
    destruct (Qeq_bool amount ZERO); [apply preserving_ret|].
    apply preserving_bind; [apply preserving_lift|]. intros asset.
    apply preserving_bind.
    + apply preserving_try_except.
      * apply preserving_bind; [apply preserving_lift|].
        intros p. apply preserving_ret.
      * intros e h Hh. destruct e; try discriminate. injection Hh as <-.
        apply preserving_bind; [apply preserving_add_error|].
        intros []. apply preserving_ret.
    + intros [usd_price|]; apply preserving_ret.
  - intros e h Hh. destruct (balance_handlers e) as [h0|] eqn:Hh0; [|discriminate].
    injection Hh as <-. apply preserving_bind.
    + exact (preserving_handlers e h0 (or_intror (or_introl Hh0))).
    + intros []. apply preserving_ret.
Qed.

Lemma preserving_query_balances : preserving query_balances.
Proof.
  unfold query_balances. apply preserving_bind.
  - apply preserving_try_except.
    + apply preserving_bind; [apply preserving_private_api_query|].
      intros balances. apply preserving_ret.
    + intros e h Hh. destruct e; try discriminate; injection Hh as <-;
        apply preserving_ret.
  - intros [balances|msg]; [|apply preserving_ret].
    apply preserving_bind; [apply preserving_lift|]. intros entries.
    apply preserving_bind.
    + apply preserving_for_each. apply preserving_query_balances_entry.
    + intros rb. apply preserving_ret.
Qed.

Lemma preserving_get_paginated_query_loop fuel endpoint end_ts limit :
  forall options result,
    preserving (_get_paginated_query_loop fuel endpoint end_ts limit options result).
Proof.
  induction fuel as [|fuel IH]; intros options result.
  - intros g r g' [=].
  - rewrite _get_paginated_query_loop_S. apply preserving_bind.
    + unfold _get_paginated_query_turn.
      apply preserving_bind; [apply preserving_private_api_query|].
      intros single. apply preserving_bind; [apply preserving_lift|].
      intros page. destruct (_ <? _)%Z; [apply preserving_ret|].
      apply preserving_bind; [apply preserving_lift|]. intros ts.
      destruct (_ >? _)%Z; apply preserving_ret.
    + intros [result' [options'|]]; [apply IH|apply preserving_ret].
Qed.

Lemma preserving_get_paginated_query fuel endpoint start_ts end_ts kwargs :
  preserving (_get_paginated_query fuel endpoint start_ts end_ts kwargs).
Proof.
  unfold _get_paginated_query. cbv zeta. apply preserving_bind.
  - destruct (String.eqb endpoint "mytrades"); [apply preserving_ret|].
    destruct (String.eqb endpoint "transfers");
      [apply preserving_ret|apply preserving_raise].
  - intros [limit options]. apply preserving_bind.
    + apply preserving_get_paginated_query_loop.
    + intros result. apply preserving_lift.
Qed.

Lemma preserving_get_trades_for_symbol fuel symbol start_ts end_ts :
  preserving (_get_trades_for_symbol fuel symbol start_ts end_ts).
Proof.
  unfold _get_trades_for_symbol. apply preserving_try_except.
  - apply preserving_get_paginated_query.
  - intros e h Hh. destruct e; try discriminate; injection Hh as <-;
      (apply preserving_bind; [apply preserving_add_error|]);
      intros []; apply preserving_ret.
Qed.

Lemma preserving_trades_of_entries end_ts symbol gemini_trades :
  forall trades, preserving (trades_of_entries end_ts symbol gemini_trades trades).
Proof.
  induction gemini_trades as [|entry rest IH]; intros trades.
  - apply preserving_ret.
  - cbn [trades_of_entries].
    destruct (trade_of_entry end_ts symbol entry) as [[trade|]|e].
    + apply IH.
    + apply preserving_ret.
    + destruct (trade_handlers e) as [h|] eqn:Hh; [|apply preserving_raise].
      apply preserving_bind.
      * exact (preserving_handlers e h (or_intror (or_intror Hh))).
      * intros []. apply IH.
Qed.

Lemma preserving_query_online_trade_history fuel start_ts end_ts :
  preserving (query_online_trade_history fuel start_ts end_ts).
Proof.
  unfold query_online_trade_history.
  apply preserving_bind; [apply preserving_symbols|]. intros syms.
  apply preserving_for_each. intros trades symbol.
  apply preserving_bind; [apply preserving_get_trades_for_symbol|].
  intros gemini_trades. apply preserving_trades_of_entries.
Qed.

Lemma preserving_movements_entry movements entry :
  preserving (movements_entry movements entry).
Proof.
  unfold movements_entry.
  destruct (movement_of_entry entry) as [movement|e]; [apply preserving_ret|].
  destruct (movement_handlers e) as [h|] eqn:Hh; [|apply preserving_raise].
  apply preserving_bind.
  - exact (preserving_handlers e h (or_introl Hh)).
  - intros []. apply preserving_ret.
Qed.

Lemma preserving_query_online_deposits_withdrawals fuel start_ts end_ts :
  preserving (query_online_deposits_withdrawals fuel start_ts end_ts).
Proof.
  unfold query_online_deposits_withdrawals.
  apply preserving_bind; [apply preserving_get_paginated_query|].
  intros result. apply preserving_for_each. apply preserving_movements_entry.
Qed.

End Frame.

Section FrameFacts.
Context `{Externals}.

(** X3.  No operation of the client changes its credentials or its base uri,
    removes an event from its history or a message from its notifications,
    or, once the client is initialized, resets the flag or changes the list
    of symbols. *)
Theorem operations_extend fuel start_ts end_ts g g' :
  (exists r, first_connection g = Some (r, g')) \/
  (exists r, validate_api_key g = Some (r, g')) \/
  (exists r, query_balances g = Some (r, g')) \/
  (exists r, query_online_trade_history fuel start_ts end_ts g = Some (r, g')) \/
  (exists r, query_online_deposits_withdrawals fuel start_ts end_ts g
             = Some (r, g')) ->
  extends g g'.
Proof.
  intros [[r Hrun]|[[r Hrun]|[[r Hrun]|[[r Hrun]|[r Hrun]]]]].
  - exact (preserving_first_connection _ _ _ Hrun).
  - exact (preserving_validate_api_key _ _ _ Hrun).
  - exact (preserving_query_balances _ _ _ Hrun).
  - exact (preserving_query_online_trade_history _ _ _ _ _ _ Hrun).
  - exact (preserving_query_online_deposits_withdrawals _ _ _ _ _ _ Hrun).
Qed.

Lemma same_client_public_api_query endpoint g r g' :
  _public_api_query endpoint g = Some (r, g') -> same_client g g'.
Proof.
  unfold _public_api_query. rewrite Mbind_eq. unfold _query_continuously.
  destruct (_query_continuously_loop _ _ _ _ _ _ _ g) as [[[response|e] g1]|]
    eqn:Hloop; [| |discriminate].
  - apply loop_trace in Hloop as (evs & _ & Hsame & _); [|discriminate].
    destruct (negb _); intros [= <- <-]; exact Hsame.
  - apply loop_trace in Hloop as (evs & _ & Hsame & _); [|discriminate].
    intros [= <- <-]. exact Hsame.
Qed.

(** X4.  When first_connection raises, the client is left uninitialized, with
    the symbols and the messages it had: the next call queries the venue
    again. *)
Theorem first_connection_failure g e g' :
  first_connection g = Some (Raise e, g') ->
  first_connection_made g = false /\
  first_connection_made g' = false /\
  _symbols g' = _symbols g /\
  msg_aggregator g' = msg_aggregator g /\
  first_connection g' = (symbols ← _public_api_query "symbols";
                         set_symbols symbols;;
                         set_first_connection_made true) g'.
Proof.
  unfold first_connection at 1.
  destruct (first_connection_made g) eqn:Hmade; [discriminate|].
  rewrite Mbind_eq.
  destruct (_public_api_query "symbols" g) as [[[syms|e'] g1]|] eqn:Hquery;
    try discriminate.
  intros [= <- <-].
  destruct (same_client_public_api_query _ _ _ _ Hquery)
    as (_ & _ & _ & Hf & Hy & Hm).
  rewrite Hmade in Hf.
  split; [reflexivity|]. split; [exact Hf|]. split; [exact Hy|].
  split; [exact Hm|]. unfold first_connection. rewrite Hf. reflexivity.
Qed.

Lemma symbols_Return g syms g1 :
  symbols g = Some (Return syms, g1) ->
  first_connection_made g1 = true /\ syms = _symbols g1.
Proof.
  unfold symbols. intros Hrun.
  apply Mbind_Return in Hrun as ([] & g2 & Hfirst & Hrun).
  apply Mbind_Return in Hrun as (g3 & g4 & Hself & Hret).
  injection Hself as <- <-. injection Hret as <- <-.
  split; [|reflexivity].
  unfold first_connection in Hfirst.
  destruct (first_connection_made g) eqn:Hmade.
  - injection Hfirst as <-. exact Hmade.
  - apply Mbind_Return in Hfirst as (l & g5 & _ & Hfirst).
    injection Hfirst as <-. reflexivity.
Qed.

(** X5.  A trade history that returns leaves the client initialized: the symbol
    list was fetched if it had not been, and is the list the trades were
    queried for.  When the symbol listing fails, the trade history fails
    with the same exception, before any private query. *)
Theorem query_online_trade_history_initializes fuel start_ts end_ts g :
  (forall trades g',
      query_online_trade_history fuel start_ts end_ts g
      = Some (Return trades, g') ->
      first_connection_made g' = true /\
      exists g1,
        symbols g = Some (Return (_symbols g'), g1) /\ extends g1 g') /\
  (forall e g1,
      first_connection_made g = false ->
      _public_api_query "symbols" g = Some (Raise e, g1) ->
      query_online_trade_history fuel start_ts end_ts g = Some (Raise e, g1)).
Proof.
  split.
  - intros trades g' Hrun. unfold query_online_trade_history in Hrun.
    apply Mbind_Return in Hrun as (syms & g1 & Hsyms & Hrun).
    destruct (symbols_Return _ _ _ Hsyms) as [Hmade ->].
    assert (Hext : extends g1 g').
    { refine (preserving_for_each _ _ _ _ _ _ _ Hrun).
      intros acc symbol.
      apply preserving_bind; [apply preserving_get_trades_for_symbol|].
      intros gemini_trades. apply preserving_trades_of_entries. }
    destruct Hext as (Hk & Hs & Hb & Hw & Hm & Hf).
    destruct (Hf Hmade) as [Hmade' Hsym].
    split; [exact Hmade'|]. exists g1. rewrite Hsym.
    split; [exact Hsyms|]. repeat split; assumption.
  - intros e g1 Hmade Hquery.
    assert (Hsyms : symbols g = Some (Raise e, g1)).
    { unfold symbols. rewrite Mbind_eq. unfold first_connection.
      rewrite Hmade, Mbind_eq, Hquery. reflexivity. }
    unfold query_online_trade_history. rewrite Mbind_eq, Hsyms. reflexivity.
Qed.

End FrameFacts.

Lemma operations_extend_witness :
  exists g',
    @first_connection listing fresh = Some (Return tt, g') /\
    extends fresh g'.
Proof.
  eexists. split; [reflexivity|].
  apply (@operations_extend listing 0 0 0 fresh). left. eexists. reflexivity.
Defined.

Lemma first_connection_failure_witness :
  exists e g',
    @first_connection permissive fresh = Some (Raise e, g') /\
    first_connection_made g' = false /\ _symbols g' = [].
Proof.
  eexists _, _. split; [reflexivity|].
  destruct (@first_connection_failure permissive fresh _ _ eq_refl)
    as (_ & Hmade & Hsyms & _).
  split; [exact Hmade|exact Hsyms].
Defined.

Lemma query_online_trade_history_initializes_witness :
  first_connection_made fresh = false /\
  exists trades g',
    @query_online_trade_history unknowing 5 0 40 fresh = Some (Return trades, g') /\
    first_connection_made g' = true /\
    _symbols g' = [JStr "btcusd"].
Proof.
  split; [reflexivity|].
  destruct (@query_online_trade_history unknowing 5 0 40 fresh)
    as [[[trades|e] g']|] eqn:Hrun; [|vm_compute in Hrun; discriminate..].
  exists trades, g'. split; [reflexivity|].
  destruct (@query_online_trade_history_initializes unknowing 5 0 40 fresh)
    as [Hinit _].
  destruct (Hinit trades g' Hrun) as (Hmade & _).
  split; [exact Hmade|].
  vm_compute in Hrun. injection Hrun as _ <-. reflexivity.
Defined.

(** ** When the venue keeps answering 429 *)

Section RateLimited.
Context `{Externals}.

Lemma same_client_private_api_query endpoint options g r g' :
  _private_api_query endpoint options g = Some (r, g') -> same_client g g'.
Proof.
  unfold _private_api_query. rewrite Mbind_eq. unfold _query_continuously.
  destruct (_query_continuously_loop _ _ _ _ _ _ _ g) as [[[response|e] g1]|]
    eqn:Hloop; [| |discriminate].
  - apply loop_trace in Hloop as (evs & _ & Hsame & _); [|discriminate].
    repeat match goal with
           | |- context [if ?b then _ else _] => destruct b
           end; intros [= <- <-]; exact Hsame.
  - apply loop_trace in Hloop as (evs & _ & Hsame & _); [|discriminate].
    intros [= <- <-]. exact Hsame.
Qed.

Hypothesis always_429 :
  forall w r, exists resp,
    session_request w r = Return resp /\
    status_code resp = HTTP_TOO_MANY_REQUESTS.

Lemma _query_continuously_429 method endpoint options g :
  exists response g',
    _query_continuously method endpoint options g = Some (Return response, g') /\
    status_code response = HTTP_TOO_MANY_REQUESTS /\
    length (requests_of (world g')) = (length (requests_of (world g)) + 5)%nat.
Proof.
  unfold _query_continuously.
  destruct (loop_always_429 always_429 method endpoint ("/v1/" ++ endpoint)
              (base_uri g ++ "/v1/" ++ endpoint) options 4 None g)
    as (response & g' & w & r & Hrun & H429 & Hreq & _).
  exists response, g'. split; [exact Hrun|]. split; [exact H429|exact Hreq].
Qed.

Lemma _private_api_query_429 endpoint options g :
  exists response g',
    _private_api_query endpoint options g
    = Some (Raise (status_error response), g') /\
    status_code response = HTTP_TOO_MANY_REQUESTS /\
    length (requests_of (world g')) = (length (requests_of (world g)) + 5)%nat.
Proof.
  destruct (_query_continuously_429 "post" endpoint options g)
    as (response & g' & Hrun & H429 & Hreq).
  exists response, g'. split; [|split; assumption].
  unfold _private_api_query. rewrite Mbind_eq, Hrun, H429. reflexivity.
Qed.

Lemma _public_api_query_429 endpoint g :
  exists response g',
    _public_api_query endpoint g = Some (Raise (status_error response), g') /\
    status_code response = HTTP_TOO_MANY_REQUESTS /\
    length (requests_of (world g')) = (length (requests_of (world g)) + 5)%nat.
Proof.
  destruct (_query_continuously_429 "get" endpoint None g)
    as (response & g' & Hrun & H429 & Hreq).
  exists response, g'. split; [|split; assumption].
  unfold _public_api_query. rewrite Mbind_eq, Hrun, H429. reflexivity.
Qed.

(** X6.  With a venue that answers 429 to everything (the hypothesis of this
    section): each query of the API gives up
    after five requests with a RemoteError that reports the status.
    query_balances and validate_api_key turn it into their failure value,
    _get_trades_for_symbol into no trades and one error message; it leaves
    first_connection and query_online_deposits_withdrawals as the
    exception. *)
Theorem rate_limit_exhausted g :
  (forall endpoint options, exists response g',
      _private_api_query endpoint options g
      = Some (Raise (status_error response), g') /\
      status_code response = HTTP_TOO_MANY_REQUESTS /\
      length (requests_of (world g')) = (length (requests_of (world g)) + 5)%nat) /\
  (forall endpoint, exists response g',
      _public_api_query endpoint g = Some (Raise (status_error response), g') /\
      status_code response = HTTP_TOO_MANY_REQUESTS /\
      length (requests_of (world g')) = (length (requests_of (world g)) + 5)%nat) /\
  (exists response g',
      query_balances g
      = Some (Return (None, "Gemini API request failed. "
                            ++ str_exn (status_error response)), g')) /\
  (exists response g',
      validate_api_key g
      = Some (Return (false, str_exn (status_error response)), g')) /\
  (forall fuel symbol start_ts end_ts, exists response g',
      _get_trades_for_symbol (S fuel) symbol start_ts end_ts g
      = Some (Return [], g') /\
      msg_aggregator g' =
        (msg_aggregator g
         ++ [Error ("Got remote error while querying Gemini for trades: "
                    ++ str_exn (status_error response))])%list) /\
  (forall fuel start_ts end_ts, exists response g',
      query_online_deposits_withdrawals (S fuel) start_ts end_ts g
      = Some (Raise (status_error response), g')) /\
  (first_connection_made g = false ->
   exists response g',
     first_connection g = Some (Raise (status_error response), g')).
Proof.
  assert (Hpaginated : forall fuel endpoint start_ts end_ts kwargs,
             String.eqb endpoint "mytrades" = true \/
             String.eqb endpoint "transfers" = true ->
             exists response g',
               _get_paginated_query (S fuel) endpoint start_ts end_ts kwargs g
               = Some (Raise (status_error response), g') /\
               same_client g g').
  { intros fuel endpoint start_ts end_ts kwargs Hendpoint.
    unfold _get_paginated_query. cbv zeta.
    assert (Hloop : forall limit options, exists response g',
               _get_paginated_query_loop (S fuel) endpoint end_ts limit options [] g
               = Some (Raise (status_error response), g') /\ same_client g g').
    { intros limit options.
      destruct (_private_api_query_429 endpoint (Some options) g)
        as (response & g' & Hrun & _).
      exists response, g'.
      split; [|exact (same_client_private_api_query _ _ _ _ _ Hrun)].
      rewrite _get_paginated_query_loop_S, Mbind_eq.
      unfold _get_paginated_query_turn. rewrite Mbind_eq, Hrun. reflexivity. }
    destruct (String.eqb endpoint "mytrades").
    - rewrite Mbind_eq. cbn [mret M_ret]. rewrite Mbind_eq.
      destruct (Hloop 500%Z (<["limit_trades" := JInt 500]>
                  (dict_update {["timestamp" := JInt start_ts]} kwargs)))
        as (response & g' & -> & Hsame).
      exists response, g'. split; [reflexivity|exact Hsame].
    - destruct Hendpoint as [[=]|Htransfers]. rewrite Htransfers.
      rewrite Mbind_eq. cbn [mret M_ret]. rewrite Mbind_eq.
      destruct (Hloop 50%Z (<["limit_trades" := JInt 50]>
                  (dict_update {["timestamp" := JInt start_ts]} kwargs)))
        as (response & g' & -> & Hsame).
      exists response, g'. split; [reflexivity|exact Hsame]. }
  split; [intros endpoint options; apply _private_api_query_429|].
  split; [intros endpoint; apply _public_api_query_429|].
  split.
  { destruct (_private_api_query_429 "balances" None g)
      as (response & g' & Hrun & _).
    exists response, g'. unfold query_balances. rewrite Mbind_eq.
    unfold try_except. rewrite Mbind_eq, Hrun. reflexivity. }
  split.
  { destruct (_private_api_query_429 "roles" None g)
      as (response & g' & Hrun & _).
    exists response, g'. unfold validate_api_key. cbv zeta. rewrite Mbind_eq.
    unfold try_except. rewrite Mbind_eq, Hrun. reflexivity. }
  split.
  { intros fuel symbol start_ts end_ts.
    destruct (Hpaginated fuel "mytrades" start_ts end_ts {["symbol" := symbol]}
                (or_introl eq_refl)) as (response & g' & Hrun & Hsame).
    exists response. eexists. unfold _get_trades_for_symbol, try_except.
    rewrite Hrun. split; [reflexivity|].
    destruct Hsame as (_ & _ & _ & _ & _ & Hm). cbn. rewrite Hm. reflexivity. }
  split.
  { intros fuel start_ts end_ts.
    destruct (Hpaginated fuel "transfers" start_ts end_ts ∅ (or_intror eq_refl))
      as (response & g' & Hrun & _).
    exists response, g'. unfold query_online_deposits_withdrawals.
    rewrite Mbind_eq, Hrun. reflexivity. }
  intros Hmade.
  destruct (_public_api_query_429 "symbols" g) as (response & g' & Hrun & _).
  exists response, g'. unfold first_connection.
  rewrite Hmade, Mbind_eq, Hrun. reflexivity.
Qed.

End RateLimited.

Lemma rate_limit_exhausted_witness :
  (forall w r, exists resp,
      @session_request busy w r = Return resp /\
      status_code resp = HTTP_TOO_MANY_REQUESTS) /\
  (exists response g',
      @query_balances busy fresh
      = Some (Return (None, "Gemini API request failed. "
                            ++ str_exn (@status_error response)), g')) /\
  (exists response g',
      @query_online_deposits_withdrawals busy 1 0 10 fresh
      = Some (Raise (@status_error response), g')).
Proof.
  assert (Hbusy : forall w r, exists resp,
             @session_request busy w r = Return resp /\
             status_code resp = HTTP_TOO_MANY_REQUESTS).
  { intros w r. eexists. split; reflexivity. }
  split; [exact Hbusy|].
  destruct (@rate_limit_exhausted busy Hbusy fresh)
    as (_ & _ & Hbalances & _ & _ & Hmovements & _).
  split; [exact Hbalances|exact (Hmovements 0%nat 0%Z 10%Z)].
Defined.

(** ** The exceptions of the API queries *)

Section ErrorContract.
Context `{Externals}.

Hypothesis session_raises :
  forall w r e, session_request w r = Raise e -> exists m, e = RequestException m.
Hypothesis list_decoder_raises :
  forall t e, rlk_jsonloads_list t = Raise e -> exists m, e = JSONDecodeError m.
Hypothesis dict_decoder_raises :
  forall t e, rlk_jsonloads_dict t = Raise e -> exists m, e = JSONDecodeError m.

Lemma _query_continuously_raises method endpoint options g e g' :
  _query_continuously method endpoint options g = Some (Raise e, g') ->
  exists m, e = RemoteError m.
Proof.
  unfold _query_continuously. intros Hrun.
  apply loop_trace in Hrun as (evs & _ & _ & _ & _ & _ & Hres); [|discriminate].
  destruct Hres as [[[=] _]|(_ & _ & [Hremote|[(w & req & Hraise) Hnot]])].
  - exact Hremote.
  - destruct (session_raises _ _ _ Hraise) as (m & ->).
    destruct (Hnot m eq_refl).
Qed.

Lemma on_JSONDecodeError_raises {A} response (c : outcome A) e :
  (forall e', c = Raise e' -> exists m, e' = JSONDecodeError m) ->
  on_JSONDecodeError response c = Raise e -> exists m, e = RemoteError m.
Proof.
  intros Hc. destruct c as [a|e']; [discriminate|].
  destruct (Hc e' eq_refl) as (m & ->). intros [= <-]. eexists. reflexivity.
Qed.

(** X7.  As the docstrings say.  When the session raises nothing but
    RequestException and the decoders nothing but JSONDecodeError (the
    hypotheses of this section), _query_continuously and _public_api_query
    raise nothing but RemoteError, _private_api_query nothing but
    RemoteError and GeminiPermissionError, and validate_api_key raises
    nothing: it always returns a pair. *)
Theorem api_queries_raise :
  (forall method endpoint options g e g',
      _query_continuously method endpoint options g = Some (Raise e, g') ->
      exists m, e = RemoteError m) /\
  (forall endpoint g e g',
      _public_api_query endpoint g = Some (Raise e, g') ->
      exists m, e = RemoteError m) /\
  (forall endpoint options g e g',
      _private_api_query endpoint options g = Some (Raise e, g') ->
      (exists m, e = RemoteError m) \/ (exists m, e = GeminiPermissionError m)) /\
  (forall g r g',
      validate_api_key g = Some (r, g') ->
      exists ok msg, r = Return (ok, msg)).
Proof.
  assert (Hprivate : forall endpoint options g e g',
      _private_api_query endpoint options g = Some (Raise e, g') ->
      (exists m, e = RemoteError m) \/ (exists m, e = GeminiPermissionError m)).
  { intros endpoint options g e g'. unfold _private_api_query.
    rewrite Mbind_eq.
    destruct (_query_continuously "post" endpoint options g)
      as [[[response|e'] g1]|] eqn:Hrun; [| |discriminate].
    - destruct (status_code response =? HTTP_FORBIDDEN)%Z;
        [intros [= <- _]; right; eexists; reflexivity|].
      destruct (_ && _); [intros [= <- _]; right; eexists; reflexivity|].
      destruct (negb _); [intros [= <- _]; left; eexists; reflexivity|].
      destruct (String.eqb endpoint "roles"); intros [= Hdec _]; left.
      + apply (on_JSONDecodeError_raises _ _ _) in Hdec; [exact Hdec|].
        intros e'. destruct (rlk_jsonloads_dict (text response)) as [d|e0] eqn:Hd;
          [discriminate|].
        intros [= <-]. exact (dict_decoder_raises _ _ Hd).
      + apply (on_JSONDecodeError_raises _ _ _) in Hdec; [exact Hdec|].
        intros e'. destruct (rlk_jsonloads_list (text response)) as [l|e0] eqn:Hl;
          [discriminate|].
        intros [= <-]. exact (list_decoder_raises _ _ Hl).
    - intros [= <- _]. left. exact (_query_continuously_raises _ _ _ _ _ _ Hrun). }
  split; [exact _query_continuously_raises|]. split.
  { intros endpoint g e g'. unfold _public_api_query. rewrite Mbind_eq.
    destruct (_query_continuously "get" endpoint None g)
      as [[[response|e'] g1]|] eqn:Hrun; [| |discriminate].
    - destruct (negb _); [intros [= <- _]; eexists; reflexivity|].
      intros [= Hdec _].
      apply (on_JSONDecodeError_raises _ _ _) in Hdec; [exact Hdec|].
      intros e'. apply list_decoder_raises.
    - intros [= <- _]. exact (_query_continuously_raises _ _ _ _ _ _ Hrun). }
  split; [exact Hprivate|].
  intros g r g'. unfold validate_api_key. cbv zeta. rewrite Mbind_eq.
  unfold try_except. rewrite Mbind_eq.
  destruct (_private_api_query "roles" None g) as [[[roles|e] g1]|] eqn:Hrun;
    [| |discriminate].
  - assert (Hdict : exists d, roles = JDict d).
    { unfold _private_api_query in Hrun.
      apply Mbind_Return in Hrun as (response & g2 & _ & Hrun).
      destruct (status_code response =? HTTP_FORBIDDEN)%Z; [discriminate|].
      destruct (_ && _); [discriminate|].
      destruct (negb _); [discriminate|].
      change (String.eqb "roles" "roles") with true in Hrun. cbv iota in Hrun.
      injection Hrun as Hrun _.
      destruct (rlk_jsonloads_dict (text response)) as [d|e]; cbn in Hrun.
      - injection Hrun as <-. exists d. reflexivity.
      - destruct e; discriminate. }
    destruct Hdict as (d & ->). cbn [mret M_ret].
    destruct (dict_get "isAuditor" d) as [[| [] | | | |]|];
      intros [= <- _]; eexists _, _; reflexivity.
  - destruct (Hprivate _ _ _ _ _ Hrun) as [(m & ->)|(m & ->)];
      intros [= <- _]; eexists _, _; reflexivity.
Qed.

End ErrorContract.

Lemma api_queries_raise_witness :
  (forall w r e, @session_request permissive w r = Raise e ->
                 exists m, e = RequestException m) /\
  (exists m g',
      @_public_api_query permissive "symbols" fresh
      = Some (Raise (RemoteError m), g')) /\
  (exists msg g',
      @validate_api_key permissive fresh = Some (Return (false, msg), g')).
Proof.
  assert (Hsession : forall w r e, @session_request permissive w r = Raise e ->
                                   exists m, e = RequestException m).
  { intros w r e [= <-]. eexists. reflexivity. }
  assert (Hlist : forall t e, @rlk_jsonloads_list permissive t = Raise e ->
                              exists m, e = JSONDecodeError m).
  { intros t e [= <-]. eexists. reflexivity. }
  assert (Hdict : forall t e, @rlk_jsonloads_dict permissive t = Raise e ->
                              exists m, e = JSONDecodeError m).
  { intros t e [= <-]. eexists. reflexivity. }
  destruct (@api_queries_raise permissive Hsession Hlist Hdict)
    as (_ & Hpublic & _ & Hvalidate).
  split; [exact Hsession|]. split.
  - destruct (@_public_api_query permissive "symbols" fresh)
      as [[[l|e] g']|] eqn:Hrun; try (vm_compute in Hrun; discriminate).
    destruct (Hpublic _ _ _ _ Hrun) as (m & ->). exists m, g'. reflexivity.
  - destruct (@validate_api_key permissive fresh) as [[r g']|] eqn:Hrun;
      [|vm_compute in Hrun; discriminate].
    destruct (Hvalidate _ _ _ Hrun) as (ok & msg & ->).
    exists msg, g'. vm_compute in Hrun. injection Hrun as <- _ _. reflexivity.
Defined.

(** ** validate_api_key *)

Section Roles.
Context `{Externals}.

(** X8.  validate_api_key accepts the key exactly when the roles query returns an
    object whose ["isAuditor"] is present and is not [False] itself (so
    that [null] or [0] pass); then the message is empty.  It refuses with
    the Auditor message when the query raises GeminiPermissionError or the
    role is missing or [False], and with the text of the error when the
    query raises RemoteError. *)
Theorem validate_api_key_cases g ok msg g' :
  validate_api_key g = Some (Return (ok, msg), g') ->
  (ok = true /\ msg = "" /\
   exists d v,
     _private_api_query "roles" None g = Some (Return (JDict d), g') /\
     dict_get "isAuditor" d = Some v /\ v <> JBool false) \/
  (ok = false /\ msg = auditor_msg /\
   ((exists m,
        _private_api_query "roles" None g
        = Some (Raise (GeminiPermissionError m), g')) \/
    (exists d,
        _private_api_query "roles" None g = Some (Return (JDict d), g') /\
        (dict_get "isAuditor" d = None \/
         dict_get "isAuditor" d = Some (JBool false))))) \/
  (ok = false /\
   _private_api_query "roles" None g = Some (Raise (RemoteError msg), g')).
Proof.
  unfold validate_api_key. cbv zeta. rewrite Mbind_eq.
  unfold try_except. rewrite Mbind_eq.
  destruct (_private_api_query "roles" None g) as [[[roles|e] g1]|];
    [| |discriminate].
  - cbn [mret M_ret]. destruct roles as [| | | | |d]; try discriminate.
    destruct (dict_get "isAuditor" d) as [v|] eqn:Hrole.
    + destruct v as [|[]| | | |]; intros [= <- <- <-];
        try (left; split; [reflexivity|]; split; [reflexivity|];
             eexists _, _; split; [reflexivity|]; split; [exact Hrole|];
             discriminate).
      right; left. split; [reflexivity|]. split; [reflexivity|].
      right. exists d. split; [reflexivity|]. right. exact Hrole.
    + intros [= <- <- <-]. right; left.
      split; [reflexivity|]. split; [reflexivity|].
      right. exists d. split; [reflexivity|]. left. exact Hrole.
  - destruct e; try discriminate; intros [= <- <- <-].
    + right; right. split; reflexivity.
    + right; left. split; [reflexivity|]. split; [reflexivity|].
      left. eexists. reflexivity.
Qed.

End Roles.

Lemma validate_api_key_cases_witness :
  @validate_api_key (with_roles [("isAuditor", JBool true)]) fresh
  = Some (Return (true, ""),
          @after_first_request (with_roles [("isAuditor", JBool true)])
            "post" "roles" None fresh) /\
  (exists g',
      @validate_api_key (with_roles [("isAuditor", JNull)]) fresh
      = Some (Return (true, ""), g')) /\
  (exists g',
      @validate_api_key (with_roles [("isTrader", JBool true)]) fresh
      = Some (Return (false, auditor_msg), g')).
Proof.
  split; [reflexivity|]. split.
  - destruct (@validate_api_key (with_roles [("isAuditor", JNull)]) fresh)
      as [[[[ok msg]|e] g']|] eqn:Hrun; try (vm_compute in Hrun; discriminate).
    destruct (@validate_api_key_cases (with_roles [("isAuditor", JNull)])
                fresh ok msg g' Hrun)
      as [(-> & -> & _)|[(_ & _ & Hno)|(_ & Hremote)]].
    + exists g'. reflexivity.
    + exfalso. vm_compute in Hrun. injection Hrun as _ _ <-.
      destruct Hno as [(m & Hq)|(d & Hq & Hrole)]; vm_compute in Hq;
        [discriminate|].
      injection Hq as <-. destruct Hrole as [Hrole|Hrole]; discriminate.
    + exfalso. vm_compute in Hrun. injection Hrun as _ _ <-.
      vm_compute in Hremote. discriminate.
  - eexists. reflexivity.
Defined.

(** ** The balance map *)

Section BalanceMap.
Context `{Externals}.

Lemma query_balances_entry_inserts returned_balances entry g balances' g' :
  query_balances_entry returned_balances entry g = Some (Return balances', g') ->
  balances' = returned_balances \/
  exists va amount vc asset usd_price,
    py_getitem entry "amount" = Return va /\
    deserialize_asset_amount va = Return amount /\
    Qeq_bool amount ZERO = false /\
    py_getitem entry "currency" = Return vc /\
    Asset_ vc = Return asset /\
    find_usd_price asset = Return usd_price /\
    balances' = <[asset := Balance.mk amount (amount * usd_price)%Q]>
                  returned_balances.
Proof.
  unfold query_balances_entry, try_except. rewrite Mbind_eq. unfold lift at 1.
  destruct (py_getitem entry "amount") as [va|e] eqn:Hva; cbn [mbind outcome_bind obind].
  - destruct (deserialize_asset_amount va) as [amount|e] eqn:Hamount.
    + destruct (Qeq_bool amount ZERO) eqn:Hzero.
      { intros [= <- _]. left. reflexivity. }
      rewrite Mbind_eq. unfold lift at 1.
      destruct (py_getitem entry "currency") as [vc|e] eqn:Hvc;
        cbn [mbind outcome_bind obind].
      * destruct (Asset_ vc) as [asset|e] eqn:Hasset.
        -- rewrite Mbind_eq, Mbind_eq. unfold lift at 1.
           destruct (find_usd_price asset) as [usd_price|e] eqn:Hprice.
           ++ intros [= <- _]. right.
              exists va, amount, vc, asset, usd_price. repeat split; assumption.
           ++ destruct e; try discriminate; intros [= <- _]; left; reflexivity.
        -- destruct e; try discriminate; intros [= <- _]; left; reflexivity.
      * destruct e; try discriminate; intros [= <- _]; left; reflexivity.
    + destruct e; try discriminate; intros [= <- _]; left; reflexivity.
  - destruct e; try discriminate; intros [= <- _]; left; reflexivity.
Qed.

(** X9.  query_balances returns either a map and the empty message, or no map
    and the text of the GeminiPermissionError or RemoteError of the
    balances query.  Every balance of the map has a non-zero amount, comes
    from an entry of the venue's answer with that amount and that asset,
    and is valued at amount times the USD price of the asset.  An entry
    with a zero amount changes nothing, not even the messages. *)
Theorem query_balances_map g :
  (forall r msg g',
      query_balances g = Some (Return (r, msg), g') ->
      (exists balances g1 entries,
          r = Some balances /\ msg = "" /\
          _private_api_query "balances" None g
          = Some (Return (JList entries), g1) /\
          forall asset b,
            balances !! asset = Some b ->
            ~ (Balance.amount b == 0)%Q /\
            exists entry va vc usd_price,
              entry ∈ entries /\
              py_getitem entry "amount" = Return va /\
              deserialize_asset_amount va = Return (Balance.amount b) /\
              py_getitem entry "currency" = Return vc /\
              Asset_ vc = Return asset /\
              find_usd_price asset = Return usd_price /\
              Balance.usd_value b = (Balance.amount b * usd_price)%Q) \/
      (exists e,
          r = None /\ msg = "Gemini API request failed. " ++ str_exn e /\
          _private_api_query "balances" None g = Some (Raise e, g') /\
          ((exists m, e = GeminiPermissionError m) \/ exists m, e = RemoteError m))) /\
  (forall returned_balances entry va amount,
      py_getitem entry "amount" = Return va ->
      deserialize_asset_amount va = Return amount ->
      (amount == 0)%Q ->
      query_balances_entry returned_balances entry g
      = Some (Return returned_balances, g)).
Proof.
  split.
  - intros r msg g'. unfold query_balances. rewrite Mbind_eq.
    unfold try_except at 1. rewrite Mbind_eq.
    destruct (_private_api_query "balances" None g) as [[[raw|e] g1]|] eqn:Hquery;
      [| |discriminate].
    + cbn [mret M_ret]. rewrite Mbind_eq. unfold lift at 1.
      destruct raw as [| | | |entries|]; cbn [py_list]; try discriminate.
      rewrite Mbind_eq.
      destruct (for_each query_balances_entry ∅ entries g1)
        as [[[balances|e] g2]|] eqn:Hloop; try discriminate.
      intros [= <- <- <-]. left. exists balances, g1, entries.
      split; [reflexivity|]. split; [reflexivity|]. split; [reflexivity|].
      refine (for_each_invariant
                (fun rb : gmap Asset Balance.t =>
                   forall asset b, rb !! asset = Some b ->
                     ~ (Balance.amount b == 0)%Q /\
                     exists entry va vc usd_price,
                       entry ∈ entries /\
                       py_getitem entry "amount" = Return va /\
                       deserialize_asset_amount va = Return (Balance.amount b) /\
                       py_getitem entry "currency" = Return vc /\
                       Asset_ vc = Return asset /\
                       find_usd_price asset = Return usd_price /\
                       Balance.usd_value b = (Balance.amount b * usd_price)%Q)
                (fun entry => entry ∈ entries)
                query_balances_entry _ entries ∅ g1 balances g2 _ _ Hloop).
      * intros rb entry g3 rb' g4 Hrb Hin Hbody.
        apply query_balances_entry_inserts in Hbody
          as [->|(va & amount & vc & asset' & usd_price & Hva & Hamount & Hzero
                  & Hvc & Hasset & Hprice & ->)]; [exact Hrb|].
        intros asset b. rewrite lookup_insert.
        destruct (decide (asset' = asset)) as [->|Hne]; [|apply Hrb].
        intros [= <-]. cbn [Balance.amount Balance.usd_value]. split.
        -- intros Heq. apply Qeq_bool_iff in Heq. unfold ZERO in Hzero.
           rewrite Heq in Hzero. discriminate.
        -- exists entry, va, vc, usd_price. repeat split; assumption.
      * intros asset b. rewrite lookup_empty. discriminate.
      * apply Forall_forall. intros entry Hin. exact Hin.
    + destruct e as [m|m| | | | | | | | | | |]; try discriminate;
        intros [= <- <- <-]; right.
      * exists (RemoteError m). split; [reflexivity|]. split; [reflexivity|].
        split; [reflexivity|]. right. eexists. reflexivity.
      * exists (GeminiPermissionError m). split; [reflexivity|].
        split; [reflexivity|]. split; [reflexivity|]. left. eexists. reflexivity.
  - intros rb entry va amount Hva Hamount Hzero.
    apply Qeq_bool_iff in Hzero.
    unfold query_balances_entry, try_except. rewrite Mbind_eq. unfold lift at 1.
    rewrite Hva. cbn [mbind outcome_bind obind]. rewrite Hamount.
    unfold ZERO. rewrite Hzero. reflexivity.
Qed.

End BalanceMap.

Lemma query_balances_map_witness :
  exists balances g',
    @query_balances unknowing fresh = Some (Return (Some balances, ""), g') /\
    balances !! mkAsset "BTC" = Some (Balance.mk 1 (1 * 2))%Q /\
    forall asset b, balances !! asset = Some b -> ~ (Balance.amount b == 0)%Q.
Proof.
  destruct (@query_balances unknowing fresh) as [[[[[balances|] msg]|e] g']|]
    eqn:Hrun; try (vm_compute in Hrun; discriminate).
  assert (Hmsg : msg = "") by (vm_compute in Hrun; congruence).
  subst msg. exists balances, g'. split; [reflexivity|].
  destruct (@query_balances_map unknowing fresh) as [Hmap _].
  destruct (Hmap _ _ _ Hrun)
    as [(balances' & g1 & entries & [= <-] & _ & _ & Hall)|(e & [=] & _)].
  split.
  - vm_compute in Hrun. injection Hrun as <- _. reflexivity.
  - intros asset b Hb. exact (proj1 (Hall asset b Hb)).
Defined.

(** ** Records, movements and messages *)

Lemma same_client_trans g1 g2 g3 :
  same_client g1 g2 -> same_client g2 g3 -> same_client g1 g3.
Proof.
  intros (?&?&?&?&?&?) (?&?&?&?&?&?). repeat split; congruence.
Qed.

Section Accounting.
Context `{Externals}.

Lemma same_client_get_paginated_query_loop fuel endpoint end_ts limit :
  forall options result g r g',
    _get_paginated_query_loop fuel endpoint end_ts limit options result g
    = Some (r, g') ->
    same_client g g'.
Proof.
  induction fuel as [|fuel IH]; intros options result g r g'; [discriminate|].
  rewrite _get_paginated_query_loop_S, Mbind_eq.
  unfold _get_paginated_query_turn. rewrite Mbind_eq.
  destruct (_private_api_query endpoint (Some options) g)
    as [[[single|e] g1]|] eqn:Hquery; [| |discriminate].
  - pose proof (same_client_private_api_query _ _ _ _ _ Hquery) as Hsame.
    rewrite Mbind_eq. unfold lift at 1.
    destruct (py_list single) as [page|e]; [|intros [= <- <-]; exact Hsame].
    destruct (_ <? _)%Z; [intros [= <- <-]; exact Hsame|].
    rewrite Mbind_eq. unfold lift at 1.
    destruct (match page with [] => _ | _ => _ end) as [ts|e];
      [|intros [= <- <-]; exact Hsame].
    destruct (_ >? _)%Z; [intros [= <- <-]; exact Hsame|].
    cbn [mret M_ret]. intros Hrest.
    exact (same_client_trans _ _ _ Hsame (IH _ _ _ _ _ Hrest)).
  - intros [= <- <-]. exact (same_client_private_api_query _ _ _ _ _ Hquery).
Qed.

Lemma same_client_get_paginated_query fuel endpoint start_ts end_ts kwargs g r g' :
  _get_paginated_query fuel endpoint start_ts end_ts kwargs g = Some (r, g') ->
  same_client g g'.
Proof.
  unfold _get_paginated_query. cbv zeta. rewrite Mbind_eq.
  assert (Hloop : forall limit options,
             (result ← _get_paginated_query_loop fuel endpoint end_ts limit
                         options [];
              lift (check_result end_ts (rev result) [])) g = Some (r, g') ->
             same_client g g').
  { intros limit options. rewrite Mbind_eq.
    destruct (_get_paginated_query_loop fuel endpoint end_ts limit options [] g)
      as [[[result|e] g1]|] eqn:Hrun; [| |discriminate].
    - intros [= _ <-].
      exact (same_client_get_paginated_query_loop _ _ _ _ _ _ _ _ _ Hrun).
    - intros [= _ <-].
      exact (same_client_get_paginated_query_loop _ _ _ _ _ _ _ _ _ Hrun). }
  destruct (String.eqb endpoint "mytrades"); [apply Hloop|].
  destruct (String.eqb endpoint "transfers"); [apply Hloop|].
  intros [= _ <-]. apply same_client_refl.
Qed.

Lemma movements_entry_accounted movements entry g movements' g' :
  movements_entry movements entry g = Some (Return movements', g') ->
  (length movements' + length (msg_aggregator g')
   = S (length movements + length (msg_aggregator g)))%nat.
Proof.
  unfold movements_entry.
  destruct (movement_of_entry entry) as [movement|e].
  - intros [= <- <-]. rewrite length_app. cbn. lia.
  - destruct (movement_handlers e) as [h|] eqn:Hh; [|discriminate].
    rewrite Mbind_eq.
    destruct (handler_notifies e h g (or_introl Hh)) as (message & ->).
    intros [= <- <-]. cbn [msg_aggregator]. rewrite length_app. cbn. lia.
Qed.

Lemma movements_accounted result :
  forall movements g movements' g',
    for_each movements_entry movements result g = Some (Return movements', g') ->
    (length movements' + length (msg_aggregator g')
     = length result + (length movements + length (msg_aggregator g)))%nat.
Proof.
  induction result as [|entry result IH]; intros movements g movements' g' Hrun.
  - injection Hrun as <- <-. reflexivity.
  - cbn [for_each] in Hrun.
    apply Mbind_Return in Hrun as (acc & g1 & Hentry & Hrun).
    apply IH in Hrun. apply movements_entry_accounted in Hentry.
    cbn [length]. lia.
Qed.

(** X10.  When query_online_deposits_withdrawals returns, every record of the
    paginated result is accounted for: it is one of the movements returned
    or it was notified by one message, so that movements and new messages
    are as many as the records.  The pagination itself notifies nothing. *)
Theorem deposits_withdrawals_accounted fuel start_ts end_ts g movements g' :
  query_online_deposits_withdrawals fuel start_ts end_ts g
  = Some (Return movements, g') ->
  exists result g1 notified,
    _get_paginated_query fuel "transfers" start_ts end_ts ∅ g
    = Some (Return result, g1) /\
    msg_aggregator g1 = msg_aggregator g /\
    msg_aggregator g' = (msg_aggregator g ++ notified)%list /\
    (length movements + length notified = length result)%nat.
Proof.
  unfold query_online_deposits_withdrawals. intros Hrun.
  apply Mbind_Return in Hrun as (result & g1 & Hpages & Hrun).
  destruct (same_client_get_paginated_query _ _ _ _ _ _ _ _ Hpages)
    as (_ & _ & _ & _ & _ & Hmsgs).
  assert (Hext : extends g1 g').
  { exact (preserving_for_each _ _ preserving_movements_entry _ _ _ _ Hrun). }
  destruct Hext as (_ & _ & _ & _ & [notified Hnotified] & _).
  apply movements_accounted in Hrun.
  exists result, g1, notified. split; [exact Hpages|]. split; [exact Hmsgs|].
  rewrite Hmsgs in Hnotified. split; [exact Hnotified|].
  rewrite Hnotified, Hmsgs, length_app in Hrun. cbn [length] in Hrun. lia.
Qed.

End Accounting.

Lemma deposits_withdrawals_accounted_witness :
  exists movements g',
    @query_online_deposits_withdrawals unknowing 5 0 40 fresh
    = Some (Return movements, g') /\
    length movements = 2%nat /\ length (msg_aggregator g') = 1%nat.
Proof.
  destruct (@query_online_deposits_withdrawals unknowing 5 0 40 fresh)
    as [[[movements|e] g']|] eqn:Hrun; [|vm_compute in Hrun; discriminate..].
  exists movements, g'. split; [reflexivity|].
  destruct (@deposits_withdrawals_accounted unknowing 5 0 40 fresh movements g' Hrun)
    as (result & g1 & notified & Hpages & _ & Hmsgs & Hcount).
  assert (Hresult : length result = 3%nat).
  { vm_compute in Hpages. injection Hpages as <- _. reflexivity. }
  assert (Hmovements : length movements = 2%nat).
  { vm_compute in Hrun. injection Hrun as <- _. reflexivity. }
  split; [exact Hmovements|].
  rewrite Hmsgs, length_app. cbn [fresh msg_aggregator length]. lia.
Defined.

(** ** What a symbol becomes *)

Lemma slice_to_from n s : slice_to n s ++ slice_from n s = s.
Proof.
  revert s. induction n as [|n IH]; intros [|c s]; try reflexivity.
  change (String c (slice_to n s ++ slice_from n s) = String c s).
  rewrite IH. reflexivity.
Qed.

Lemma upper_app s1 s2 : upper (s1 ++ s2) = upper s1 ++ upper s2.
Proof.
  induction s1 as [|c s1 IH]; [reflexivity|].
  change (String (upper_ascii c) (upper (s1 ++ s2))
          = String (upper_ascii c) (upper s1 ++ upper s2)).
  rewrite IH. reflexivity.
Qed.

Lemma upper_slices n s :
  upper (slice_to n s) ++ upper (slice_from n s) = upper s.
Proof. rewrite <- upper_app, slice_to_from. reflexivity. Qed.

Section SymbolResult.
Context `{Externals}.

Lemma halves_Return n symbol b q :
  halves n symbol = Return (b, q) ->
  Asset_ (JStr (upper (slice_to n symbol))) = Return b /\
  Asset_ (JStr (upper (slice_from n symbol))) = Return q.
Proof.
  unfold halves. intros Hrun.
  apply obind_Return in Hrun as (b' & Hb & Hrun).
  apply obind_Return in Hrun as (q' & Hq & Hrun).
  injection Hrun as <- <-. split; assumption.
Qed.

Lemma halves_Raise n symbol e :
  halves n symbol = Raise e -> exists x, Asset_ (JStr x) = Raise e.
Proof.
  unfold halves, mbind, outcome_bind, obind.
  destruct (Asset_ (JStr (upper (slice_to n symbol)))) as [b|e'] eqn:Hb.
  - destruct (Asset_ (JStr (upper (slice_from n symbol)))) as [q|e'] eqn:Hq;
      [discriminate|].
    intros [= <-]. eexists. exact Hq.
  - intros [= <-]. eexists. exact Hb.
Qed.

Lemma gemini_symbol_to_pair_halves symbol :
  gemini_symbol_to_pair symbol =
  ('(base_asset, quote_asset) ←
     (if (String.length symbol =? 6)%nat then halves 3 symbol
      else if (String.length symbol =? 7)%nat then
        match halves 4 symbol with
        | Raise (UnknownAsset _) => halves 3 symbol
        | r => r
        end
      else if (String.length symbol =? 8)%nat then
        if str_in "storj" symbol then halves 5 symbol else halves 4 symbol
      else Raise (UnprocessableTradePair symbol));
   Return (identifier base_asset ++ "_" ++ identifier quote_asset)).
Proof. reflexivity. Qed.

(** X11.  A pair that gemini_symbol_to_pair returns joins the identifiers of two
    assets that resolved, the upper-cased halves of the symbol cut at 3, 4
    or 5 characters: put together again, the halves are the upper-cased
    symbol.  A 6-character symbol is cut at 3, a 7-character one at 4 or 3,
    an 8-character one at 5 (with "storj") or 4.  An exception is either
    UnprocessableTradePair with the symbol, for another length, or an
    exception of the resolver. *)
Theorem gemini_symbol_to_pair_result symbol :
  (forall p,
      gemini_symbol_to_pair symbol = Return p ->
      exists n b q,
        ((n = 3%nat /\ (String.length symbol = 6%nat \/ String.length symbol = 7%nat)) \/
         (n = 4%nat /\ (String.length symbol = 7%nat \/
                        (String.length symbol = 8%nat /\
                         str_in "storj" symbol = false))) \/
         (n = 5%nat /\ String.length symbol = 8%nat /\
          str_in "storj" symbol = true)) /\
        Asset_ (JStr (upper (slice_to n symbol))) = Return b /\
        Asset_ (JStr (upper (slice_from n symbol))) = Return q /\
        p = identifier b ++ "_" ++ identifier q /\
        upper (slice_to n symbol) ++ upper (slice_from n symbol) = upper symbol) /\
  (forall e,
      gemini_symbol_to_pair symbol = Raise e ->
      (e = UnprocessableTradePair symbol /\
       String.length symbol <> 6%nat /\ String.length symbol <> 7%nat /\
       String.length symbol <> 8%nat) \/
      exists x, Asset_ (JStr x) = Raise e).
Proof.
  rewrite gemini_symbol_to_pair_halves. split.
  - intros p Hrun. apply obind_Return in Hrun as ([b q] & Hhalves & Hp).
    injection Hp as <-.
    assert (Hdone : forall n,
               halves n symbol = Return (b, q) ->
               ((n = 3%nat /\ (String.length symbol = 6%nat \/
                               String.length symbol = 7%nat)) \/
                (n = 4%nat /\ (String.length symbol = 7%nat \/
                               (String.length symbol = 8%nat /\
                                str_in "storj" symbol = false))) \/
                (n = 5%nat /\ String.length symbol = 8%nat /\
                 str_in "storj" symbol = true)) ->
               exists n b' q',
                 ((n = 3%nat /\ (String.length symbol = 6%nat \/
                                 String.length symbol = 7%nat)) \/
                  (n = 4%nat /\ (String.length symbol = 7%nat \/
                                 (String.length symbol = 8%nat /\
                                  str_in "storj" symbol = false))) \/
                  (n = 5%nat /\ String.length symbol = 8%nat /\
                   str_in "storj" symbol = true)) /\
                 Asset_ (JStr (upper (slice_to n symbol))) = Return b' /\
                 Asset_ (JStr (upper (slice_from n symbol))) = Return q' /\
                 identifier b ++ "_" ++ identifier q
                 = identifier b' ++ "_" ++ identifier q' /\
                 upper (slice_to n symbol) ++ upper (slice_from n symbol)
                 = upper symbol).
    { intros n Hn Hcase. apply halves_Return in Hn as [Hb Hq].
      exists n, b, q. split; [exact Hcase|]. split; [exact Hb|].
      split; [exact Hq|]. split; [reflexivity|apply upper_slices]. }
    destruct (String.length symbol =? 6)%nat eqn:H6.
    { apply Nat.eqb_eq in H6. apply (Hdone 3%nat Hhalves). left. tauto. }
    destruct (String.length symbol =? 7)%nat eqn:H7.
    { apply Nat.eqb_eq in H7.
      destruct (halves 4 symbol) as [[b4 q4]|e4] eqn:H4.
      - injection Hhalves as -> ->. apply (Hdone 4%nat H4). right; left. tauto.
      - destruct e4; try discriminate.
        apply (Hdone 3%nat Hhalves). left. tauto. }
    destruct (String.length symbol =? 8)%nat eqn:H8; [|discriminate].
    apply Nat.eqb_eq in H8.
    destruct (str_in "storj" symbol) eqn:Hstorj.
    + apply (Hdone 5%nat Hhalves). right; right. tauto.
    + apply (Hdone 4%nat Hhalves). right; left. tauto.
  - intros e Hrun.
    assert (Hhalves :
              (if (String.length symbol =? 6)%nat then halves 3 symbol
               else if (String.length symbol =? 7)%nat then
                 match halves 4 symbol with
                 | Raise (UnknownAsset _) => halves 3 symbol
                 | r => r
                 end
               else if (String.length symbol =? 8)%nat then
                 if str_in "storj" symbol then halves 5 symbol
                 else halves 4 symbol
               else Raise (UnprocessableTradePair symbol)) = Raise e).
    { destruct (if (String.length symbol =? 6)%nat then _ else _) as [[b q]|e'];
        [discriminate|]. injection Hrun as <-. reflexivity. }
    clear Hrun.
    destruct (String.length symbol =? 6)%nat eqn:H6.
    { right. exact (halves_Raise _ _ _ Hhalves). }
    destruct (String.length symbol =? 7)%nat eqn:H7.
    { right. destruct (halves 4 symbol) as [[b4 q4]|e4] eqn:H4; [discriminate|].
      destruct e4; try (injection Hhalves as <-; exact (halves_Raise _ _ _ H4)).
      exact (halves_Raise _ _ _ Hhalves). }
    destruct (String.length symbol =? 8)%nat eqn:H8.
    { right. destruct (str_in "storj" symbol); exact (halves_Raise _ _ _ Hhalves). }
    injection Hhalves as <-. left.
    apply Nat.eqb_neq in H6, H7, H8. tauto.
Qed.

End SymbolResult.

Lemma gemini_symbol_to_pair_result_witness :
  @gemini_symbol_to_pair permissive "ethbtc" = Return "ETH_BTC" /\
  exists n,
    upper (slice_to n "ethbtc") = "ETH" /\ upper (slice_from n "ethbtc") = "BTC".
Proof.
  split; [reflexivity|].
  destruct (@gemini_symbol_to_pair_result permissive "ethbtc") as [Hreturn _].
  destruct (Hreturn "ETH_BTC" eq_refl)
    as (n & b & q & Hn & Hb & Hq & _ & _).
  exists n.
  destruct Hn as [[-> _]|[[-> [[=]|[[=] _]]]|[-> [[=] _]]]].
  split; reflexivity.
Defined.

(** ** The trade loop *)

Section TradeLoop.
Context `{Externals}.

Lemma trade_of_entry_late end_ts symbol late v ts :
  py_getitem late "timestamp" = Return v ->
  deserialize_timestamp v = Return ts ->
  (end_ts < ts)%Z ->
  trade_of_entry end_ts symbol late = Return None.
Proof.
  intros Hv Hts Hlate. unfold trade_of_entry. rewrite Hv. cbn [mbind outcome_bind obind].
  rewrite Hts. cbn [mbind outcome_bind obind].
  replace (ts >? end_ts)%Z with true by (symmetry; apply Z.gtb_lt; lia).
  reflexivity.
Qed.

(** X12.  The loop over the trades of a symbol ends at the first record whose
    timestamp is after end_ts: whatever the venue lists after that record,
    readable or not, the trades and the messages are those of the records
    before it. *)
Theorem trades_stop_at_end_ts end_ts symbol late after v ts :
  py_getitem late "timestamp" = Return v ->
  deserialize_timestamp v = Return ts ->
  (end_ts < ts)%Z ->
  forall before trades g,
    trades_of_entries end_ts symbol (before ++ late :: after) trades g
    = trades_of_entries end_ts symbol before trades g.
Proof.
  intros Hv Hts Hlate before.
  induction before as [|entry before IH]; intros trades g.
  - cbn [app trades_of_entries].
    rewrite (trade_of_entry_late _ _ _ _ _ Hv Hts Hlate). reflexivity.
  - cbn [app trades_of_entries].
    destruct (trade_of_entry end_ts symbol entry) as [[trade|]|e].
    + apply IH.
    + reflexivity.
    + destruct (trade_handlers e) as [h|]; [|reflexivity].
      change ((h ≫= fun _ => trades_of_entries end_ts symbol
                                 (before ++ late :: after) trades) g
              = (h ≫= fun _ => trades_of_entries end_ts symbol before trades) g).
      rewrite !Mbind_eq. destruct (h g) as [[[[]|e'] g1]|]; try reflexivity.
      apply IH.
Qed.

Lemma gemini_symbol_to_pair_other_length s :
  String.length s <> 6%nat -> String.length s <> 7%nat ->
  String.length s <> 8%nat ->
  gemini_symbol_to_pair s = Raise (UnprocessableTradePair s).
Proof.
  intros H6 H7 H8. rewrite gemini_symbol_to_pair_halves.
  apply Nat.eqb_neq in H6, H7, H8. rewrite H6, H7, H8. reflexivity.
Qed.

(** X13.  For a symbol that is not 6, 7 or 8 characters long the venue is asked
    all the same, and every trade of it within the window is turned down
    on its own: no trade is added, and one warning per record names the
    symbol. *)
Theorem trades_of_unprocessable_symbol end_ts s entries :
  String.length s <> 6%nat -> String.length s <> 7%nat ->
  String.length s <> 8%nat ->
  Forall (in_window end_ts) entries ->
  forall trades g,
    trades_of_entries end_ts (JStr s) entries trades g
    = Some (Return trades,
            with_messages g (repeat (unprocessable_warning s) (length entries))).
Proof.
  intros H6 H7 H8 Hentries.
  induction Hentries as [|entry entries (v & ts & Hv & Hts & Hin) _ IH];
    intros trades g.
  - cbn [trades_of_entries length repeat]. unfold with_messages.
    rewrite app_nil_r. destruct g; reflexivity.
  - cbn [trades_of_entries].
    assert (Hentry : trade_of_entry end_ts (JStr s) entry
                     = Raise (UnprocessableTradePair s)).
    { unfold trade_of_entry. rewrite Hv. cbn [mbind outcome_bind obind].
      rewrite Hts. cbn [mbind outcome_bind obind].
      replace (ts >? end_ts)%Z with false
        by (symmetry; rewrite Z.gtb_ltb; apply Z.ltb_ge; lia).
      cbn [symbol_to_pair].
      rewrite (gemini_symbol_to_pair_other_length s H6 H7 H8). reflexivity. }
    rewrite Hentry. cbn [trade_handlers].
    change ((add_warning
               ("Found unprocessable Gemini pair " ++ s ++ ". Ignoring the trade.")
               ≫= fun _ => trades_of_entries end_ts (JStr s) entries trades) g
            = Some (Return trades,
                    with_messages g (repeat (unprocessable_warning s)
                                  (length (entry :: entries))))).
    rewrite Mbind_eq. unfold add_warning at 1. rewrite IH.
    unfold with_messages.
    cbn [api_key secret base_uri first_connection_made _symbols
           session_payload msg_aggregator world length repeat].
    rewrite <- app_assoc. reflexivity.
Qed.

End TradeLoop.

Lemma trades_stop_at_end_ts_witness :
  (5 < 10)%Z /\
  @trades_of_entries permissive 5 (JStr "btcusd")
    [trade 1 "USD" 1; trade 10 "USD" 2; JNull] [] fresh
  = @trades_of_entries permissive 5 (JStr "btcusd") [trade 1 "USD" 1] [] fresh /\
  (exists e g,
      @trades_of_entries permissive 5 (JStr "btcusd")
        [trade 1 "USD" 1; JNull] [] fresh = Some (Raise e, g)).
Proof.
  split; [lia|]. split.
  - apply (@trades_stop_at_end_ts permissive 5 (JStr "btcusd")
             (trade 10 "USD" 2) [JNull] (JInt 10) 10
             eq_refl eq_refl ltac:(lia) [trade 1 "USD" 1] [] fresh).
  - eexists _, _. vm_compute. reflexivity.
Defined.

Lemma trades_of_unprocessable_symbol_witness :
  Forall (@in_window permissive 5) [trade 1 "USD" 1; trade 2 "USD" 2] /\
  @trades_of_entries permissive 5 (JStr "btc")
    [trade 1 "USD" 1; trade 2 "USD" 2] [] fresh
  = Some (Return [],
          with_messages fresh [unprocessable_warning "btc"; unprocessable_warning "btc"]).
Proof.
  assert (Hwindow : Forall (@in_window permissive 5)
                      [trade 1 "USD" 1; trade 2 "USD" 2]).
  { repeat constructor.
    - exists (JInt 1), 1%Z. split; [reflexivity|]. split; [reflexivity|lia].
    - exists (JInt 2), 2%Z. split; [reflexivity|]. split; [reflexivity|lia]. }
  split; [exact Hwindow|].
  apply (@trades_of_unprocessable_symbol permissive 5 "btc"
           [trade 1 "USD" 1; trade 2 "USD" 2]
           ltac:(cbn; lia) ltac:(cbn; lia) ltac:(cbn; lia) Hwindow [] fresh).
Defined.

(** ** _get_trades_for_symbol *)

Section TradesForSymbol.
Context `{Externals}.

(** X14.  _get_trades_for_symbol never raises RemoteError or
    GeminiPermissionError.  When the paginated query raises one of them,
    the answer is no trades and one error message with the text of the
    exception, and the pages already fetched are lost; anything else the
    paginated query does, an exception of another class too, is the
    outcome as it is. *)
Theorem _get_trades_for_symbol_outcome fuel symbol start_ts end_ts g r g' :
  _get_trades_for_symbol fuel symbol start_ts end_ts g = Some (r, g') ->
  (forall m, r <> Raise (RemoteError m)) /\
  (forall m, r <> Raise (GeminiPermissionError m)) /\
  exists r1 g1,
    _get_paginated_query fuel "mytrades" start_ts end_ts {["symbol" := symbol]} g
    = Some (r1, g1) /\
    match r1 with
    | Raise (RemoteError m) =>
        r = Return [] /\
        g' = with_messages g1
               [Error ("Got remote error while querying Gemini for trades: " ++ m)]
    | Raise (GeminiPermissionError m) =>
        r = Return [] /\
        g' = with_messages g1
               [Error ("Got permission error while querying Gemini for trades: "
                       ++ m)]
    | _ => r = r1 /\ g' = g1
    end.
Proof.
  unfold _get_trades_for_symbol, try_except. intros Hrun.
  destruct (_get_paginated_query fuel "mytrades" start_ts end_ts
              {["symbol" := symbol]} g) as [[r1 g1]|]; [|discriminate].
  destruct r1 as [trades|e].
  - injection Hrun as <- <-.
    split; [discriminate|]. split; [discriminate|].
    exists (Return trades), g1. split; [reflexivity|]. split; reflexivity.
  - destruct e; injection Hrun as <- <-;
      (split; [discriminate|]); (split; [discriminate|]);
      eexists _, g1; (split; [reflexivity|]); split; reflexivity.
Qed.

End TradesForSymbol.

Lemma _get_trades_for_symbol_outcome_witness :
  exists r g',
    @_get_trades_for_symbol busy 1 (JStr "btcusd") 0 10 fresh = Some (r, g') /\
    r = Return [] /\ length (msg_aggregator g') = 1%nat /\
    (forall m, r <> Raise (RemoteError m)).
Proof.
  destruct (@_get_trades_for_symbol busy 1 (JStr "btcusd") 0 10 fresh)
    as [[r g']|] eqn:Hrun; [|vm_compute in Hrun; discriminate].
  exists r, g'. split; [reflexivity|].
  destruct (@_get_trades_for_symbol_outcome busy 1 (JStr "btcusd") 0 10 fresh
              r g' Hrun) as (Hremote & _ & _).
  vm_compute in Hrun. injection Hrun as <- <-.
  split; [reflexivity|]. split; [reflexivity|exact Hremote].
Defined.

(** ** The pages of _get_paginated_query *)

Section PagesOfQuery.
Context `{Externals}.

(** a turn of the loop, given the page its query was answered with *)
Lemma turn_of_page endpoint end_ts limit options result g page g1 :
  _private_api_query endpoint (Some options) g
  = Some (Return (JList page), g1) ->
  _get_paginated_query_turn endpoint end_ts limit options result g =
  Some (if (Z.of_nat (length page) <? limit)%Z
        then Return ((result ++ page)%list, None)
        else match page with
             | first :: _ =>
                 ts ← timestampms first;
                 if (Z.quot ts 1000 >? end_ts)%Z
                 then Return ((result ++ page)%list, None)
                 else Return ((result ++ page)%list,
                              Some (<["timestamp" := JInt (ts + 1)]> options))
             | [] => Raise (IndexError "list index out of range")
             end, g1).
Proof.
  intros Hquery. unfold _get_paginated_query_turn.
  rewrite Mbind_eq, Hquery, Mbind_eq. cbn [py_list lift].
  destruct (Z.of_nat (length page) <? limit)%Z; [reflexivity|].
  rewrite Mbind_eq. destruct page as [|first rest]; cbn [lift]; [reflexivity|].
  fold (timestampms first).
  destruct (timestampms first) as [ts|e]; [|reflexivity].
  rewrite py_int_truediv. cbn [mbind outcome_bind obind].
  destruct (Z.quot ts 1000 >? end_ts)%Z; reflexivity.
Qed.

(** a turn that ends the loop was answered with a last page *)
Lemma turn_breaks endpoint end_ts limit options result g result' g' :
  _get_paginated_query_turn endpoint end_ts limit options result g
  = Some (Return (result', None), g') ->
  exists page,
    _private_api_query endpoint (Some options) g
    = Some (Return (JList page), g') /\
    last_page end_ts limit page /\ result' = (result ++ page)%list.
Proof.
  intros Hturn.
  destruct (_private_api_query_total endpoint (Some options) g)
    as [[[single|e] g1] Hquery].
  - destruct single as [| | | |page|];
      try (unfold _get_paginated_query_turn in Hturn;
           rewrite Mbind_eq, Hquery, Mbind_eq in Hturn; discriminate).
    rewrite (turn_of_page _ _ _ _ _ _ _ _ Hquery) in Hturn.
    destruct (Z.of_nat (length page) <? limit)%Z eqn:Hshort.
    + injection Hturn as <- <-. exists page.
      split; [exact Hquery|]. split; [|reflexivity].
      left. apply Z.ltb_lt. exact Hshort.
    + destruct page as [|first rest]; [discriminate|].
      destruct (timestampms first) as [ts|e] eqn:Hts; [|discriminate].
      cbn [mbind outcome_bind obind] in Hturn.
      destruct (Z.quot ts 1000 >? end_ts)%Z eqn:Hover; [|discriminate].
      injection Hturn as <- <-. exists (first :: rest).
      split; [exact Hquery|]. split; [|reflexivity].
      right. exists first, rest, ts.
      split; [reflexivity|]. split; [exact Hts|].
      apply Z.gtb_lt in Hover. lia.
  - unfold _get_paginated_query_turn in Hturn.
    rewrite Mbind_eq, Hquery in Hturn. discriminate.
Qed.

(** the result of the loop is made of the pages of its queries *)
Lemma _get_paginated_query_loop_pages endpoint end_ts limit fuel :
  forall options result g out g',
    _get_paginated_query_loop fuel endpoint end_ts limit options result g
    = Some (Return out, g') ->
    exists pages,
      paginates endpoint end_ts limit options g pages g' /\
      (length pages <= fuel)%nat /\ out = (result ++ concat pages)%list.
Proof.
  induction fuel as [|fuel IH]; intros options result g out g' Hrun;
    [discriminate|].
  rewrite _get_paginated_query_loop_S in Hrun.
  apply Mbind_Return in Hrun as ([result' next] & g1 & Hturn & Hrest).
  destruct next as [options'|].
  - apply turn_continues in Hturn
      as (first & rest & ts & Hquery & Hfull & Hts & Hin & -> & ->).
    apply IH in Hrest as (pages & Hpages & Hlen & ->).
    exists ((first :: rest) :: pages).
    split; [exact (paginates_more _ _ _ _ _ _ _ _ _ _ _
                     Hquery Hfull Hts Hin Hpages)|].
    split; [cbn [length]; lia|].
    cbn [concat]. rewrite <- !app_assoc. reflexivity.
  - injection Hrest as <- <-.
    apply turn_breaks in Hturn as (page & Hquery & Hlast & ->).
    exists [page]. split; [exact (paginates_last _ _ _ _ _ _ _ Hquery Hlast)|].
    split; [cbn [length]; lia|].
    cbn [concat]. rewrite app_nil_r. reflexivity.
Qed.

(** the pages of the queries make the result of the loop *)
Lemma pages_get_paginated_query_loop endpoint end_ts limit options g pages g' :
  paginates endpoint end_ts limit options g pages g' ->
  forall fuel result,
    (length pages <= fuel)%nat ->
    _get_paginated_query_loop fuel endpoint end_ts limit options result g
    = Some (Return (result ++ concat pages)%list, g').
Proof.
  induction 1 as [options g page g' Hquery Hlast
                 |options g first rest ts g1 pages g' Hquery Hfull Hts Hin _ IH];
    intros [|fuel] result Hlen; cbn [length] in Hlen; try lia.
  - rewrite _get_paginated_query_loop_S, Mbind_eq,
      (turn_of_page _ _ _ _ _ _ _ _ Hquery).
    cbn [concat]. rewrite app_nil_r.
    destruct (Z.of_nat (length page) <? limit)%Z eqn:Hshort; [reflexivity|].
    destruct Hlast as [Hlt|(first & rest & ts & -> & Hts & Hover)];
      [apply Z.ltb_ge in Hshort; lia|].
    rewrite Hts. cbn [mbind outcome_bind obind].
    replace (Z.quot ts 1000 >? end_ts)%Z with true
      by (symmetry; apply Z.gtb_lt; lia).
    reflexivity.
  - rewrite _get_paginated_query_loop_S, Mbind_eq,
      (turn_of_page _ _ _ _ _ _ _ _ Hquery).
    replace (Z.of_nat (length (first :: rest)) <? limit)%Z with false
      by (symmetry; apply Z.ltb_ge; lia).
    rewrite Hts. cbn [mbind outcome_bind obind].
    replace (Z.quot ts 1000 >? end_ts)%Z with false
      by (symmetry; rewrite Z.gtb_ltb; apply Z.ltb_ge; lia).
    rewrite IH by lia. cbn [concat]. rewrite <- !app_assoc. reflexivity.
Qed.

(** what the trim keeps and what it drops *)
Lemma check_result_cut end_ts result :
  forall checked_result out,
    check_result end_ts result checked_result = Return out ->
    exists kept dropped,
      out = (checked_result ++ kept)%list /\ result = (kept ++ dropped)%list /\
      Forall (within end_ts) kept /\ cut_at end_ts dropped.
Proof.
  induction result as [|entry rest IH]; intros checked_result out Hrun.
  - injection Hrun as <-. exists [], [].
    rewrite app_nil_r. repeat split. constructor.
  - rewrite check_result_S in Hrun.
    destruct (timestampms entry) as [ts|e] eqn:Hts; [|discriminate].
    cbn [mbind outcome_bind obind] in Hrun.
    destruct (ts >? end_ts * 1000)%Z eqn:Hover.
    + injection Hrun as <-. exists [], (entry :: rest).
      rewrite app_nil_r. split; [reflexivity|]. split; [reflexivity|].
      split; [constructor|]. exists ts. split; [exact Hts|].
      apply Z.gtb_lt in Hover. lia.
    + apply IH in Hrun as (kept & dropped & -> & -> & Hkept & Hcut).
      exists (entry :: kept), dropped. rewrite <- app_assoc.
      split; [reflexivity|]. split; [reflexivity|]. split; [|exact Hcut].
      constructor; [|exact Hkept]. exists ts. split; [exact Hts|].
      rewrite Z.gtb_ltb in Hover. apply Z.ltb_ge in Hover. exact Hover.
Qed.

Lemma cut_check_result end_ts out dropped :
  Forall (within end_ts) out -> cut_at end_ts dropped ->
  check_result end_ts (out ++ dropped) [] = Return out.
Proof.
  intros Hout Hcut. rewrite (check_result_keeps _ _ _ _ Hout). cbn [app].
  destruct dropped as [|entry dropped]; [reflexivity|].
  destruct Hcut as (ts & Hts & Hover).
  exact (check_result_stops _ _ _ _ _ Hts Hover).
Qed.

(** X15.  _get_paginated_query returns a list exactly in this case: the endpoint
    is one of the two; the venue answers the queries with pages, the first
    query made with the options of the call and its limit, each further
    one one millisecond past the first record of the full page before it,
    until a page is short or begins past the end of the window; and the
    list is the pages, in the order they came, read backwards and cut
    before the first record past the end of the window.  The records
    behind the cut are dropped whatever their own time. *)
Theorem _get_paginated_query_result fuel endpoint start_ts end_ts kwargs g out g' :
  _get_paginated_query fuel endpoint start_ts end_ts kwargs g
  = Some (Return out, g') <->
  (endpoint = "mytrades" \/ endpoint = "transfers") /\
  exists pages dropped,
    paginates endpoint end_ts (page_limit endpoint)
      (first_options endpoint start_ts kwargs) g pages g' /\
    (length pages <= fuel)%nat /\
    rev (concat pages) = (out ++ dropped)%list /\
    Forall (within end_ts) out /\ cut_at end_ts dropped.
Proof.
  unfold _get_paginated_query, first_options, page_limit. cbv zeta.
  destruct (String.eqb endpoint "mytrades") eqn:Hmytrades.
  - rewrite Mbind_eq. cbn [mret M_ret]. rewrite Mbind_eq. split.
    + intros Hrun.
      destruct (_get_paginated_query_loop fuel endpoint end_ts 500 _ [] g)
        as [[[result|e] g1]|] eqn:Hloop; try discriminate.
      cbn [lift] in Hrun. injection Hrun as Hcheck <-.
      apply _get_paginated_query_loop_pages in Hloop
        as (pages & Hpages & Hlen & ->).
      apply check_result_cut in Hcheck
        as (kept & dropped & -> & Hrev & Hkept & Hcut).
      split; [left; apply String.eqb_eq; exact Hmytrades|].
      exists pages, dropped. cbn [app] in Hrev |- *.
      repeat (split; [assumption|]). exact Hcut.
    + intros (_ & pages & dropped & Hpages & Hlen & Hrev & Hout & Hcut).
      rewrite (pages_get_paginated_query_loop _ _ _ _ _ _ _ Hpages fuel [] Hlen).
      cbn [app lift]. rewrite Hrev, (cut_check_result _ _ _ Hout Hcut).
      reflexivity.
  - destruct (String.eqb endpoint "transfers") eqn:Htransfers.
    + rewrite Mbind_eq. cbn [mret M_ret]. rewrite Mbind_eq. split.
      * intros Hrun.
        destruct (_get_paginated_query_loop fuel endpoint end_ts 50 _ [] g)
          as [[[result|e] g1]|] eqn:Hloop; try discriminate.
        cbn [lift] in Hrun. injection Hrun as Hcheck <-.
        apply _get_paginated_query_loop_pages in Hloop
          as (pages & Hpages & Hlen & ->).
        apply check_result_cut in Hcheck
          as (kept & dropped & -> & Hrev & Hkept & Hcut).
        split; [right; apply String.eqb_eq; exact Htransfers|].
        exists pages, dropped. cbn [app] in Hrev |- *.
        repeat (split; [assumption|]). exact Hcut.
      * intros (_ & pages & dropped & Hpages & Hlen & Hrev & Hout & Hcut).
        rewrite (pages_get_paginated_query_loop _ _ _ _ _ _ _ Hpages fuel [] Hlen).
        cbn [app lift]. rewrite Hrev, (cut_check_result _ _ _ Hout Hcut).
        reflexivity.
    + split; [discriminate|].
      intros ([Heq|Heq] & _); apply String.eqb_eq in Heq; congruence.
Qed.

End PagesOfQuery.

Lemma _get_paginated_query_result_witness :
  exists out g',
    @_get_paginated_query honest 5 "transfers" 0 2 ∅ fresh
    = Some (Return out, g') /\
    length out = 51%nat /\
    exists pages dropped,
      @paginates honest "transfers" 2 50 (first_options "transfers" 0 ∅)
        fresh pages g' /\
      rev (concat pages) = (out ++ dropped)%list.
Proof.
  destruct (@_get_paginated_query honest 5 "transfers" 0 2 ∅ fresh)
    as [[[out|e] g']|] eqn:Hrun;
    [|vm_compute in Hrun; discriminate|vm_compute in Hrun; discriminate].
  exists out, g'. split; [reflexivity|].
  destruct (proj1 (@_get_paginated_query_result honest 5 "transfers" 0 2 ∅
                     fresh out g') Hrun)
    as (_ & pages & dropped & Hpages & _ & Hrev & _).
  split; [|exists pages, dropped; split; assumption].
  vm_compute in Hrun. injection Hrun as <- _. reflexivity.
Defined.

(** ** The trades of the history *)

Section TradesNormalForm.
Context `{Externals}.

Lemma trade_of_entry_normal end_ts symbol entry t :
  trade_of_entry end_ts symbol entry = Return (Some t) ->
  Trade.location t = GEMINI /\ Trade.notes t = "" /\
  symbol_to_pair symbol = Return (Trade.pair t).
Proof.
  unfold trade_of_entry. intros Hrun.
  apply obind_Return in Hrun as (timestamp & _ & Hrun).
  destruct (timestamp >? end_ts)%Z; [discriminate|].
  apply obind_Return in Hrun as (trade_pair & Hpair & Hrun).
  repeat (apply obind_Return in Hrun as (? & _ & Hrun)).
  injection Hrun as <-. cbn. split; [reflexivity|]. split; [reflexivity|].
  exact Hpair.
Qed.

Lemma trades_of_entries_normal end_ts syms symbol gemini_trades :
  symbol ∈ syms ->
  forall trades g out g',
    Forall (normal_trade end_ts syms) trades ->
    trades_of_entries end_ts symbol gemini_trades trades g
    = Some (Return out, g') ->
    Forall (normal_trade end_ts syms) out.
Proof.
  intros Hsymbol.
  induction gemini_trades as [|entry rest IH]; intros trades g out g' Htrades Hrun.
  - injection Hrun as <- _. exact Htrades.
  - cbn [trades_of_entries] in Hrun.
    destruct (trade_of_entry end_ts symbol entry) as [[trade|]|e] eqn:Hentry.
    + apply (IH (trades ++ [trade])%list g out g'); [|exact Hrun].
      apply Forall_app. split; [exact Htrades|].
      constructor; [|constructor].
      destruct (trade_of_entry_normal _ _ _ _ Hentry) as (Hloc & Hnotes & Hpair).
      split; [exact Hloc|]. split; [exact Hnotes|].
      exists symbol, entry. split; [exact Hsymbol|]. split; assumption.
    + injection Hrun as <- _. exact Htrades.
    + destruct (trade_handlers e) as [h|]; [|discriminate].
      apply Mbind_Return in Hrun as ([] & g1 & _ & Hrun).
      exact (IH _ _ _ _ Htrades Hrun).
Qed.

(** X16.  Every trade that query_online_trade_history returns is what a record
    normalized to for one of the symbols the client holds: a trade of this
    venue, without notes, whose pair is the pair of that symbol. *)
Theorem trade_history_normal_form fuel start_ts end_ts g trades g' :
  query_online_trade_history fuel start_ts end_ts g = Some (Return trades, g') ->
  Forall (normal_trade end_ts (_symbols g')) trades.
Proof.
  unfold query_online_trade_history. intros Hrun.
  apply Mbind_Return in Hrun as (syms & g1 & Hsyms & Hrun).
  apply symbols_Return in Hsyms as (Hmade & ->).
  assert (Hextends : extends g1 g').
  { refine (preserving_for_each _ _ _ _ _ _ _ Hrun).
    intros trades0 symbol. apply preserving_bind.
    - apply preserving_get_trades_for_symbol.
    - intros gemini_trades. apply preserving_trades_of_entries. }
  destruct Hextends as (_ & _ & _ & _ & _ & Hkeeps).
  destruct (Hkeeps Hmade) as (Hmade' & Hsymbols').
  rewrite Hsymbols'.
  refine (for_each_invariant
            (Forall (normal_trade end_ts (_symbols g1)))
            (fun symbol => symbol ∈ _symbols g1)
            _ _ (_symbols g1) [] g1 trades g' (Forall_nil_2 _) _ Hrun).
  - intros acc symbol g2 acc' g3 Hacc Hsymbol Hbody.
    apply Mbind_Return in Hbody as (gemini_trades & g4 & _ & Hbody).
    exact (trades_of_entries_normal _ _ _ _ Hsymbol _ _ _ _ Hacc Hbody).
  - apply Forall_forall. intros symbol Hsymbol. exact Hsymbol.
Qed.

End TradesNormalForm.

Lemma trade_history_normal_form_witness :
  exists trades g',
    @query_online_trade_history unknowing 5 0 40 fresh = Some (Return trades, g') /\
    length trades = 2%nat /\
    Forall (@normal_trade unknowing 40 (_symbols g')) trades.
Proof.
  destruct (@query_online_trade_history unknowing 5 0 40 fresh)
    as [[[trades|e] g']|] eqn:Hrun; [|vm_compute in Hrun; discriminate..].
  exists trades, g'. split; [reflexivity|].
  split; [|exact (@trade_history_normal_form unknowing 5 0 40 fresh trades g' Hrun)].
  vm_compute in Hrun. injection Hrun as <- _. reflexivity.
Defined.
